(** * Hybrid resume scoring: the services of src/services, embedded and verified

    The development follows the three TypeScript services that compute a
    relevance score for a resume against a job description:

    - [EnhancedAnalysisService] (src/services/enhancedAnalysisService.ts),
    - [SimpleAnalysisService] and [AIAnalysisService] (the two sibling
      implementations kept next to it in the repository).

    JavaScript numbers are IEEE-754 binary64 values; they are modelled with
    the standard library's [spec_float] at precision 53 and maximal exponent
    1024, so that every arithmetic step rounds the way the runtime does. *)

From Stdlib Require Import ZArith Lia List Bool Ascii String.
From Stdlib Require Import QArith.QArith_base QArith.Qround.
From Stdlib Require Import Floats.SpecFloat.
From stdpp Require Import base list strings gmap.

Open Scope Z_scope.

(** ** The fragment of the JavaScript runtime the services rely on *)

Module JS.

(** *** Numbers *)

Definition number : Type := spec_float.

Definition prec : Z := 53.
Definition emax : Z := 1024.

Definition mul (x y : number) : number := SFmul prec emax x y.
Definition add (x y : number) : number := SFadd prec emax x y.
Definition sub (x y : number) : number := SFsub prec emax x y.
Definition div (x y : number) : number := SFdiv prec emax x y.

(** [x >= y], [x > y], [x < y] of the language: false as soon as one side
    is NaN. *)
Definition geb (x y : number) : bool := SFleb y x.
Definition gtb (x y : number) : bool := SFltb y x.
Definition ltb (x y : number) : bool := SFltb x y.

Definition NaN : number := S754_nan.

(** The number denoted by an integer literal or by an array length. *)
Definition of_Z (n : Z) : number := binary_normalize prec emax n 0 false.
Definition of_nat (n : nat) : number := of_Z (Z.of_nat n).

(** The decimal literals [0.4] and [0.6]: the doubles nearest to 2/5 and
    3/5 (bit patterns 0x3FD999999999999A and 0x3FE3333333333333). *)
Definition lit_0_4 : number := S754_finite false 7205759403792794 (-54).
Definition lit_0_6 : number := S754_finite false 5404319552844595 (-53).

(** The integer a number denotes, when it denotes one. *)
Definition to_Z (x : number) : option Z :=
  match x with
  | S754_zero _ => Some 0
  | S754_finite s m e =>
      if 0 <=? e then Some (cond_Zopp s (Z.pos m * 2 ^ e))
      else if (Z.pos m mod 2 ^ (- e) =? 0)
           then Some (cond_Zopp s (Z.pos m / 2 ^ (- e)))
           else None
  | _ => None
  end.

(** [Math.round]: the integral number closest to [x], ties going towards
    plus infinity, that is floor(x + 1/2) computed without rounding error.
    NaN, the infinities and the zeros are returned unchanged; a finite
    number with a non-negative exponent is already integral. *)
Definition Math_round (x : number) : number :=
  match x with
  | S754_finite s m e =>
      if 0 <=? e then x
      else
        let n := (2 * cond_Zopp s (Z.pos m) + 2 ^ (- e)) / 2 ^ (1 - e) in
        if n =? 0 then S754_zero s else of_Z n
  | _ => x
  end.

(** [Math.min] and [Math.max] on two arguments: NaN is contagious, and
    -0 is below +0. *)
Definition Math_min (x y : number) : number :=
  match x, y with
  | S754_nan, _ | _, S754_nan => NaN
  | S754_zero sx, S754_zero sy => S754_zero (sx || sy)
  | _, _ => if SFltb y x then y else x
  end.

Definition Math_max (x y : number) : number :=
  match x, y with
  | S754_nan, _ | _, S754_nan => NaN
  | S754_zero sx, S754_zero sy => S754_zero (sx && sy)
  | _, _ => if SFltb x y then y else x
  end.

(** Truthiness of a number: everything but the zeros and NaN. *)
Definition truthy_number (x : number) : bool :=
  match x with
  | S754_zero _ | S754_nan => false
  | _ => true
  end.

#[global] Instance number_eq_dec : EqDecision number.
Proof. solve_decision. Defined.

(** *** Strings

    A string is the sequence of bytes of its UTF-8 encoding; on well-formed
    text the substring test on these bytes is the substring test of the
    language. On text made of ASCII characters only,
    [String.prototype.toLowerCase] folds the letters A to Z and leaves
    every other character alone: that is [toLowerCase_ascii]. On other
    text the conversion follows the Unicode case mappings, which depend on
    the neighbouring characters; it is left to the runtime (see
    [toLowerCase] below). *)

Definition lower_ascii (c : ascii) : ascii :=
  let n := nat_of_ascii c in
  if ((65 <=? n) && (n <=? 90))%nat then ascii_of_nat (n + 32) else c.

Fixpoint toLowerCase_ascii (s : string) : string :=
  match s with
  | EmptyString => EmptyString
  | String c s' => String (lower_ascii c) (toLowerCase_ascii s')
  end.

(** Whether every character of [s] is an ASCII character. *)
Fixpoint ascii_text (s : string) : bool :=
  match s with
  | EmptyString => true
  | String c s' => (nat_of_ascii c <? 128)%nat && ascii_text s'
  end.

Fixpoint includes (s sub : string) : bool :=
  String.prefix sub s ||
  match s with
  | EmptyString => false
  | String _ s' => includes s' sub
  end.

(** [Array.prototype.includes] on an array of strings. *)
Definition array_includes (l : list string) (x : string) : bool :=
  bool_decide (x ∈ l).

(** [l.forEach(x => ...)] where the callback updates the variables [S] it
    closes over and may throw ([None]); a throw ends the loop. *)
Definition forEach {S A : Type} (f : S -> A -> option S) (l : list A) (init : S)
  : option S :=
  fold_left (fun st x => st ≫= fun s => f s x) l (Some init).

(** *** Object literals used as tables

    [table[key]] on an object literal finds the own property of that name,
    else the member of [Object.prototype] of that name, else [undefined].
    The members of [Object.prototype] are functions, and [__proto__] is the
    prototype itself: each is truthy, and none has the methods of an
    array. *)
Definition Object_prototype_names : list string :=
  ["constructor"; "__defineGetter__"; "__defineSetter__"; "hasOwnProperty";
   "__lookupGetter__"; "__lookupSetter__"; "isPrototypeOf"; "propertyIsEnumerable";
   "toString"; "valueOf"; "__proto__"; "toLocaleString"].

Inductive property (A : Type) : Type :=
| Own (v : A)
| Inherited
| Undefined.
Arguments Own {A} v.
Arguments Inherited {A}.
Arguments Undefined {A}.

Definition lookup {A : Type} (literal : gmap string A) (key : string) : property A :=
  match literal !! key with
  | Some v => Own v
  | None => if bool_decide (key ∈ Object_prototype_names) then Inherited else Undefined
  end.

(** *** Values of type [any]

    What [JSON.parse] and [response.json()] can produce, plus [undefined]
    for a property that is not there. *)

#[local] Set Warnings "-register-all".
Inductive value : Type :=
| VUndefined
| VNull
| VBool (b : bool)
| VNum (x : number)
| VStr (s : string)
| VArr (items : list value)
| VObj (fields : list (string * value)).

(** The own properties of an object, in the order they were written. *)
Definition obj : Type := list (string * value).

Fixpoint get (o : obj) (k : string) : value :=
  match o with
  | [] => VUndefined
  | (k', v) :: o' => if String.eqb k k' then v else get o' k
  end.

(** [ToBoolean]. *)
Definition truthy (v : value) : bool :=
  match v with
  | VUndefined | VNull => false
  | VBool b => b
  | VNum x => truthy_number x
  | VStr s => negb (String.eqb s EmptyString)
  | VArr _ | VObj _ => true
  end.

(** [a || b]. *)
Definition or_else (a b : value) : value := if truthy a then a else b.

(** [v.k] for one of the property names the services read. Reading a
    property of [undefined] or [null] throws a TypeError ([None]); arrays,
    strings, numbers and booleans have no property of these names. *)
Definition prop (v : value) (k : string) : option value :=
  match v with
  | VUndefined | VNull => None
  | VObj o => Some (get o k)
  | _ => Some VUndefined
  end.

(** [v[0]]. *)
Definition at0 (v : value) : option value :=
  match v with
  | VUndefined | VNull => None
  | VObj o => Some (get o "0")
  | VArr items => Some (hd VUndefined items)
  | VStr (String c _) => Some (VStr (String c EmptyString))
  | _ => Some VUndefined
  end.

(** [s.match(/\{[\s\S]*\}/)]: the star is greedy and the dot-like class
    matches every character, so the match, when there is one, runs from the
    first opening brace of [s] to the last closing brace after it. *)
Fixpoint from_first_open (s : string) : option string :=
  match s with
  | EmptyString => None
  | String c s' => if Ascii.eqb c "{" then Some s' else from_first_open s'
  end.

Fixpoint upto_last_close (s : string) : option string :=
  match s with
  | EmptyString => None
  | String c s' =>
      match upto_last_close s' with
      | Some p => Some (String c p)
      | None => if Ascii.eqb c "}" then Some (String c EmptyString) else None
      end
  end.

Definition match_braces (s : string) : option string :=
  match from_first_open s with
  | Some rest => String "{" <$> upto_last_close rest
  | None => None
  end.

(** What the services take from the platform and cannot compute
    themselves. *)
Class Runtime : Type := {
  (** [JSON.parse] applied to a text that begins with an opening brace: the
      own properties of the object it denotes, [None] when it throws. *)
  JSON_parse : string -> option obj;
  (** [ToNumber] on strings, arrays and objects, which goes through the
      string-to-number grammar. *)
  ToNumber_nonprimitive : value -> number;
  (** [String.prototype.toLowerCase] on text that has a character outside
      ASCII. *)
  toLowerCase_beyond_ascii : string -> string;
  (** [new Date().toISOString()]. *)
  Date_toISOString : string
}.

(** [String.prototype.toLowerCase]. *)
Definition toLowerCase `{Runtime} (s : string) : string :=
  if ascii_text s then toLowerCase_ascii s else toLowerCase_beyond_ascii s.

(** [ToNumber], applied by [*] to an operand of type [any]. *)
Definition ToNumber `{Runtime} (v : value) : number :=
  match v with
  | VUndefined => NaN
  | VNull => S754_zero false
  | VBool b => if b then of_Z 1 else S754_zero false
  | VNum x => x
  | _ => ToNumber_nonprimitive v
  end.

End JS.

(** ** Data shared by the services *)

(** [JobDescription] of src/services/directDbService.ts. *)
Record JobDescription : Type := {
  id : Z;
  title : string;
  company : string;
  description : string;
  must_have_skills : list string;
  good_to_have_skills : list string;
  experience_required : string;
  education_required : list string
}.

Inductive Verdict : Type := High | Medium | Low.

#[global] Instance Verdict_eq_dec : EqDecision Verdict.
Proof. solve_decision. Defined.

(** What both [performHardMatch] functions return. *)
Record HardMatch : Type := {
  hard_match_score : JS.number;
  matched_skills : list string;
  missing_skills : list string;
  critical_missing_skills : list string
}.

(** The own properties of the [skillVariations] table, written
    identically in the enhanced and in the simple service. The table is
    read with [JS.lookup], which also finds what an object literal
    inherits. *)
Definition skillVariations : gmap string (list string) :=
  list_to_map [
    ("javascript", ["js"; "node.js"; "nodejs"; "react"; "angular"; "vue"]);
    ("python", ["py"; "django"; "flask"; "fastapi"; "pandas"; "numpy"]);
    ("java", ["spring"; "hibernate"; "maven"; "gradle"]);
    ("react", ["reactjs"; "react.js"; "jsx"; "hooks"]);
    ("angular", ["angularjs"; "angular.js"; "typescript"]);
    ("machine learning", ["ml"; "ai"; "artificial intelligence"; "tensorflow"; "pytorch"]);
    ("sql", ["mysql"; "postgresql"; "database"; "db"]);
    ("aws", ["amazon web services"; "cloud"; "ec2"; "s3"; "lambda"]);
    ("docker", ["containerization"; "kubernetes"; "k8s"]);
    ("git", ["github"; "version control"; "gitlab"; "bitbucket"])
  ].

(** The value of the local [isMatched] once a loop body has computed it:
    the direct substring test, then the variations of the lower-cased skill
    when [skillVariations[skillLower]] is truthy. The three loops that
    classify skills compute it with the same statements. When the skill is
    not found directly and its lower-cased name is inherited from
    [Object.prototype], the entry is truthy and has no method [some]: the
    call throws a TypeError ([None]). *)
Definition isMatched `{JS.Runtime} (resumeLower skill : string) : option bool :=
  let skillLower := JS.toLowerCase skill in
  let direct := JS.includes resumeLower skillLower in
  if negb direct then
    match JS.lookup skillVariations skillLower with
    | JS.Own variations =>
        Some (existsb (fun variation => JS.includes resumeLower (JS.toLowerCase variation))
                      variations)
    | JS.Inherited => None
    | JS.Undefined => Some direct
    end
  else Some direct.

(** ** EnhancedAnalysisService *)

Module EnhancedAnalysisService.

(** The two arrays the loops of [performHardMatch] push to. *)
Definition buckets : Type := (list string * list string)%type.

(** Body of the loop over the must-have skills. *)
Definition checkMustHave `{JS.Runtime} (resumeLower : string) (st : buckets)
    (skill : string) : option buckets :=
  let '(matchedSkills, missingSkills) := st in
  m ← isMatched resumeLower skill;
  Some (if m : bool
        then (matchedSkills ++ [skill], missingSkills)
        else (matchedSkills, missingSkills ++ [skill])).

(** Body of the loop over the good-to-have skills. *)
Definition checkGoodToHave `{JS.Runtime} (resumeLower : string) (st : buckets)
    (skill : string) : option buckets :=
  let '(matchedSkills, missingSkills) := st in
  m ← isMatched resumeLower skill;
  Some (if m && negb (JS.array_includes matchedSkills skill)
        then (matchedSkills ++ [skill], missingSkills)
        else if negb m && negb (JS.array_includes missingSkills skill)
        then (matchedSkills, missingSkills ++ [skill])
        else (matchedSkills, missingSkills)).

(** The two loops; [None] when a callback throws. *)
Definition classify `{JS.Runtime} (resumeLower : string)
    (mustHaveSkills goodToHaveSkills : list string) : option buckets :=
  JS.forEach (checkMustHave resumeLower) mustHaveSkills ([], [])
  ≫= JS.forEach (checkGoodToHave resumeLower) goodToHaveSkills.

(** [performHardMatch]; [None] when it throws. *)
Definition performHardMatch `{JS.Runtime} (resumeText : string)
    (jobDescription : JobDescription) : option HardMatch :=
  let resumeLower := JS.toLowerCase resumeText in
  let mustHaveSkills := must_have_skills jobDescription in
  let goodToHaveSkills := good_to_have_skills jobDescription in
  '(matchedSkills, missingSkills) ←
    classify resumeLower mustHaveSkills goodToHaveSkills;
  let totalSkills := (length mustHaveSkills + length goodToHaveSkills)%nat in
  let hardMatchScore :=
    if (0 <? totalSkills)%nat
    then JS.mul (JS.div (JS.of_nat (length matchedSkills)) (JS.of_nat totalSkills))
                (JS.of_Z 100)
    else JS.of_Z 0 in
  Some {| hard_match_score := JS.Math_round hardMatchScore;
          matched_skills := matchedSkills;
          missing_skills := missingSkills;
          critical_missing_skills :=
            filter (fun skill => JS.array_includes mustHaveSkills skill = true)
                   missingSkills |}.

(** The object literal of [getFallbackSemanticAnalysis]. *)
Definition strs (l : list string) : JS.value := JS.VArr (JS.VStr <$> l).
Definition num (n : Z) : JS.value := JS.VNum (JS.of_Z n).
Definition bucket_pair (matched missing : list string) : JS.value :=
  JS.VObj [("matched", strs matched); ("missing", strs missing)].

Definition getFallbackSemanticAnalysis : JS.obj := [
  ("semantic_match_score", num 65);
  ("strengths", strs ["Relevant technical background"; "Good educational foundation"]);
  ("weaknesses", strs ["Limited industry experience"; "Could improve project portfolio"]);
  ("missing_certifications", strs ["AWS Certification"; "Industry-specific certifications"]);
  ("missing_projects", strs ["Full-stack web application"; "Open source contributions"]);
  ("experience_gaps", strs ["Production environment experience"; "Team collaboration"]);
  ("education_gaps", strs ["Advanced technical courses"]);
  ("improvement_suggestions", strs [
     "Build more comprehensive projects";
     "Contribute to open source";
     "Get relevant certifications";
     "Gain hands-on experience"]);
  ("recommended_courses", strs ["Advanced programming"; "System design"; "Cloud platforms"]);
  ("recommended_projects", strs ["E-commerce platform"; "API development"; "Mobile app"]);
  ("immediate_actions", strs ["Update LinkedIn profile"; "Start a new project"; "Apply for internships"]);
  ("short_term_goals", strs ["Complete certification"; "Build portfolio"; "Network with professionals"]);
  ("long_term_goals", strs ["Secure full-time role"; "Specialize in domain"]);
  ("skills_breakdown", JS.VObj [
     ("technical_skills", bucket_pair ["Programming"] ["Advanced frameworks"]);
     ("soft_skills", bucket_pair ["Problem solving"] ["Leadership"]);
     ("domain_knowledge", bucket_pair ["Basic concepts"] ["Industry experience"])]);
  ("scoring_breakdown", JS.VObj [
     ("skills_match", num 65);
     ("experience_match", num 50);
     ("education_match", num 70);
     ("project_relevance", num 60);
     ("overall_fit", num 65)]);
  ("confidence_score", num 75)
].

(** How the request sent by [performLLMAnalysis] can end: the [fetch]
    promise rejects, or a response arrives with its [ok] flag, its status
    and a body that [response.json()] decodes or fails to decode. *)
Inductive FetchResult : Type :=
| FetchRejected
| FetchResponse (ok : bool) (status : Z) (json : option JS.value).

(** [data.candidates[0].content.parts[0].text], [None] standing for the
    TypeError raised when a step reads a property of [undefined] or
    [null]. *)
Definition replyText (data : JS.value) : option JS.value :=
  candidates ← JS.prop data "candidates";
  candidate ← JS.at0 candidates;
  content ← JS.prop candidate "content";
  parts ← JS.prop content "parts";
  part ← JS.at0 parts;
  JS.prop part "text".

(** The statements inside the [try] of [performLLMAnalysis], [None] standing
    for a throw. Calling [match] on anything but a string throws. *)
Definition tryLLMAnalysis `{JS.Runtime} (response : FetchResult) : option JS.obj :=
  match response with
  | FetchRejected => None
  | FetchResponse ok status json =>
      if negb ok then None
      else
        data ← json;
        responseText ← replyText data;
        match responseText with
        | JS.VStr text =>
            match JS.match_braces text with
            | Some jsonMatch => JS.JSON_parse jsonMatch
            | None => None
            end
        | _ => None
        end
  end.

Definition performLLMAnalysis `{JS.Runtime} (response : FetchResult) : JS.obj :=
  match tryLLMAnalysis response with
  | Some parsedResult => parsedResult
  | None => getFallbackSemanticAnalysis
  end.

(** [EnhancedAnalysisResult]. The fields filled from the semantic result
    have type [any] at run time. *)
Record EnhancedAnalysisResult : Type := {
  relevance_score : JS.number;
  verdict : Verdict;
  r_hard_match_score : JS.number;
  semantic_match_score : JS.value;
  r_matched_skills : list string;
  r_missing_skills : list string;
  r_critical_missing_skills : list string;
  missing_certifications : JS.value;
  missing_projects : JS.value;
  experience_gaps : JS.value;
  education_gaps : JS.value;
  strengths : JS.value;
  weaknesses : JS.value;
  improvement_suggestions : JS.value;
  recommended_courses : JS.value;
  recommended_projects : JS.value;
  skills_breakdown : JS.value;
  scoring_breakdown : JS.value;
  immediate_actions : JS.value;
  short_term_goals : JS.value;
  long_term_goals : JS.value;
  analysis_timestamp : string;
  confidence_score : JS.value
}.

Definition verdictOf (finalScore : JS.number) : Verdict :=
  if JS.geb finalScore (JS.of_Z 80) then High
  else if JS.geb finalScore (JS.of_Z 50) then Medium
  else Low.

Definition combineAnalysisResults `{JS.Runtime}
    (hardMatch : HardMatch) (semantic : JS.obj) (jobDescription : JobDescription)
  : EnhancedAnalysisResult :=
  let finalScore :=
    JS.Math_round
      (JS.add (JS.mul (hard_match_score hardMatch) JS.lit_0_4)
              (JS.mul (JS.ToNumber (JS.get semantic "semantic_match_score")) JS.lit_0_6)) in
  let verdict := verdictOf finalScore in
  {| relevance_score := finalScore;
     verdict := verdict;
     r_hard_match_score := hard_match_score hardMatch;
     semantic_match_score := JS.get semantic "semantic_match_score";
     r_matched_skills := matched_skills hardMatch;
     r_missing_skills := missing_skills hardMatch;
     r_critical_missing_skills := critical_missing_skills hardMatch;
     missing_certifications := JS.or_else (JS.get semantic "missing_certifications") (JS.VArr []);
     missing_projects := JS.or_else (JS.get semantic "missing_projects") (JS.VArr []);
     experience_gaps := JS.or_else (JS.get semantic "experience_gaps") (JS.VArr []);
     education_gaps := JS.or_else (JS.get semantic "education_gaps") (JS.VArr []);
     strengths := JS.or_else (JS.get semantic "strengths") (JS.VArr []);
     weaknesses := JS.or_else (JS.get semantic "weaknesses") (JS.VArr []);
     improvement_suggestions :=
       JS.or_else (JS.get semantic "improvement_suggestions") (JS.VArr []);
     recommended_courses := JS.or_else (JS.get semantic "recommended_courses") (JS.VArr []);
     recommended_projects := JS.or_else (JS.get semantic "recommended_projects") (JS.VArr []);
     skills_breakdown :=
       JS.or_else (JS.get semantic "skills_breakdown")
         (JS.VObj [("technical_skills", bucket_pair [] []);
                   ("soft_skills", bucket_pair [] []);
                   ("domain_knowledge", bucket_pair [] [])]);
     scoring_breakdown :=
       JS.or_else (JS.get semantic "scoring_breakdown")
         (JS.VObj [("skills_match", JS.VNum (hard_match_score hardMatch));
                   ("experience_match", num 70);
                   ("education_match", num 60);
                   ("project_relevance", num 65);
                   ("overall_fit", JS.VNum finalScore)]);
     immediate_actions := JS.or_else (JS.get semantic "immediate_actions") (JS.VArr []);
     short_term_goals := JS.or_else (JS.get semantic "short_term_goals") (JS.VArr []);
     long_term_goals := JS.or_else (JS.get semantic "long_term_goals") (JS.VArr []);
     analysis_timestamp := JS.Date_toISOString;
     confidence_score := JS.or_else (JS.get semantic "confidence_score") (num 85) |}.

(** [getFallbackAnalysis]; [None] when it throws. *)
Definition getFallbackAnalysis `{JS.Runtime}
    (resumeText : string) (jobDescription : JobDescription)
  : option EnhancedAnalysisResult :=
  basicHardMatch ← performHardMatch resumeText jobDescription;
  let fallbackSemantic := getFallbackSemanticAnalysis in
  Some (combineAnalysisResults basicHardMatch fallbackSemantic jobDescription).

(** The statements inside the [try] of [analyzeResumeEnhanced]. *)
Definition tryAnalyzeResumeEnhanced `{JS.Runtime}
    (response : FetchResult) (resumeText : string) (jobDescription : JobDescription)
  : option EnhancedAnalysisResult :=
  hardMatchResult ← performHardMatch resumeText jobDescription;
  let semanticResult := performLLMAnalysis response in
  let finalResult := combineAnalysisResults hardMatchResult semanticResult jobDescription in
  Some finalResult.

(** [analyzeResumeEnhanced]: the report the promise resolves to, [None]
    when the promise rejects, which is when the handler of the [try]
    throws in its turn. *)
Definition analyzeResumeEnhanced `{JS.Runtime}
    (response : FetchResult) (resumeText : string) (jobDescription : JobDescription)
  : option EnhancedAnalysisResult :=
  match tryAnalyzeResumeEnhanced response resumeText jobDescription with
  | Some finalResult => Some finalResult
  | None => getFallbackAnalysis resumeText jobDescription
  end.

End EnhancedAnalysisService.

(** ** SimpleAnalysisService

    The scoring path of the demo service. The fields it fills with canned
    text chosen by job title play no part in the scores and are left out
    of [SimpleAnalysisResult]. *)

Module SimpleAnalysisService.

Definition checkSkill `{JS.Runtime} (resumeLower : string)
    (st : list string * list string) (skill : string)
  : option (list string * list string) :=
  let '(matchedSkills, missingSkills) := st in
  m ← isMatched resumeLower skill;
  Some (if m : bool
        then (matchedSkills ++ [skill], missingSkills)
        else (matchedSkills, missingSkills ++ [skill])).

(** [performHardMatch]; [None] when it throws. *)
Definition performHardMatch `{JS.Runtime} (resumeText : string)
    (jobDescription : JobDescription) : option HardMatch :=
  let resumeLower := JS.toLowerCase resumeText in
  let mustHaveSkills := must_have_skills jobDescription in
  let goodToHaveSkills := good_to_have_skills jobDescription in
  '(matchedSkills, missingSkills) ←
    JS.forEach (checkSkill resumeLower) (mustHaveSkills ++ goodToHaveSkills) ([], []);
  let totalSkills := (length mustHaveSkills + length goodToHaveSkills)%nat in
  let hardMatchScore :=
    if (0 <? totalSkills)%nat
    then JS.Math_round
           (JS.mul (JS.div (JS.of_nat (length matchedSkills)) (JS.of_nat totalSkills))
                   (JS.of_Z 100))
    else JS.of_Z 50 in
  Some {| hard_match_score := hardMatchScore;
          matched_skills := matchedSkills;
          missing_skills := missingSkills;
          critical_missing_skills :=
            filter (fun skill => JS.array_includes mustHaveSkills skill = true)
                   missingSkills |}.

(** The own properties of the [jobKeywords] table. *)
Definition jobKeywords : gmap string (list string) :=
  list_to_map [
    ("software engineer",
     ["development"; "programming"; "coding"; "software"; "application"; "system"]);
    ("frontend developer", ["ui"; "ux"; "responsive"; "design"; "user interface"; "web"]);
    ("data scientist",
     ["analysis"; "statistics"; "model"; "prediction"; "insights"; "visualization"])
  ].

(** [list.filter(w => resumeLower.includes(w)).length] *)
Definition countIncluded (resumeLower : string) (words : list string) : nat :=
  length (filter (fun w => JS.includes resumeLower w = true) words).

(** [calculateSemanticScore]. When the lower-cased title is a name
    inherited from [Object.prototype], [jobKeywords[jobTitle] || []] is that
    member, which has no method [filter]: the call throws ([None]). *)
Definition calculateSemanticScore `{JS.Runtime} (jobDescription : JobDescription)
    (resumeText : string) (hardScore : JS.number) : option JS.number :=
  let resumeLower := JS.toLowerCase resumeText in
  let semanticScore := hardScore in
  let jobTitle := JS.toLowerCase (title jobDescription) in
  relevantKeywords ←
    match JS.lookup jobKeywords jobTitle with
    | JS.Own keywords => Some keywords
    | JS.Inherited => None
    | JS.Undefined => Some []
    end;
  let keywordMatches := countIncluded resumeLower relevantKeywords in
  let keywordBoost := JS.Math_min (JS.of_Z 20) (JS.mul (JS.of_nat keywordMatches) (JS.of_Z 3)) in
  let experienceIndicators :=
    ["years"; "experience"; "worked"; "developed"; "built"; "led"; "managed"] in
  let experienceMatches := countIncluded resumeLower experienceIndicators in
  let experienceBoost :=
    JS.Math_min (JS.of_Z 15) (JS.mul (JS.of_nat experienceMatches) (JS.of_Z 2)) in
  let projectIndicators := ["project"; "built"; "created"; "developed"; "implemented"] in
  let projectMatches := countIncluded resumeLower projectIndicators in
  let projectBoost :=
    JS.Math_min (JS.of_Z 10) (JS.mul (JS.of_nat projectMatches) (JS.of_Z 2)) in
  let semanticScore :=
    JS.Math_min (JS.of_Z 100)
      (JS.add (JS.add (JS.add semanticScore keywordBoost) experienceBoost) projectBoost) in
  Some (JS.Math_round semanticScore).

Record ScoringBreakdown : Type := {
  skills_match : JS.number;
  experience_match : JS.number;
  education_match : JS.number;
  project_relevance : JS.number;
  overall_fit : JS.number
}.

Record SimpleAnalysisResult : Type := {
  relevance_score : JS.number;
  verdict : Verdict;
  r_hard_match_score : JS.number;
  semantic_match_score : JS.number;
  r_matched_skills : list string;
  r_missing_skills : list string;
  r_critical_missing_skills : list string;
  scoring_breakdown : ScoringBreakdown;
  confidence_score : JS.number
}.

Definition verdictOf (finalScore : JS.number) : Verdict :=
  if JS.geb finalScore (JS.of_Z 80) then High
  else if JS.geb finalScore (JS.of_Z 60) then Medium
  else Low.

Definition generateComprehensiveAnalysis `{JS.Runtime} (hardMatch : HardMatch)
    (jobDescription : JobDescription) (resumeText : string)
  : option SimpleAnalysisResult :=
  semanticScore ←
    calculateSemanticScore jobDescription resumeText (hard_match_score hardMatch);
  let finalScore :=
    JS.Math_round
      (JS.add (JS.mul (hard_match_score hardMatch) JS.lit_0_4)
              (JS.mul semanticScore JS.lit_0_6)) in
  let verdict := verdictOf finalScore in
  Some
  {| relevance_score := finalScore;
     verdict := verdict;
     r_hard_match_score := hard_match_score hardMatch;
     semantic_match_score := semanticScore;
     r_matched_skills := matched_skills hardMatch;
     r_missing_skills := missing_skills hardMatch;
     r_critical_missing_skills := critical_missing_skills hardMatch;
     scoring_breakdown :=
       {| skills_match := hard_match_score hardMatch;
          experience_match := JS.Math_max (JS.of_Z 40) (JS.sub finalScore (JS.of_Z 20));
          education_match := JS.Math_max (JS.of_Z 50) (JS.sub finalScore (JS.of_Z 10));
          project_relevance := JS.Math_max (JS.of_Z 45) (JS.sub finalScore (JS.of_Z 15));
          overall_fit := finalScore |};
     confidence_score :=
       JS.Math_max (JS.of_Z 75) (JS.Math_min (JS.of_Z 95) (JS.add finalScore (JS.of_Z 10))) |}.

(** [analyzeResumeSimple]: the report the promise resolves to, [None] when
    it rejects. *)
Definition analyzeResumeSimple `{JS.Runtime} (resumeText : string)
    (jobDescription : JobDescription) : option SimpleAnalysisResult :=
  hardMatchResult ← performHardMatch resumeText jobDescription;
  generateComprehensiveAnalysis hardMatchResult jobDescription resumeText.

End SimpleAnalysisService.

(** ** AIAnalysisService

    The multi-provider service, restricted to the scores and the skill
    lists of its [AnalysisResult]. *)

Module AIAnalysisService.

(** [Partial<AnalysisResult>]: every field may be absent. *)
Record PartialAnalysisResult : Type := {
  p_hardMatchScore : option JS.number;
  p_semanticMatchScore : option JS.number;
  p_matchedSkills : option (list string);
  p_missingSkills : option (list string)
}.

Record AnalysisResult : Type := {
  relevanceScore : JS.number;
  verdict : Verdict;
  hardMatchScore : JS.number;
  semanticMatchScore : JS.number;
  matchedSkills : list string;
  missingSkills : list string
}.

(** The part of an [AnalysisRequest] the hard match reads. *)
Record AnalysisRequest : Type := {
  resumeSkills : list string;
  mustHave : list string;
  goodToHave : list string
}.

(** [x || d] on an optional number. *)
Definition number_or (x : option JS.number) (d : JS.number) : JS.number :=
  match x with
  | Some n => if JS.truthy_number n then n else d
  | None => d
  end.

Definition performHardMatch `{JS.Runtime} (request : AnalysisRequest)
  : PartialAnalysisResult :=
  let requiredSkills := JS.toLowerCase <$> (mustHave request ++ goodToHave request) in
  let resumeSkills := JS.toLowerCase <$> resumeSkills request in
  let '(matchedSkills, missingSkills) :=
    fold_left
      (fun (st : list string * list string) reqSkill =>
         let '(matched, missing) := st in
         if existsb (fun resumeSkill =>
                       JS.includes resumeSkill reqSkill || JS.includes reqSkill resumeSkill)
                    resumeSkills
         then (matched ++ [reqSkill], missing)
         else (matched, missing ++ [reqSkill]))
      requiredSkills ([], []) in
  let hardMatchScore :=
    if (0 <? length requiredSkills)%nat
    then JS.mul (JS.div (JS.of_nat (length matchedSkills)) (JS.of_nat (length requiredSkills)))
                (JS.of_Z 100)
    else JS.of_Z 0 in
  {| p_hardMatchScore := Some (JS.Math_round hardMatchScore);
     p_semanticMatchScore := None;
     p_matchedSkills := Some matchedSkills;
     p_missingSkills := Some missingSkills |}.

(** [parseAIResponse]: the score is clamped to the range 0..100, and any
    failure to find or decode the object yields the score 50. *)
Definition parseAIResponse `{JS.Runtime} (aiResponse : string) : PartialAnalysisResult :=
  match JS.match_braces aiResponse ≫= JS.JSON_parse with
  | Some parsed =>
      {| p_hardMatchScore := None;
         p_semanticMatchScore :=
           Some (JS.Math_min (JS.of_Z 100)
                   (JS.Math_max (JS.of_Z 0)
                      (JS.ToNumber
                         (JS.or_else (JS.get parsed "semanticMatchScore")
                                     (JS.VNum (JS.of_Z 0))))));
         p_matchedSkills := None;
         p_missingSkills := None |}
  | None =>
      {| p_hardMatchScore := None;
         p_semanticMatchScore := Some (JS.of_Z 50);
         p_matchedSkills := None;
         p_missingSkills := None |}
  end.

Definition combineAnalysisResults (hardMatch semantic : PartialAnalysisResult)
  : AnalysisResult :=
  let hardScore := number_or (p_hardMatchScore hardMatch) (JS.of_Z 0) in
  let semanticScore := number_or (p_semanticMatchScore semantic) (JS.of_Z 0) in
  let relevanceScore :=
    JS.Math_round
      (JS.add (JS.mul hardScore JS.lit_0_4) (JS.mul semanticScore JS.lit_0_6)) in
  {| relevanceScore := relevanceScore;
     verdict := Medium;
     hardMatchScore := hardScore;
     semanticMatchScore := semanticScore;
     matchedSkills := default [] (p_matchedSkills hardMatch);
     missingSkills := default [] (p_missingSkills hardMatch) |}.

Definition generateVerdict (score : JS.number) : Verdict :=
  if JS.geb score (JS.of_Z 80) then High
  else if JS.geb score (JS.of_Z 50) then Medium
  else Low.

Definition performBasicAnalysis `{JS.Runtime} (request : AnalysisRequest)
  : AnalysisResult :=
  let hardMatch := performHardMatch request in
  let score := number_or (p_hardMatchScore hardMatch) (JS.of_Z 30) in
  {| relevanceScore := score;
     verdict := generateVerdict score;
     hardMatchScore := score;
     semanticMatchScore := score;
     matchedSkills := default [] (p_matchedSkills hardMatch);
     missingSkills := default [] (p_missingSkills hardMatch) |}.

(** [performSemanticAnalysis]: the configured providers are tried in order,
    each reply being the text it returned or [None] when the call threw;
    [None] as a result stands for the final throw. *)
Fixpoint performSemanticAnalysis `{JS.Runtime} (replies : list (option string))
  : option PartialAnalysisResult :=
  match replies with
  | [] => None
  | Some result :: _ => Some (parseAIResponse result)
  | None :: rest => performSemanticAnalysis rest
  end.

Definition analyzeResume `{JS.Runtime} (replies : list (option string))
    (request : AnalysisRequest) : AnalysisResult :=
  let hardMatchResult := performHardMatch request in
  match performSemanticAnalysis replies with
  | Some semanticResult =>
      let finalResult := combineAnalysisResults hardMatchResult semanticResult in
      {| relevanceScore := relevanceScore finalResult;
         verdict := generateVerdict (relevanceScore finalResult);
         hardMatchScore := hardMatchScore finalResult;
         semanticMatchScore := semanticMatchScore finalResult;
         matchedSkills := matchedSkills finalResult;
         missingSkills := missingSkills finalResult |}
  | None => performBasicAnalysis request
  end.

End AIAnalysisService.

(** ** Reference definitions, written from the specification *)

(** Rounding to the nearest integer, halves going up. *)
Definition round_half_up (q : Q) : Z := Qfloor (Qplus q (Qmake 1 2)).

(** [round(0.4 * hard + 0.6 * semantic)] over the rationals. *)
Definition spec_relevance (hard semantic : Z) : Z :=
  round_half_up (Qplus (Qmult (Qmake 4 10) (inject_Z hard))
                       (Qmult (Qmake 6 10) (inject_Z semantic))).

(** The 80/50 thresholds: at least 80 is High, from 50 up to but excluding
    80 is Medium, below 50 is Low. *)
Inductive spec_verdict (relevanceScore : JS.number) : Verdict -> Prop :=
| spec_verdict_high :
    JS.geb relevanceScore (JS.of_Z 80) = true -> spec_verdict relevanceScore High
| spec_verdict_medium :
    JS.geb relevanceScore (JS.of_Z 50) = true ->
    JS.ltb relevanceScore (JS.of_Z 80) = true -> spec_verdict relevanceScore Medium
| spec_verdict_low :
    JS.ltb relevanceScore (JS.of_Z 50) = true -> spec_verdict relevanceScore Low.

(** [round(100 * |matched| / |union|)] over sets of skills, 0 when the
    union is empty. *)
Definition spec_hard_score (matched union : gset string) : Z :=
  if decide (size union = 0%nat) then 0
  else round_half_up (Qmake (100 * Z.of_nat (size matched)) (Pos.of_nat (size union))).

(** ** Definitions used to state the properties *)

(** A runtime whose [JSON.parse] knows the texts of a table and rejects
    every other text, which converts no string to a number, and for which
    text beyond ASCII has no cased letter. *)
Definition table_runtime (table : list (string * JS.obj)) (now : string) : JS.Runtime :=
  {| JS.JSON_parse := fun text => snd <$> List.find (fun e => String.eqb text (fst e)) table;
     JS.ToNumber_nonprimitive := fun _ => JS.NaN;
     JS.toLowerCase_beyond_ascii := fun text => text;
     JS.Date_toISOString := now |}.

(** The body of a successful provider response whose reply text is
    [text]. *)
Definition reply_body (text : string) : JS.value :=
  JS.VObj [("candidates",
    JS.VArr [JS.VObj [("content",
      JS.VObj [("parts", JS.VArr [JS.VObj [("text", JS.VStr text)]])])]])].

(** The expression both [combineAnalysisResults] functions evaluate. *)
Definition weighted (hard semantic : JS.number) : JS.number :=
  JS.Math_round (JS.add (JS.mul hard JS.lit_0_4) (JS.mul semantic JS.lit_0_6)).

Definition weighted_agrees (h s : Z) : bool :=
  bool_decide (weighted (JS.of_Z h) (JS.of_Z s) = JS.of_Z (spec_relevance h s)).

(** The entries of [l] that a loop guarded by [!acc.includes(x)] appends
    to [acc]: each entry that is not in the array yet, once. *)
Fixpoint added (acc l : list string) : list string :=
  match l with
  | [] => []
  | x :: l' =>
      if JS.array_includes acc x then added acc l' else x :: added (acc ++ [x]) l'
  end.

(** The first occurrence of each entry of [l], in the order of [l]. *)
Fixpoint first_occurrences (l : list string) : list string :=
  match l with
  | [] => []
  | x :: l' => x :: filter (fun y => y <> x) (first_occurrences l')
  end.

(** The order in which a result array lists skills: first the must-have
    entries it contains, in their given order, then the good-to-have
    skills it contains that are not must-have skills, each at its first
    occurrence, in their given order. Together with the skills it contains
    this fixes the array. *)
Definition in_job_order (mustHave goodToHave result : list string) : Prop :=
  result
  = filter (fun skill => skill ∈ result) mustHave
    ++ first_occurrences
         (filter (fun skill => skill ∈ result /\ skill ∉ mustHave) goodToHave).

(** The array the two loops of the enhanced service build for the skills
    whose [isMatched] is [keep]: the must-have entries, then the
    good-to-have entries that the array does not hold yet. *)
Definition classified `{JS.Runtime} (keep : bool) (resumeLower : string)
    (mustHave goodToHave : list string) : list string :=
  filter (fun skill => isMatched resumeLower skill = Some keep) mustHave
  ++ added (filter (fun skill => isMatched resumeLower skill = Some keep) mustHave)
           (filter (fun skill => isMatched resumeLower skill = Some keep) goodToHave).

(** Whether classifying [skill] reads a member of [Object.prototype] where
    it expects the array of variations: the skill is not in the resume as
    it is, and its lower-cased name is one every object inherits. *)
Definition reads_inherited `{JS.Runtime} (resumeLower skill : string) : bool :=
  negb (JS.includes resumeLower (JS.toLowerCase skill))
  && bool_decide (JS.toLowerCase skill ∈ JS.Object_prototype_names).

(** Whether no skill of the job does so for the resume. *)
Definition classifiable `{JS.Runtime} (resumeText : string) (job : JobDescription)
  : bool :=
  forallb (fun skill => negb (reads_inherited (JS.toLowerCase resumeText) skill))
          (must_have_skills job ++ good_to_have_skills job).

(** Whether the lower-cased title of the job is a name every object
    inherits. *)
Definition title_inherited `{JS.Runtime} (job : JobDescription) : bool :=
  bool_decide (JS.toLowerCase (title job) ∈ JS.Object_prototype_names).

(** The thresholds of the simple service: at least 80 is High, from 60 up
    to but excluding 80 is Medium, below 60 is Low. *)
Inductive verdict_80_60 (relevanceScore : JS.number) : Verdict -> Prop :=
| verdict_80_60_high :
    JS.geb relevanceScore (JS.of_Z 80) = true -> verdict_80_60 relevanceScore High
| verdict_80_60_medium :
    JS.geb relevanceScore (JS.of_Z 60) = true ->
    JS.ltb relevanceScore (JS.of_Z 80) = true -> verdict_80_60 relevanceScore Medium
| verdict_80_60_low :
    JS.ltb relevanceScore (JS.of_Z 60) = true -> verdict_80_60 relevanceScore Low.

(** Sample jobs. *)
Definition job_of (mustHave goodToHave : list string) : JobDescription :=
  {| id := 1;
     title := "Senior Software Engineer";
     company := "TechCorp Solutions";
     description := "Design, develop and maintain scalable web applications.";
     must_have_skills := mustHave;
     good_to_have_skills := goodToHave;
     experience_required := "3+ years in software development";
     education_required := ["Bachelor's in Computer Science"] |}.

(** The ways the semantic evaluation can fail: the provider call fails
    (the request is rejected, the response is not [ok], its body is not
    JSON or lacks the reply text), no brace-delimited object is found in
    the reply, or the text found does not decode. *)
Inductive SemanticFailure `{JS.Runtime} : EnhancedAnalysisService.FetchResult -> Prop :=
| failure_rejected :
    SemanticFailure EnhancedAnalysisService.FetchRejected
| failure_status (status : Z) (json : option JS.value) :
    SemanticFailure (EnhancedAnalysisService.FetchResponse false status json)
| failure_body (status : Z) :
    SemanticFailure (EnhancedAnalysisService.FetchResponse true status None)
| failure_shape (status : Z) (data : JS.value) :
    (forall text, EnhancedAnalysisService.replyText data <> Some (JS.VStr text)) ->
    SemanticFailure (EnhancedAnalysisService.FetchResponse true status (Some data))
| failure_no_object (status : Z) (data : JS.value) (text : string) :
    EnhancedAnalysisService.replyText data = Some (JS.VStr text) ->
    JS.match_braces text = None ->
    SemanticFailure (EnhancedAnalysisService.FetchResponse true status (Some data))
| failure_decode (status : Z) (data : JS.value) (text jsonMatch : string) :
    EnhancedAnalysisService.replyText data = Some (JS.VStr text) ->
    JS.match_braces text = Some jsonMatch ->
    JS.JSON_parse jsonMatch = None ->
    SemanticFailure (EnhancedAnalysisService.FetchResponse true status (Some data)).

Definition defined (v : JS.value) : Prop := v <> JS.VUndefined.

(** The fields of a report that [combineAnalysisResults] fills with
    [semantic.field || default]. *)
Definition optional_fields_defined (r : EnhancedAnalysisService.EnhancedAnalysisResult)
  : Prop :=
  defined (EnhancedAnalysisService.missing_certifications r)
  /\ defined (EnhancedAnalysisService.missing_projects r)
  /\ defined (EnhancedAnalysisService.experience_gaps r)
  /\ defined (EnhancedAnalysisService.education_gaps r)
  /\ defined (EnhancedAnalysisService.strengths r)
  /\ defined (EnhancedAnalysisService.weaknesses r)
  /\ defined (EnhancedAnalysisService.improvement_suggestions r)
  /\ defined (EnhancedAnalysisService.recommended_courses r)
  /\ defined (EnhancedAnalysisService.recommended_projects r)
  /\ defined (EnhancedAnalysisService.skills_breakdown r)
  /\ defined (EnhancedAnalysisService.scoring_breakdown r)
  /\ defined (EnhancedAnalysisService.immediate_actions r)
  /\ defined (EnhancedAnalysisService.short_term_goals r)
  /\ defined (EnhancedAnalysisService.long_term_goals r)
  /\ defined (EnhancedAnalysisService.confidence_score r).

(** Every field of a report holds a value. The fields that are not of type
    [any] always do. *)
Definition all_fields_defined (r : EnhancedAnalysisService.EnhancedAnalysisResult) : Prop :=
  defined (EnhancedAnalysisService.semantic_match_score r) /\ optional_fields_defined r.

(** The report carries the fields of the semantic result [semantic]
    unchanged. *)
Definition semantic_fields_from (semantic : JS.obj)
    (r : EnhancedAnalysisService.EnhancedAnalysisResult) : Prop :=
  EnhancedAnalysisService.semantic_match_score r = JS.get semantic "semantic_match_score"
  /\ EnhancedAnalysisService.missing_certifications r = JS.get semantic "missing_certifications"
  /\ EnhancedAnalysisService.missing_projects r = JS.get semantic "missing_projects"
  /\ EnhancedAnalysisService.experience_gaps r = JS.get semantic "experience_gaps"
  /\ EnhancedAnalysisService.education_gaps r = JS.get semantic "education_gaps"
  /\ EnhancedAnalysisService.strengths r = JS.get semantic "strengths"
  /\ EnhancedAnalysisService.weaknesses r = JS.get semantic "weaknesses"
  /\ EnhancedAnalysisService.improvement_suggestions r
     = JS.get semantic "improvement_suggestions"
  /\ EnhancedAnalysisService.recommended_courses r = JS.get semantic "recommended_courses"
  /\ EnhancedAnalysisService.recommended_projects r = JS.get semantic "recommended_projects"
  /\ EnhancedAnalysisService.skills_breakdown r = JS.get semantic "skills_breakdown"
  /\ EnhancedAnalysisService.scoring_breakdown r = JS.get semantic "scoring_breakdown"
  /\ EnhancedAnalysisService.immediate_actions r = JS.get semantic "immediate_actions"
  /\ EnhancedAnalysisService.short_term_goals r = JS.get semantic "short_term_goals"
  /\ EnhancedAnalysisService.long_term_goals r = JS.get semantic "long_term_goals"
  /\ EnhancedAnalysisService.confidence_score r = JS.get semantic "confidence_score".

Definition scenario_job : JobDescription :=
  job_of ["JavaScript"; "React"; "Node.js"] ["TypeScript"; "AWS"].

Definition scenario_resume : string := "Built dashboards with React and typescript".

(** What the scenario expects of a hard match result. *)
Definition scenario_expectation (hardMatch : HardMatch) : Prop :=
  (list_to_set (matched_skills hardMatch) : gset string) = {["React"; "TypeScript"]}
  /\ (list_to_set (missing_skills hardMatch) : gset string)
     = {["JavaScript"; "Node.js"; "AWS"]}
  /\ (list_to_set (critical_missing_skills hardMatch) : gset string)
     = {["JavaScript"; "Node.js"]}
  /\ hard_match_score hardMatch = JS.of_Z 40.

(** A score as the report documents it: an integer from 0 to 100. *)
Definition score_in_range (x : JS.number) : Prop :=
  exists n : Z, 0 <= n <= 100 /\ x = JS.of_Z n.

Definition dquote : string := String (ascii_of_nat 34) EmptyString.

(** The reply text consisting of the object with the single property
    [key], a string, and the number 150. *)
Definition reply_150 (key : string) : string :=
  "{" +:+ dquote +:+ key +:+ dquote +:+ ": 150}".


(** A runtime that knows the two replies carrying the score 150. *)
Definition sample_runtime : JS.Runtime :=
  table_runtime
    [(reply_150 "semantic_match_score",
      [("semantic_match_score", EnhancedAnalysisService.num 150)]);
     (reply_150 "semanticMatchScore",
      [("semanticMatchScore", EnhancedAnalysisService.num 150)])]
    "2025-09-21T10:30:00.000Z".

(** The score for [matched] skills out of [total], with fewer than 200
    skills: the rounded percentage, except at the ratio 23/40, where the
    product (matched / total) * 100 falls just below 57.5 in binary64 and
    is rounded to 57. *)
Definition percentage_as_computed (matched total : nat) : Z :=
  if 40 * Z.of_nat matched =? 23 * Z.of_nat total then 57
  else round_half_up (Qmake (100 * Z.of_nat matched) (Pos.of_nat total)).

(** The score over sets of skills: the reference definition, with that
    exception. *)
Definition hard_score_as_computed (matched union : gset string) : Z :=
  if decide (size union = 0%nat) then 0
  else percentage_as_computed (size matched) (size union).

(** Whether the score computed for [m] matched skills out of [t] is that
    number. *)
Definition percentage_agrees (t m : nat) : bool :=
  bool_decide
    (JS.Math_round (JS.mul (JS.div (JS.of_nat m) (JS.of_nat t)) (JS.of_Z 100))
     = JS.of_Z (percentage_as_computed m t)).

(** Forty one-letter skills, and a resume that names the first 23 of
    them. *)
Definition forty_skills : list string :=
  (fun n => String (ascii_of_nat n) EmptyString) <$> seq 48 40.

Definition resume_with_23 : string := "0123456789:;<=>?@ABCDEF".

(** The score the specification predicts for a hard match result. *)
Definition predicted_score (job : JobDescription) (hardMatch : HardMatch) : Z :=
  spec_hard_score (list_to_set (matched_skills hardMatch))
    (list_to_set (must_have_skills job) ∪ list_to_set (good_to_have_skills job)).

(** ** The feedback texts of the simple service

    The part of [generateComprehensiveAnalysis] that fills the qualitative
    fields of the report. *)

Module SimpleAnalysisFeedback.

(** [Array.prototype.join]. *)
Fixpoint join (sep : string) (l : list string) : string :=
  match l with
  | [] => EmptyString
  | [x] => x
  | x :: rest => x +:+ sep +:+ join sep rest
  end.

(** What [getJobSpecificAnalysis] returns. *)
Record JobSpecificAnalysis : Type := {
  certifications : list string;
  projects : list string;
  experience : list string;
  education : list string;
  suggestions : list string;
  courses : list string;
  projectIdeas : list string;
  immediateActions : list string;
  shortTermGoals : list string;
  longTermGoals : list string
}.

Definition softwareAnalysis : JobSpecificAnalysis :=
  {| certifications :=
       ["AWS Certified Developer"; "Google Cloud Professional"; "Microsoft Azure Fundamentals"];
     projects :=
       ["Full-stack web application"; "REST API development"; "Database design project"];
     experience :=
       ["Production environment experience"; "Code review participation"; "Agile methodology"];
     education := ["Computer Science fundamentals"; "Data structures and algorithms"];
     suggestions :=
       ["Build a comprehensive portfolio on GitHub";
        "Contribute to open source projects";
        "Practice coding challenges on LeetCode";
        "Learn cloud platform basics";
        "Improve system design knowledge"];
     courses := ["Advanced JavaScript"; "System Design"; "Cloud Computing"; "Database Management"];
     projectIdeas := ["E-commerce platform"; "Task management app"; "Real-time chat application"];
     immediateActions :=
       ["Update GitHub profile with recent projects";
        "Complete online coding assessment";
        "Apply for developer internships"];
     shortTermGoals :=
       ["Complete a full-stack project"; "Get AWS certification"; "Build professional network"];
     longTermGoals :=
       ["Secure full-time developer role"; "Specialize in specific technology stack"] |}.

Definition frontendAnalysis : JobSpecificAnalysis :=
  {| certifications := ["Google UX Design Certificate"; "Frontend Masters Certificate"];
     projects :=
       ["Responsive portfolio website"; "Interactive web application"; "Mobile-first design"];
     experience :=
       ["UI/UX collaboration"; "Cross-browser compatibility"; "Performance optimization"];
     education := ["Design principles"; "User experience fundamentals"];
     suggestions :=
       ["Create a stunning portfolio website";
        "Learn modern CSS frameworks";
        "Practice responsive design";
        "Study user experience principles";
        "Build interactive components"];
     courses := ["Advanced CSS"; "React/Vue.js"; "UI/UX Design"; "Web Performance"];
     projectIdeas := ["Personal portfolio"; "Landing page designs"; "Component library"];
     immediateActions :=
       ["Redesign personal portfolio";
        "Create Dribbble/Behance profile";
        "Practice daily UI challenges"];
     shortTermGoals :=
       ["Master a modern frontend framework";
        "Build 3-5 impressive projects";
        "Network with designers"];
     longTermGoals := ["Become senior frontend developer"; "Lead UI/UX initiatives"] |}.

Definition dataAnalysis : JobSpecificAnalysis :=
  {| certifications :=
       ["AWS Machine Learning Specialty"; "Google Data Analytics"; "Tableau Desktop"];
     projects :=
       ["Predictive modeling project"; "Data visualization dashboard";
        "Machine learning pipeline"];
     experience :=
       ["Statistical analysis"; "Data cleaning and preprocessing"; "Model deployment"];
     education := ["Statistics and probability"; "Machine learning algorithms"];
     suggestions :=
       ["Build end-to-end ML projects";
        "Create data visualization portfolio";
        "Practice statistical analysis";
        "Learn cloud ML platforms";
        "Participate in Kaggle competitions"];
     courses := ["Machine Learning"; "Statistics"; "Data Visualization"; "Big Data Analytics"];
     projectIdeas :=
       ["Customer churn prediction"; "Sales forecasting model"; "Sentiment analysis tool"];
     immediateActions :=
       ["Complete a Kaggle competition";
        "Build ML project portfolio";
        "Create data science blog"];
     shortTermGoals :=
       ["Master Python data science stack";
        "Complete advanced ML course";
        "Build industry connections"];
     longTermGoals := ["Become senior data scientist"; "Lead data science initiatives"] |}.

Definition defaultAnalysis : JobSpecificAnalysis :=
  {| certifications := ["Industry-relevant certifications"];
     projects := ["Portfolio projects"; "Real-world applications"];
     experience := ["Hands-on experience"; "Professional development"];
     education := ["Continuous learning"; "Skill development"];
     suggestions :=
       ["Build relevant projects"; "Gain practical experience"; "Network with professionals"];
     courses := ["Technical skills"; "Industry knowledge"; "Professional development"];
     projectIdeas := ["Personal projects"; "Open source contributions"];
     immediateActions := ["Update resume"; "Build portfolio"; "Apply for positions"];
     shortTermGoals := ["Develop core skills"; "Gain experience"; "Build network"];
     longTermGoals := ["Career advancement"; "Specialization"] |}.

Definition getJobSpecificAnalysis `{JS.Runtime} (jobTitle : string)
  : JobSpecificAnalysis :=
  let jobTitleLower := JS.toLowerCase jobTitle in
  if JS.includes jobTitleLower "software engineer" || JS.includes jobTitleLower "developer"
  then softwareAnalysis
  else if JS.includes jobTitleLower "frontend"
  then frontendAnalysis
  else if JS.includes jobTitleLower "data scientist" || JS.includes jobTitleLower "data"
  then dataAnalysis
  else defaultAnalysis.

(** [matchedSkills.some(skill => names.includes(skill))]. *)
Definition someIn (names skills : list string) : bool :=
  existsb (fun skill => JS.array_includes names skill) skills.

(** [if (cond) list.push(text)]. *)
Definition pushIf (cond : bool) (text : string) (l : list string) : list string :=
  if cond then l ++ [text] else l.

Definition generateStrengths (matchedSkills : list string) (jobDescription : JobDescription)
  : list string :=
  let strengths := [] in
  let strengths :=
    pushIf (0 <? length matchedSkills)%nat
      ("Strong technical foundation in " +:+ join ", " (take 3 matchedSkills)) strengths in
  let strengths :=
    pushIf (someIn ["JavaScript"; "Python"; "Java"] matchedSkills)
      "Solid programming language expertise" strengths in
  let strengths :=
    pushIf (someIn ["React"; "Angular"; "Vue"] matchedSkills)
      "Modern frontend framework experience" strengths in
  let strengths :=
    pushIf (someIn ["AWS"; "Docker"; "Kubernetes"] matchedSkills)
      "Cloud and DevOps knowledge" strengths in
  let strengths := strengths ++ ["Relevant educational background"] in
  let strengths := strengths ++ ["Demonstrated learning ability"] in
  take 5 strengths.

Definition generateWeaknesses (missingSkills : list string) (jobDescription : JobDescription)
  : list string :=
  let weaknesses := [] in
  let weaknesses :=
    pushIf (0 <? length missingSkills)%nat
      ("Missing key skills: " +:+ join ", " (take 3 missingSkills)) weaknesses in
  let weaknesses :=
    pushIf (someIn ["AWS"; "Cloud"] missingSkills)
      "Limited cloud platform experience" weaknesses in
  let weaknesses :=
    pushIf (someIn ["Docker"; "Kubernetes"] missingSkills)
      "DevOps and containerization skills needed" weaknesses in
  let weaknesses :=
    weaknesses ++ ["Could benefit from more hands-on project experience"] in
  let weaknesses := weaknesses ++ ["Professional development opportunities available"] in
  take 4 weaknesses.

Record SkillBucket : Type := { matched : list string; missing : list string }.

Record SkillsBreakdown : Type := {
  technical_skills : SkillBucket;
  soft_skills : SkillBucket;
  domain_knowledge : SkillBucket
}.

(** [skill => words.some(w => skill.toLowerCase().includes(w.toLowerCase()))] *)
Definition mentionsOneOf `{JS.Runtime} (words : list string) (skill : string) : bool :=
  existsb (fun w => JS.includes (JS.toLowerCase skill) (JS.toLowerCase w)) words.

Definition categorizeSkills `{JS.Runtime} (matched missing : list string)
  : SkillsBreakdown :=
  let technical :=
    ["JavaScript"; "Python"; "Java"; "React"; "Node.js"; "SQL"; "AWS"; "Docker"] in
  let soft :=
    ["Communication"; "Leadership"; "Teamwork"; "Problem Solving"; "Project Management"] in
  let domain :=
    ["Machine Learning"; "Data Science"; "Web Development"; "Mobile Development"] in
  {| technical_skills :=
       {| matched := filter (fun skill => mentionsOneOf technical skill = true) matched;
          missing := filter (fun skill => mentionsOneOf technical skill = true) missing |};
     soft_skills :=
       {| matched := filter (fun skill => mentionsOneOf soft skill = true) matched;
          missing :=
            filter (fun skill => JS.array_includes matched skill = false)
                   ["Communication"; "Leadership"] |};
     domain_knowledge :=
       {| matched := filter (fun skill => mentionsOneOf domain skill = true) matched;
          missing := filter (fun skill => mentionsOneOf domain skill = true) missing |} |}.

(** The qualitative fields of the object [generateComprehensiveAnalysis]
    returns. *)
Record Feedback : Type := {
  missing_certifications : list string;
  missing_projects : list string;
  experience_gaps : list string;
  education_gaps : list string;
  strengths : list string;
  weaknesses : list string;
  improvement_suggestions : list string;
  recommended_courses : list string;
  recommended_projects : list string;
  skills_breakdown : SkillsBreakdown;
  immediate_actions : list string;
  short_term_goals : list string;
  long_term_goals : list string
}.

Definition generateFeedback `{JS.Runtime} (hardMatch : HardMatch)
    (jobDescription : JobDescription) : Feedback :=
  let jobSpecificAnalysis := getJobSpecificAnalysis (title jobDescription) in
  {| missing_certifications := certifications jobSpecificAnalysis;
     missing_projects := projects jobSpecificAnalysis;
     experience_gaps := experience jobSpecificAnalysis;
     education_gaps := education jobSpecificAnalysis;
     strengths := generateStrengths (matched_skills hardMatch) jobDescription;
     weaknesses := generateWeaknesses (missing_skills hardMatch) jobDescription;
     improvement_suggestions := suggestions jobSpecificAnalysis;
     recommended_courses := courses jobSpecificAnalysis;
     recommended_projects := projectIdeas jobSpecificAnalysis;
     skills_breakdown :=
       categorizeSkills (matched_skills hardMatch) (missing_skills hardMatch);
     immediate_actions := immediateActions jobSpecificAnalysis;
     short_term_goals := shortTermGoals jobSpecificAnalysis;
     long_term_goals := longTermGoals jobSpecificAnalysis |}.

End SimpleAnalysisFeedback.

(** ** Providers and reply fields of the multi-provider service *)

Module AIAnalysisProviders.

Inductive ProviderName : Type := openai | claude | gemini.

Record AIProvider : Type := {
  name : ProviderName;
  apiKey : string;
  model : string
}.

(** The three environment variables [initializeProviders] reads. *)
Record Env : Type := {
  OPENAI_API_KEY : option string;
  ANTHROPIC_API_KEY : option string;
  GEMINI_API_KEY : option string
}.

(** The key of a variable that is set to a non-empty string. *)
Definition keyOf (variable : option string) : option string :=
  match variable with
  | Some key => if String.eqb key EmptyString then None else Some key
  | None => None
  end.

Definition provider (n : ProviderName) (m : string) (variable : option string)
  : list AIProvider :=
  match keyOf variable with
  | Some key => [{| name := n; apiKey := key; model := m |}]
  | None => []
  end.

Definition initializeProviders (env : Env) : list AIProvider :=
  provider openai "gpt-4o-mini" (OPENAI_API_KEY env)
  ++ provider claude "claude-3-haiku-20240307" (ANTHROPIC_API_KEY env)
  ++ provider gemini "gemini-1.5-flash" (GEMINI_API_KEY env).

(** [analyzeResume] of a service built from [env], [callAIProvider] giving
    the text a provider returns for the prompt or [None] when the call
    throws. *)
Definition analyzeResume `{JS.Runtime} (env : Env)
    (callAIProvider : AIProvider -> option string)
    (request : AIAnalysisService.AnalysisRequest) : AIAnalysisService.AnalysisResult :=
  AIAnalysisService.analyzeResume (callAIProvider <$> initializeProviders env) request.

(** The qualitative fields [parseAIResponse] returns. *)
Record ReplyFields : Type := {
  strengths : JS.value;
  gaps : JS.value;
  feedback : JS.value;
  improvementSuggestions : JS.value;
  recommendedSkills : JS.value
}.

(** [Array.isArray(v) ? v : []] *)
Definition arrayOrEmpty (v : JS.value) : JS.value :=
  match v with
  | JS.VArr _ => v
  | _ => JS.VArr []
  end.

Definition parseReplyFields `{JS.Runtime} (aiResponse : string) : ReplyFields :=
  match JS.match_braces aiResponse ≫= JS.JSON_parse with
  | Some parsed =>
      {| strengths := arrayOrEmpty (JS.get parsed "strengths");
         gaps := arrayOrEmpty (JS.get parsed "gaps");
         feedback := JS.or_else (JS.get parsed "feedback") (JS.VStr EmptyString);
         improvementSuggestions := arrayOrEmpty (JS.get parsed "improvementSuggestions");
         recommendedSkills := arrayOrEmpty (JS.get parsed "recommendedSkills") |}
  | None =>
      {| strengths := EnhancedAnalysisService.strs ["Experience in relevant field"];
         gaps := EnhancedAnalysisService.strs ["Could improve technical skills"];
         feedback :=
           JS.VStr "Resume shows potential but needs improvement in key areas.";
         improvementSuggestions :=
           EnhancedAnalysisService.strs
             ["Add more specific achievements"; "Include relevant certifications"];
         recommendedSkills := EnhancedAnalysisService.strs ["Communication"; "Leadership"] |}
  end.

End AIAnalysisProviders.

(** ** Further definitions used to state properties *)

(** Whether the character [c] occurs in [s]. *)
Fixpoint has_char (c : ascii) (s : string) : bool :=
  match s with
  | EmptyString => false
  | String c' s' => Ascii.eqb c' c || has_char c s'
  end.

(** Whether the weighted score of [h] and [s] lies between them. *)
Definition weighted_between (h s : Z) : bool :=
  bool_decide (Z.min h s <= spec_relevance h s <= Z.max h s).

(** The verdict of a report built from hard score [h] and the fallback
    semantic score 65. *)
Definition fallback_verdict (h : Z) : Verdict := if 27 <=? h then Medium else Low.

Definition fallback_agrees (h : Z) : bool :=
  bool_decide (spec_relevance h 65 = (4 * h + 395) / 10)
  && bool_decide (EnhancedAnalysisService.verdictOf (JS.of_Z (spec_relevance h 65))
                  = fallback_verdict h).

(** The value [calculateSemanticScore] computes from the hard score and
    the numbers of keywords, experience indicators and project indicators
    found in the resume. *)
Definition semanticFromCounts (hardScore : JS.number) (k e p : nat) : JS.number :=
  JS.Math_round
    (JS.Math_min (JS.of_Z 100)
       (JS.add
          (JS.add
             (JS.add hardScore (JS.Math_min (JS.of_Z 20) (JS.mul (JS.of_nat k) (JS.of_Z 3))))
             (JS.Math_min (JS.of_Z 15) (JS.mul (JS.of_nat e) (JS.of_Z 2))))
          (JS.Math_min (JS.of_Z 10) (JS.mul (JS.of_nat p) (JS.of_Z 2))))).

(** The same value over the integers. *)
Definition semanticOverZ (h : Z) (k e p : nat) : Z :=
  Z.min 100
    (h + Z.min 20 (3 * Z.of_nat k) + Z.min 15 (2 * Z.of_nat e) + Z.min 10 (2 * Z.of_nat p)).

(** Sums of small integers, boosts and the final clamp are exact. *)
Definition add_agrees (a : Z) : bool :=
  forallb (fun b => bool_decide (JS.add (JS.of_Z a) (JS.of_nat b)
                                 = JS.of_Z (a + Z.of_nat b))) (seq 0 21).

Definition boost_agrees (cap factor : Z) (n : Z) : bool :=
  bool_decide (JS.Math_min (JS.of_Z cap) (JS.mul (JS.of_Z n) (JS.of_Z factor))
               = JS.of_Z (Z.min cap (factor * n))).

Definition clamp_agrees (n : Z) : bool :=
  bool_decide (JS.Math_round (JS.Math_min (JS.of_Z 100) (JS.of_Z n))
               = JS.of_Z (Z.min 100 n)).

(** The sub-scores and the confidence the simple service derives from the
    relevance score [r]. *)
Definition derived_agree (r : Z) : bool :=
  bool_decide (JS.Math_max (JS.of_Z 40) (JS.sub (JS.of_Z r) (JS.of_Z 20))
               = JS.of_Z (Z.max 40 (r - 20)))
  && bool_decide (JS.Math_max (JS.of_Z 50) (JS.sub (JS.of_Z r) (JS.of_Z 10))
                  = JS.of_Z (Z.max 50 (r - 10)))
  && bool_decide (JS.Math_max (JS.of_Z 45) (JS.sub (JS.of_Z r) (JS.of_Z 15))
                  = JS.of_Z (Z.max 45 (r - 15)))
  && bool_decide (JS.Math_max (JS.of_Z 75)
                    (JS.Math_min (JS.of_Z 95) (JS.add (JS.of_Z r) (JS.of_Z 10)))
                  = JS.of_Z (Z.max 75 (Z.min 95 (r + 10)))).

(** Whether a resume skill and a required skill, both lower-cased, match
    in the multi-provider service: one contains the other. *)
Definition overlaps (resumeSkills : list string) (reqSkill : string) : bool :=
  existsb (fun resumeSkill =>
             JS.includes resumeSkill reqSkill || JS.includes reqSkill resumeSkill)
          resumeSkills.

Definition is_array (v : JS.value) : Prop := exists items, v = JS.VArr items.

(** [Math.min(100, Math.max(0, x))] *)
Definition clamp_0_100 (x : JS.number) : JS.number :=
  JS.Math_min (JS.of_Z 100) (JS.Math_max (JS.of_Z 0) x).

(** ** Arithmetic of the weighted score *)

Example lit_0_4_is_nearest : JS.div (JS.of_Z 4) (JS.of_Z 10) = JS.lit_0_4.
Proof. vm_compute. reflexivity. Qed.

Example lit_0_6_is_nearest : JS.div (JS.of_Z 6) (JS.of_Z 10) = JS.lit_0_6.
Proof. vm_compute. reflexivity. Qed.

(** Splitting a conjunction of closed facts and evaluating each. *)
Ltac split_conjunction :=
  repeat match goal with |- _ /\ _ => split end.

Ltac evaluate := vm_compute; reflexivity.

(** Checking a property of the integers 0..100 by running through them. *)
Lemma forall_upto_100 (P : Z -> bool) :
  forallb (fun n => P (Z.of_nat n)) (seq 0 101) = true ->
  forall z, 0 <= z <= 100 -> P z = true.
Proof.
  intros Hall z Hz. rewrite forallb_forall in Hall.
  specialize (Hall (Z.to_nat z)). rewrite Z2Nat.id in Hall by lia.
  apply Hall, in_seq. lia.
Qed.

Lemma forall_upto (n : nat) (P : Z -> bool) :
  forallb (fun i => P (Z.of_nat i)) (seq 0 (S n)) = true ->
  forall z, 0 <= z <= Z.of_nat n -> P z = true.
Proof.
  intros Hall z Hz. rewrite forallb_forall in Hall.
  specialize (Hall (Z.to_nat z)). rewrite Z2Nat.id in Hall by lia.
  apply Hall, in_seq. lia.
Qed.

Lemma weighted_exact (h s : Z) :
  0 <= h <= 100 -> 0 <= s <= 100 ->
  weighted (JS.of_Z h) (JS.of_Z s) = JS.of_Z (spec_relevance h s).
Proof.
  intros Hh Hs. eapply bool_decide_eq_true_1.
  revert s Hs. apply (forall_upto_100 (fun s => weighted_agrees h s)).
  revert h Hh.
  apply (forall_upto_100
           (fun h => forallb (fun n => weighted_agrees h (Z.of_nat n)) (seq 0 101))).
  vm_compute. reflexivity.
Qed.

Lemma number_or_in_range (n : Z) :
  0 <= n <= 100 ->
  AIAnalysisService.number_or (Some (JS.of_Z n)) (JS.of_Z 0) = JS.of_Z n.
Proof.
  intros Hn. eapply bool_decide_eq_true_1. revert n Hn.
  apply (forall_upto_100
           (fun n => bool_decide
              (AIAnalysisService.number_or (Some (JS.of_Z n)) (JS.of_Z 0) = JS.of_Z n))).
  vm_compute. reflexivity.
Qed.

(** C1. For all integer hard and semantic scores between 0 and 100, the
    relevance score that [combineAnalysisResults] puts in the report is
    exactly round(0.4 * hard + 0.6 * semantic); this holds for the enhanced
    service and for the multi-provider service, with every intermediate
    product and sum rounded as binary64 arithmetic rounds it. *)
Theorem relevance_score_is_weighted_round
    (rt : JS.Runtime) (h s : Z)
    (hardMatch : HardMatch) (semantic : JS.obj) (job : JobDescription)
    (hardP semanticP : AIAnalysisService.PartialAnalysisResult) :
  0 <= h <= 100 -> 0 <= s <= 100 ->
  hard_match_score hardMatch = JS.of_Z h ->
  JS.get semantic "semantic_match_score" = JS.VNum (JS.of_Z s) ->
  AIAnalysisService.p_hardMatchScore hardP = Some (JS.of_Z h) ->
  AIAnalysisService.p_semanticMatchScore semanticP = Some (JS.of_Z s) ->
  EnhancedAnalysisService.relevance_score
    (EnhancedAnalysisService.combineAnalysisResults hardMatch semantic job)
  = JS.of_Z (spec_relevance h s)
  /\ AIAnalysisService.relevanceScore
       (AIAnalysisService.combineAnalysisResults hardP semanticP)
     = JS.of_Z (spec_relevance h s).
Proof.
  intros Hh Hs Hhard Hsem HhardP HsemP. split.
  - unfold EnhancedAnalysisService.combineAnalysisResults; cbn [EnhancedAnalysisService.relevance_score].
    rewrite Hhard, Hsem. cbn [JS.ToNumber].
    apply (weighted_exact h s Hh Hs).
  - unfold AIAnalysisService.combineAnalysisResults; cbn [AIAnalysisService.relevanceScore].
    rewrite HhardP, HsemP, !number_or_in_range by assumption.
    apply (weighted_exact h s Hh Hs).
Qed.

(** ** Lists: filters and first occurrences *)

Lemma array_includes_true (l : list string) (x : string) :
  JS.array_includes l x = true <-> x ∈ l.
Proof. unfold JS.array_includes. apply bool_decide_eq_true. Qed.

Lemma array_includes_false (l : list string) (x : string) :
  JS.array_includes l x = false <-> x ∉ l.
Proof. unfold JS.array_includes. apply bool_decide_eq_false. Qed.

Lemma added_sublist (l acc : list string) : added acc l `sublist_of` l.
Proof.
  revert acc. induction l as [|x l IH]; intros acc; simpl.
  - constructor.
  - destruct (JS.array_includes acc x).
    + apply sublist_cons, IH.
    + apply sublist_skip, IH.
Qed.

Lemma elem_of_added (l acc : list string) (x : string) :
  x ∈ added acc l <-> x ∈ l /\ x ∉ acc.
Proof.
  revert acc. induction l as [|y l IH]; intros acc; simpl.
  - split; [intros H; inversion H | intros [H _]; inversion H].
  - destruct (JS.array_includes acc y) eqn:E.
    + apply array_includes_true in E. rewrite IH, elem_of_cons.
      split; [tauto|]. intros [[->|Hl] Hn]; [contradiction | tauto].
    + apply array_includes_false in E.
      rewrite !elem_of_cons, IH, elem_of_app, list_elem_of_singleton.
      destruct (decide (x = y)) as [->|Hne]; [tauto|].
      split; [tauto|]. intros [[?|?] ?]; [contradiction|]. right. tauto.
Qed.

Lemma NoDup_added (l acc : list string) : NoDup (added acc l).
Proof.
  revert acc. induction l as [|y l IH]; intros acc; simpl.
  - constructor.
  - destruct (JS.array_includes acc y); [apply IH|].
    constructor; [|apply IH].
    rewrite elem_of_added, elem_of_app, list_elem_of_singleton. tauto.
Qed.

Lemma added_fresh (l acc : list string) :
  NoDup l -> (forall x, x ∈ l -> x ∉ acc) -> added acc l = l.
Proof.
  revert acc. induction l as [|x l IH]; intros acc Hnd Hfresh; [reflexivity|].
  cbn [added]. apply NoDup_cons in Hnd as [Hx Hnd].
  assert (E : JS.array_includes acc x = false).
  { apply array_includes_false, Hfresh. by left. }
  rewrite E. f_equal. apply IH; [exact Hnd|].
  intros y Hy Hin. apply elem_of_app in Hin as [Hin|Hin].
  - apply (Hfresh y); [by right | exact Hin].
  - apply list_elem_of_singleton in Hin. by subst y.
Qed.

Lemma elem_of_critical (mustHave missing : list string) (x : string) :
  x ∈ filter (fun skill => JS.array_includes mustHave skill = true) missing
  <-> x ∈ missing /\ x ∈ mustHave.
Proof. rewrite list_elem_of_filter, array_includes_true. tauto. Qed.

Lemma filter_agree {A} (P Q : A -> Prop) `{!∀ x, Decision (P x)} `{!∀ x, Decision (Q x)}
    (l : list A) :
  (forall x, x ∈ l -> P x <-> Q x) -> filter P l = filter Q l.
Proof.
  induction l as [|x l IH]; intros Hagree; [done|].
  rewrite !filter_cons.
  rewrite IH by (intros y Hy; apply Hagree; by right).
  destruct (decide (P x)) as [HP|HP], (decide (Q x)) as [HQ|HQ]; try done;
    exfalso; apply (Hagree x (list_elem_of_here x l)) in HP || apply HP, (Hagree x (list_elem_of_here x l)); done.
Qed.

Lemma filter_all {A} (P : A -> Prop) `{!∀ x, Decision (P x)} (l : list A) :
  Forall P l -> filter P l = l.
Proof.
  induction 1 as [|x l Hx Hl IH]; [reflexivity|].
  by rewrite filter_cons_True, IH.
Qed.

Lemma filter_none {A} (P : A -> Prop) `{!∀ x, Decision (P x)} (l : list A) :
  Forall (fun x => ~ P x) l -> filter P l = [].
Proof.
  induction 1 as [|x l Hx Hl IH]; [reflexivity|].
  by rewrite filter_cons_False.
Qed.

Lemma sublist_filter_weaken {A} (P Q : A -> Prop)
    `{!∀ x, Decision (P x)} `{!∀ x, Decision (Q x)} (l : list A) :
  (forall x, P x -> Q x) -> filter P l `sublist_of` filter Q l.
Proof.
  intros HPQ. induction l as [|x l IH]; [constructor|].
  rewrite !filter_cons. destruct (decide (P x)) as [HP|HP].
  - rewrite decide_True by auto. by apply sublist_skip.
  - destruct (decide (Q x)); [by apply sublist_cons|exact IH].
Qed.

Lemma NoDup_classified (P : string -> Prop) `{!∀ x, Decision (P x)}
    (mustHave goodToHave : list string) :
  NoDup mustHave ->
  NoDup (filter P mustHave ++ added (filter P mustHave) (filter P goodToHave)).
Proof.
  intros Hnd. apply NoDup_app. split; [by apply NoDup_filter|].
  split; [|apply NoDup_added].
  intros x Hx Hadded. apply elem_of_added in Hadded. tauto.
Qed.

(** Sizes of the sets of skills when no skill is listed twice. *)
Lemma sizes_without_repeats (skills matched : list string) :
  NoDup skills -> NoDup matched -> (forall x, x ∈ matched -> x ∈ skills) ->
  size (list_to_set matched : gset string) = length matched
  /\ (length matched <= length skills)%nat.
Proof.
  intros Hs Hm Hsub. split; [by apply size_list_to_set|].
  apply submseteq_length, NoDup_submseteq; assumption.
Qed.

Lemma partition_loop (p : string -> bool) (l a b : list string) :
  fold_left
    (fun (st : list string * list string) x =>
       let '(matched, missing) := st in
       if p x then (matched ++ [x], missing) else (matched, missing ++ [x]))
    l (a, b)
  = (a ++ filter (fun x => p x = true) l, b ++ filter (fun x => p x = false) l).
Proof.
  revert a b. induction l as [|x l IH]; intros a b; cbn [fold_left].
  - by rewrite !filter_nil, !app_nil_r.
  - destruct (p x) eqn:E; rewrite IH.
    + rewrite (filter_cons_True (fun x => p x = true)) by exact E.
      rewrite (filter_cons_False (fun x => p x = false)) by congruence.
      by rewrite <- app_assoc.
    + rewrite (filter_cons_False (fun x => p x = true)) by congruence.
      rewrite (filter_cons_True (fun x => p x = false)) by exact E.
      by rewrite <- app_assoc.
Qed.

Lemma filter_split_permutation (p : string -> bool) (l : list string) :
  filter (fun x => p x = true) l ++ filter (fun x => p x = false) l ≡ₚ l.
Proof.
  induction l as [|x l IH]; [reflexivity|].
  destruct (p x) eqn:E.
  - rewrite (filter_cons_True (fun x => p x = true)) by exact E.
    rewrite (filter_cons_False (fun x => p x = false)) by congruence.
    cbn. by rewrite IH.
  - rewrite (filter_cons_False (fun x => p x = true)) by congruence.
    rewrite (filter_cons_True (fun x => p x = false)) by exact E.
    rewrite <- Permutation_middle. by rewrite IH.
Qed.

Lemma filter_filter_comm {A} (P Q : A -> Prop)
    `{!∀ x, Decision (P x)} `{!∀ x, Decision (Q x)} (l : list A) :
  filter P (filter Q l) = filter Q (filter P l).
Proof.
  induction l as [|x l IH]; [reflexivity|].
  destruct (decide (P x)) as [HP|HP], (decide (Q x)) as [HQ|HQ].
  - rewrite (filter_cons_True Q), (filter_cons_True P x l) by done.
    rewrite (filter_cons_True P), (filter_cons_True Q) by done. by rewrite IH.
  - rewrite (filter_cons_False Q), (filter_cons_True P x l) by done.
    rewrite (filter_cons_False Q) by done. exact IH.
  - rewrite (filter_cons_True Q), (filter_cons_False P x l) by done.
    rewrite (filter_cons_False P) by done. exact IH.
  - rewrite (filter_cons_False Q), (filter_cons_False P x l) by done. exact IH.
Qed.

Lemma first_occurrences_filter (P : string -> Prop) `{!∀ x, Decision (P x)}
    (l : list string) :
  first_occurrences (filter P l) = filter P (first_occurrences l).
Proof.
  induction l as [|x l IH]; [reflexivity|]. cbn [first_occurrences].
  destruct (decide (P x)) as [HP|HP].
  - rewrite (filter_cons_True P x l), (filter_cons_True P) by done.
    cbn [first_occurrences]. rewrite IH. f_equal. apply filter_filter_comm.
  - rewrite (filter_cons_False P x l), (filter_cons_False P) by done.
    rewrite IH, filter_filter_comm. symmetry. apply filter_all.
    apply Forall_forall. intros y Hy. apply list_elem_of_filter in Hy as [Hy _].
    by intros ->.
Qed.

(** What a loop guarded by [!acc.includes(x)] appends: the first
    occurrences of the entries that are not in the array yet. *)
Lemma added_first_occurrences (l acc : list string) :
  added acc l = first_occurrences (filter (fun x => x ∉ acc) l).
Proof.
  revert acc. induction l as [|x l IH]; intros acc; [reflexivity|].
  cbn [added]. destruct (JS.array_includes acc x) eqn:E.
  - apply array_includes_true in E.
    rewrite (filter_cons_False (fun x => x ∉ acc)) by (intros H; by apply H).
    apply IH.
  - apply array_includes_false in E.
    rewrite (filter_cons_True (fun x => x ∉ acc)) by exact E.
    cbn [first_occurrences]. f_equal. rewrite IH.
    rewrite <- first_occurrences_filter, list_filter_filter. f_equal.
    apply filter_agree. intros y _.
    rewrite elem_of_app, list_elem_of_singleton. tauto.
Qed.

(** ** Strings: prefixes, substrings and case folding *)

#[local] Arguments String.append : simpl nomatch.

Lemma append_nil_r (s : string) : s +:+ EmptyString = s.
Proof. induction s as [|c s IH]; simpl; [reflexivity|by rewrite IH]. Qed.

Lemma append_assoc (a b c : string) : (a +:+ b) +:+ c = a +:+ (b +:+ c).
Proof. induction a as [|x a IH]; simpl; [reflexivity|by rewrite IH]. Qed.

Lemma prefix_iff (a b : string) :
  String.prefix a b = true <-> exists q, b = a +:+ q.
Proof.
  revert b. induction a as [|x a IH]; intros b.
  - destruct b; simpl; split; eauto.
  - destruct b as [|y b]; simpl.
    + split; [discriminate|]. intros [q Hq]. discriminate.
    + destruct (Ascii.ascii_dec x y) as [->|Hne].
      * rewrite IH. split; intros [q Hq]; exists q; congruence.
      * split; [discriminate|]. intros [q Hq]. congruence.
Qed.

Lemma includes_nil (sub : string) :
  JS.includes EmptyString sub = String.prefix sub EmptyString.
Proof. simpl. apply orb_false_r. Qed.

Lemma includes_cons (c : ascii) (s sub : string) :
  JS.includes (String c s) sub = String.prefix sub (String c s) || JS.includes s sub.
Proof. reflexivity. Qed.

Lemma includes_iff (s sub : string) :
  JS.includes s sub = true <-> exists p q, s = p +:+ sub +:+ q.
Proof.
  induction s as [|c s IH].
  - rewrite includes_nil, prefix_iff. split.
    + intros [q Hq]. by exists EmptyString, q.
    + intros (p & q & Hpq). destruct p; simpl in Hpq; [eauto|discriminate].
  - rewrite includes_cons, orb_true_iff, prefix_iff, IH. split.
    + intros [[q Hq]|(p & q & Hpq)].
      * by exists EmptyString, q.
      * exists (String c p), q. simpl. by rewrite Hpq.
    + intros (p & q & Hpq). destruct p as [|c' p]; simpl in Hpq.
      * left. by exists q.
      * right. exists p, q. congruence.
Qed.

Lemma includes_trans (a b c : string) :
  JS.includes a b = true -> JS.includes b c = true -> JS.includes a c = true.
Proof.
  rewrite !includes_iff. intros (p & q & ->) (p' & q' & ->).
  exists (p +:+ p'), (q' +:+ q). by rewrite !append_assoc.
Qed.

Lemma includes_empty (sub : string) :
  JS.includes EmptyString sub = true <-> sub = EmptyString.
Proof. rewrite includes_nil. destruct sub; simpl; split; congruence. Qed.

Lemma includes_empty_sub (s : string) : JS.includes s EmptyString = true.
Proof. apply includes_iff. by exists EmptyString, s. Qed.

Lemma toLowerCase_ascii_append (a b : string) :
  JS.toLowerCase_ascii (a +:+ b) = JS.toLowerCase_ascii a +:+ JS.toLowerCase_ascii b.
Proof. induction a as [|x a IH]; simpl; [reflexivity|by rewrite IH]. Qed.

Lemma includes_toLowerCase_ascii (s sub : string) :
  JS.includes s sub = true ->
  JS.includes (JS.toLowerCase_ascii s) (JS.toLowerCase_ascii sub) = true.
Proof.
  rewrite !includes_iff. intros (p & q & ->).
  exists (JS.toLowerCase_ascii p), (JS.toLowerCase_ascii q). by rewrite !toLowerCase_ascii_append.
Qed.

Lemma lower_ascii_idempotent (c : ascii) :
  JS.lower_ascii (JS.lower_ascii c) = JS.lower_ascii c.
Proof. destruct c as [[] [] [] [] [] [] [] []]; reflexivity. Qed.

Lemma toLowerCase_ascii_idempotent (s : string) :
  JS.toLowerCase_ascii (JS.toLowerCase_ascii s) = JS.toLowerCase_ascii s.
Proof.
  induction s as [|c s IH]; simpl; [reflexivity|].
  by rewrite lower_ascii_idempotent, IH.
Qed.

Lemma ascii_text_append (a b : string) :
  JS.ascii_text (a +:+ b) = JS.ascii_text a && JS.ascii_text b.
Proof.
  induction a as [|c a IH]; [reflexivity|].
  simpl. by rewrite IH, andb_assoc.
Qed.

Lemma ascii_text_includes (s sub : string) :
  JS.includes s sub = true -> JS.ascii_text s = true -> JS.ascii_text sub = true.
Proof.
  intros Hinc Hs. apply includes_iff in Hinc as (p & q & ->).
  rewrite !ascii_text_append in Hs.
  apply andb_true_iff in Hs as [_ Hs]. by apply andb_true_iff in Hs as [Hs _].
Qed.

Lemma lower_ascii_is_ascii (c : ascii) :
  (nat_of_ascii (JS.lower_ascii c) <? 128)%nat = (nat_of_ascii c <? 128)%nat.
Proof. destruct c as [[] [] [] [] [] [] [] []]; reflexivity. Qed.

Lemma ascii_text_toLowerCase_ascii (s : string) :
  JS.ascii_text (JS.toLowerCase_ascii s) = JS.ascii_text s.
Proof.
  induction s as [|c s IH]; [reflexivity|].
  simpl. by rewrite lower_ascii_is_ascii, IH.
Qed.

(** ** Extracting the object from a reply *)

Lemma from_first_open_iff (s rest : string) :
  JS.from_first_open s = Some rest
  <-> exists prefix, s = prefix +:+ String "{" rest /\ has_char "{" prefix = false.
Proof.
  revert rest. induction s as [|c s IH]; intros rest; simpl.
  - split; [discriminate|]. intros (p & Hp & _). destruct p; discriminate.
  - destruct (Ascii.eqb_spec c "{") as [->|Hne].
    + split.
      * intros [= ->]. by exists EmptyString.
      * intros (p & Hp & Hno). destruct p as [|c' p]; simpl in *.
        -- congruence.
        -- injection Hp as <- _. discriminate.
    + rewrite IH. split.
      * intros (p & -> & Hno). exists (String c p). simpl.
        split; [reflexivity|]. rewrite Hno. by destruct (Ascii.eqb_spec c "{").
      * intros (p & Hp & Hno). destruct p as [|c' p]; simpl in *.
        -- congruence.
        -- injection Hp as <- ->. apply orb_false_iff in Hno as [_ Hno]. eauto.
Qed.

Lemma upto_last_close_none (s : string) :
  JS.upto_last_close s = None <-> has_char "}" s = false.
Proof.
  induction s as [|c s IH]; simpl; [done|].
  destruct (JS.upto_last_close s) as [p|].
  - split; [discriminate|]. intros H. apply orb_false_iff in H as [_ H].
    apply IH in H. discriminate.
  - destruct (Ascii.eqb c "}"); simpl; [split; discriminate|]. tauto.
Qed.

Lemma upto_last_close_iff (s m : string) :
  JS.upto_last_close s = Some m
  <-> exists body suffix,
        s = body +:+ String "}" suffix /\ m = body +:+ "}" /\ has_char "}" suffix = false.
Proof.
  revert m. induction s as [|c s IH]; intros m; simpl.
  - split; [discriminate|]. intros (b & x & Hb & _). destruct b; discriminate.
  - destruct (JS.upto_last_close s) as [p|] eqn:E.
    + split.
      * intros [= <-]. destruct (proj1 (IH p) eq_refl) as (b & x & -> & -> & Hx).
        by exists (String c b), x.
      * intros (b' & x' & Hb' & -> & Hx'). destruct b' as [|c' b']; simpl in Hb'.
        -- injection Hb' as _ Hb'. subst s.
           apply upto_last_close_none in Hx'. congruence.
        -- injection Hb' as <- Hb'. simpl.
           assert (Hp : Some p = Some (b' +:+ "}")) by (apply IH; eauto).
           congruence.
    + apply upto_last_close_none in E. split.
      * destruct (Ascii.eqb_spec c "}") as [->|Hne]; [|discriminate].
        intros [= <-]. by exists EmptyString, s.
      * intros (b' & x' & Hb' & -> & Hx'). destruct b' as [|c' b']; simpl in Hb'.
        -- injection Hb' as -> _. reflexivity.
        -- injection Hb' as _ Hb'. exfalso. subst s.
           clear -E. induction b' as [|y b' IHb]; simpl in E.
           ++ discriminate.
           ++ apply orb_false_iff in E as [_ E]. auto.
Qed.

(** X1. The pattern both services use to find the JSON object in a reply
    matches exactly the span from the first opening brace to the last
    closing brace after it: the reply is some text without an opening
    brace, the match, and some text without a closing brace. *)
Theorem match_braces_is_outermost_span (text m : string) :
  JS.match_braces text = Some m
  <-> exists prefix body suffix,
        text = prefix +:+ String "{" (body +:+ String "}" suffix)
        /\ m = String "{" (body +:+ "}")
        /\ has_char "{" prefix = false
        /\ has_char "}" suffix = false.
Proof.
  unfold JS.match_braces. split.
  - destruct (JS.from_first_open text) as [rest|] eqn:E; [|discriminate].
    apply from_first_open_iff in E as (prefix & -> & Hp).
    destruct (JS.upto_last_close rest) as [p|] eqn:E'; [|discriminate].
    apply upto_last_close_iff in E' as (body & suffix & -> & -> & Hs).
    intros [= <-]. by exists prefix, body, suffix.
  - intros (prefix & body & suffix & -> & -> & Hp & Hs).
    assert (E : JS.from_first_open (prefix +:+ String "{" (body +:+ String "}" suffix))
                = Some (body +:+ String "}" suffix)) by (apply from_first_open_iff; eauto).
    rewrite E.
    assert (E' : JS.upto_last_close (body +:+ String "}" suffix) = Some (body +:+ "}"))
      by (apply upto_last_close_iff; eauto).
    by rewrite E'.
Qed.


(** ** Comparisons and the verdict *)

Lemma SFcompare_antisym (x y : JS.number) :
  SFcompare y x = CompOpp <$> SFcompare x y.
Proof.
  destruct x as [sx|sx| |sx mx ex], y as [sy|sy| |sy my ey]; simpl;
    try destruct sx; try destruct sy; try reflexivity;
    rewrite (Z.compare_antisym ex ey); destruct (ex ?= ey); simpl; try reflexivity;
    rewrite (Pos.compare_cont_antisym _ _ Eq); simpl; by rewrite ?CompOpp_involutive.
Qed.

Lemma ltb_excludes_geb (x y : JS.number) :
  JS.ltb x y = true -> JS.geb x y = false.
Proof.
  unfold JS.ltb, JS.geb, SFltb, SFleb. rewrite (SFcompare_antisym x y).
  by destruct (SFcompare x y) as [[]|].
Qed.

Lemma geb_or_ltb (x y : JS.number) :
  x <> JS.NaN -> y <> JS.NaN -> JS.geb x y = true \/ JS.ltb x y = true.
Proof.
  intros Hx Hy. unfold JS.ltb, JS.geb, SFltb, SFleb. rewrite (SFcompare_antisym x y).
  destruct (SFcompare x y) as [[]|] eqn:E; simpl; auto.
  destruct x, y; simpl in E; try discriminate; exfalso; first [by apply Hx | by apply Hy].
Qed.

Lemma of_Z_50 : JS.of_Z 50 = S754_finite false 7036874417766400 (-47).
Proof. vm_compute. reflexivity. Qed.

Lemma of_Z_60 : JS.of_Z 60 = S754_finite false 8444249301319680 (-47).
Proof. vm_compute. reflexivity. Qed.

Lemma of_Z_80 : JS.of_Z 80 = S754_finite false 5629499534213120 (-46).
Proof. vm_compute. reflexivity. Qed.

Lemma of_Z_100 : JS.of_Z 100 = S754_finite false 7036874417766400 (-46).
Proof. vm_compute. reflexivity. Qed.

Lemma of_Z_0 : JS.of_Z 0 = S754_zero false.
Proof. vm_compute. reflexivity. Qed.

Lemma below_50_below_80 (x : JS.number) :
  JS.ltb x (JS.of_Z 50) = true -> JS.ltb x (JS.of_Z 80) = true.
Proof.
  rewrite of_Z_50, of_Z_80. unfold JS.ltb, SFltb.
  destruct x as [s|s| |s m e]; cbn [SFcompare]; [tauto|tauto|tauto|].
  destruct s; [tauto|].
  destruct (Z.compare_spec e (-47)) as [->| |]; [| |discriminate].
  - intros _. reflexivity.
  - intros _. destruct (Z.compare_spec e (-46)); [lia|reflexivity|lia].
Qed.

(** The enhanced service and the multi-provider service bucket a score
    with the 80/50 thresholds. *)
Lemma verdict_follows_80_50 (x : JS.number) (v : Verdict) :
  spec_verdict x v ->
  EnhancedAnalysisService.verdictOf x = v /\ AIAnalysisService.generateVerdict x = v.
Proof.
  unfold EnhancedAnalysisService.verdictOf, AIAnalysisService.generateVerdict.
  intros [H80|H50 H80|H50].
  - by rewrite H80.
  - by rewrite (ltb_excludes_geb _ _ H80), H50.
  - by rewrite (ltb_excludes_geb _ _ (below_50_below_80 _ H50)), (ltb_excludes_geb _ _ H50).
Qed.

(** The three ranges overlap nowhere. *)
Lemma spec_verdict_functional (x : JS.number) (v v' : Verdict) :
  spec_verdict x v -> spec_verdict x v' -> v = v'.
Proof.
  intros H H'. apply verdict_follows_80_50 in H as [<- _].
  by apply verdict_follows_80_50 in H' as [<- _].
Qed.

(** They leave no gap: every score that is a number falls in one of them. *)
Lemma spec_verdict_total (x : JS.number) :
  x <> JS.NaN -> spec_verdict x (EnhancedAnalysisService.verdictOf x).
Proof.
  intros Hx. unfold EnhancedAnalysisService.verdictOf.
  destruct (JS.geb x (JS.of_Z 80)) eqn:H80; [by constructor|].
  assert (H80' : JS.ltb x (JS.of_Z 80) = true).
  { destruct (geb_or_ltb x (JS.of_Z 80)) as [?|?]; [done|done|congruence|done]. }
  destruct (JS.geb x (JS.of_Z 50)) eqn:H50; [by constructor|].
  apply spec_verdict_low.
  destruct (geb_or_ltb x (JS.of_Z 50)) as [?|?]; [done|done|congruence|done].
Qed.

Lemma at_least_60_at_least_50 (x : JS.number) :
  JS.geb x (JS.of_Z 60) = true -> JS.geb x (JS.of_Z 50) = true.
Proof.
  rewrite of_Z_50, of_Z_60. unfold JS.geb, SFleb.
  destruct x as [s|s| |s m e]; cbn [SFcompare]; [tauto|tauto|tauto|].
  destruct s; [tauto|].
  destruct (Z.compare_spec (-47) e) as [<-| |]; [|tauto|tauto].
  rewrite !Pos.compare_cont_spec.
  destruct (Pos.compare_spec 8444249301319680 m) as [Heq|Hlt|Hgt];
    destruct (Pos.compare_spec 7036874417766400 m) as [Heq'|Hlt'|Hgt'];
    cbn [Pos.switch_Eq]; intros H; try reflexivity; try discriminate H; exfalso.
  - subst m. vm_compute in Hgt'. discriminate.
  - pose proof (Pos.lt_trans _ _ _ Hlt Hgt') as Hc. vm_compute in Hc. discriminate.
Qed.

Lemma at_least_80_at_least_60 (x : JS.number) :
  JS.geb x (JS.of_Z 80) = true -> JS.geb x (JS.of_Z 60) = true.
Proof.
  rewrite of_Z_60, of_Z_80. unfold JS.geb, SFleb.
  destruct x as [s|s| |s m e]; cbn [SFcompare]; [tauto|tauto|tauto|].
  destruct s; [tauto|].
  destruct (Z.compare_spec (-46) e) as [<-| |]; [reflexivity| |discriminate].
  intros _. destruct (Z.compare_spec (-47) e); [lia|reflexivity|lia].
Qed.

Lemma below_60_below_80 (x : JS.number) :
  JS.ltb x (JS.of_Z 60) = true -> JS.ltb x (JS.of_Z 80) = true.
Proof.
  rewrite of_Z_60, of_Z_80. unfold JS.ltb, SFltb.
  destruct x as [s|s| |s m e]; cbn [SFcompare]; [tauto|tauto|tauto|].
  destruct s; [tauto|].
  destruct (Z.compare_spec e (-47)) as [->| |]; [| |discriminate].
  - intros _. reflexivity.
  - intros _. destruct (Z.compare_spec e (-46)); [lia|reflexivity|lia].
Qed.

(** The simple service buckets a score with the thresholds 80 and 60. *)
Lemma verdict_follows_80_60 (x : JS.number) (v : Verdict) :
  verdict_80_60 x v -> SimpleAnalysisService.verdictOf x = v.
Proof.
  unfold SimpleAnalysisService.verdictOf.
  intros [H80|H60 H80|H60].
  - by rewrite H80.
  - by rewrite (ltb_excludes_geb _ _ H80), H60.
  - by rewrite (ltb_excludes_geb _ _ (below_60_below_80 _ H60)), (ltb_excludes_geb _ _ H60).
Qed.

Lemma verdict_80_60_total (x : JS.number) :
  x <> JS.NaN -> verdict_80_60 x (SimpleAnalysisService.verdictOf x).
Proof.
  intros Hx. unfold SimpleAnalysisService.verdictOf.
  destruct (JS.geb x (JS.of_Z 80)) eqn:H80; [by constructor|].
  assert (H80' : JS.ltb x (JS.of_Z 80) = true).
  { destruct (geb_or_ltb x (JS.of_Z 80)) as [?|?]; [done|by rewrite of_Z_80|congruence|done]. }
  destruct (JS.geb x (JS.of_Z 60)) eqn:H60; [by constructor|].
  apply verdict_80_60_low.
  destruct (geb_or_ltb x (JS.of_Z 60)) as [?|?]; [done|by rewrite of_Z_60|congruence|done].
Qed.

(** C2, amended. For every relevance score that is a number, the verdict is
    a function of the score whose three ranges leave no gap and do not
    overlap. The enhanced service and the multi-provider service use the
    thresholds 80 and 50: at least 80 is High, from 50 up to but excluding
    80 is Medium, below 50 is Low. The simple service uses 80 and 60: from
    60 up to but excluding 80 is Medium, below 60 is Low. *)
Theorem verdict_thresholds_of_each_service (x : JS.number) :
  x <> JS.NaN ->
  spec_verdict x (EnhancedAnalysisService.verdictOf x)
  /\ spec_verdict x (AIAnalysisService.generateVerdict x)
  /\ (forall v, spec_verdict x v ->
                v = EnhancedAnalysisService.verdictOf x
                /\ v = AIAnalysisService.generateVerdict x)
  /\ verdict_80_60 x (SimpleAnalysisService.verdictOf x)
  /\ (forall v, verdict_80_60 x v -> v = SimpleAnalysisService.verdictOf x).
Proof.
  intros Hx.
  pose proof (spec_verdict_total x Hx) as Htotal.
  destruct (verdict_follows_80_50 _ _ Htotal) as [_ Hai].
  split; [exact Htotal|]. split; [by rewrite Hai|].
  split; [intros v Hv; by destruct (verdict_follows_80_50 _ _ Hv) as [-> ->]|].
  split; [by apply verdict_80_60_total|].
  intros v Hv. by rewrite (verdict_follows_80_60 _ _ Hv).
Qed.

(** ** The two threshold sets compared *)

(** X10. For every number, the verdict of the simple service and the
    verdict of the enhanced service are the same, except for scores of at
    least 50 that are not at least 60, which the simple service calls Low
    and the enhanced service Medium. *)
Theorem verdicts_differ_only_between_50_and_60 (x : JS.number) :
  (JS.geb x (JS.of_Z 50) = true /\ JS.geb x (JS.of_Z 60) = false ->
   SimpleAnalysisService.verdictOf x = Low /\ EnhancedAnalysisService.verdictOf x = Medium)
  /\ (~ (JS.geb x (JS.of_Z 50) = true /\ JS.geb x (JS.of_Z 60) = false) ->
      SimpleAnalysisService.verdictOf x = EnhancedAnalysisService.verdictOf x).
Proof.
  unfold SimpleAnalysisService.verdictOf, EnhancedAnalysisService.verdictOf.
  pose proof (at_least_80_at_least_60 x) as H86.
  pose proof (at_least_60_at_least_50 x) as H65.
  destruct (JS.geb x (JS.of_Z 80)), (JS.geb x (JS.of_Z 60)), (JS.geb x (JS.of_Z 50));
    first
      [ discriminate (H86 eq_refl)
      | discriminate (H65 eq_refl)
      | split;
        [ intros [H50 H60]; try discriminate H50; try discriminate H60; split; reflexivity
        | intros Hn; try reflexivity; exfalso; apply Hn; split; reflexivity ] ].
Qed.

(** ** Tables and what they inherit *)

Lemma skillVariations_inherited (key : string) :
  key ∈ JS.Object_prototype_names -> JS.lookup skillVariations key = JS.Inherited.
Proof.
  intros Hin. unfold JS.Object_prototype_names in Hin.
  repeat (apply elem_of_cons in Hin as [->|Hin]; [vm_compute; reflexivity|]).
  by apply elem_of_nil in Hin.
Qed.

Lemma jobKeywords_inherited (key : string) :
  key ∈ JS.Object_prototype_names ->
  JS.lookup SimpleAnalysisService.jobKeywords key = JS.Inherited.
Proof.
  intros Hin. unfold JS.Object_prototype_names in Hin.
  repeat (apply elem_of_cons in Hin as [->|Hin]; [vm_compute; reflexivity|]).
  by apply elem_of_nil in Hin.
Qed.

Lemma lookup_not_inherited {A} (table : gmap string A) (key : string) :
  key ∉ JS.Object_prototype_names -> JS.lookup table key <> JS.Inherited.
Proof.
  intros Hnin. unfold JS.lookup. destruct (table !! key); [discriminate|].
  by rewrite bool_decide_false.
Qed.

Lemma forEach_thrown {S A} (f : S -> A -> option S) (l : list A) :
  fold_left (fun st x => st ≫= fun s => f s x) l None = None.
Proof. induction l as [|x l IH]; [reflexivity|exact IH]. Qed.

Lemma forEach_nil {S A} (f : S -> A -> option S) (s : S) : JS.forEach f [] s = Some s.
Proof. reflexivity. Qed.

Lemma forEach_cons {S A} (f : S -> A -> option S) (x : A) (l : list A) (s : S) :
  JS.forEach f (x :: l) s = f s x ≫= JS.forEach f l.
Proof.
  unfold JS.forEach. cbn [fold_left mbind option_bind].
  destruct (f s x); [reflexivity|apply forEach_thrown].
Qed.

Section Runtime.

Context {rt : JS.Runtime}.

(** ** The loops of [performHardMatch] *)

(** [isMatched] throws exactly when the loop body reads an inherited
    member of the table. *)
Lemma isMatched_throws (resumeLower skill : string) :
  isMatched resumeLower skill = None <-> reads_inherited resumeLower skill = true.
Proof.
  unfold isMatched, reads_inherited. cbv zeta.
  destruct (JS.includes resumeLower (JS.toLowerCase skill)); cbn [negb andb].
  - split; discriminate.
  - destruct (decide (JS.toLowerCase skill ∈ JS.Object_prototype_names)) as [Hin|Hnin].
    + rewrite (skillVariations_inherited _ Hin), bool_decide_true by exact Hin. done.
    + rewrite bool_decide_false by exact Hnin.
      pose proof (lookup_not_inherited skillVariations _ Hnin) as Hl.
      destruct (JS.lookup skillVariations (JS.toLowerCase skill)); try done;
        split; discriminate.
Qed.

Lemma isMatched_returns (resumeLower skill : string) (b : bool) :
  isMatched resumeLower skill = Some b -> reads_inherited resumeLower skill = false.
Proof.
  intros Hb. destruct (reads_inherited resumeLower skill) eqn:E; [|reflexivity].
  apply isMatched_throws in E. congruence.
Qed.

Section Loops.

Variable resumeLower : string.

Let matches (skill : string) : Prop := isMatched resumeLower skill = Some true.
Let misses (skill : string) : Prop := isMatched resumeLower skill = Some false.
Let returns (l : list string) : bool :=
  forallb (fun skill => negb (reads_inherited resumeLower skill)) l.

Lemma checkMustHave_eq (a b : list string) (x : string) :
  EnhancedAnalysisService.checkMustHave resumeLower (a, b) x
  = m ← isMatched resumeLower x;
    Some (if m : bool then (a ++ [x], b) else (a, b ++ [x])).
Proof. reflexivity. Qed.

Lemma checkGoodToHave_eq (a b : list string) (x : string) :
  EnhancedAnalysisService.checkGoodToHave resumeLower (a, b) x
  = m ← isMatched resumeLower x;
    Some (if m && negb (JS.array_includes a x) then (a ++ [x], b)
          else if negb m && negb (JS.array_includes b x) then (a, b ++ [x])
          else (a, b)).
Proof. reflexivity. Qed.

Lemma must_have_loop (l a b : list string) :
  JS.forEach (EnhancedAnalysisService.checkMustHave resumeLower) l (a, b)
  = if returns l then Some (a ++ filter matches l, b ++ filter misses l) else None.
Proof.
  revert a b. induction l as [|x l IH]; intros a b.
  - unfold JS.forEach. cbn [fold_left returns forallb].
    by rewrite !filter_nil, !app_nil_r.
  - rewrite forEach_cons, checkMustHave_eq.
    cbn [returns forallb].
    destruct (isMatched resumeLower x) as [[]|] eqn:E; cbn [mbind option_bind].
    + rewrite (isMatched_returns _ _ _ E). cbn [negb andb]. rewrite IH.
      fold (returns l). destruct (returns l); [|reflexivity].
      rewrite (filter_cons_True matches) by exact E.
      rewrite (filter_cons_False misses) by (unfold misses; congruence).
      by rewrite <- app_assoc.
    + rewrite (isMatched_returns _ _ _ E). cbn [negb andb]. rewrite IH.
      fold (returns l). destruct (returns l); [|reflexivity].
      rewrite (filter_cons_False matches) by (unfold matches; congruence).
      rewrite (filter_cons_True misses) by exact E.
      by rewrite <- app_assoc.
    + apply isMatched_throws in E. by rewrite E.
Qed.

Lemma simple_loop (l a b : list string) :
  JS.forEach (SimpleAnalysisService.checkSkill resumeLower) l (a, b)
  = if returns l then Some (a ++ filter matches l, b ++ filter misses l) else None.
Proof. apply must_have_loop. Qed.

Lemma good_to_have_loop (l a b : list string) :
  JS.forEach (EnhancedAnalysisService.checkGoodToHave resumeLower) l (a, b)
  = if returns l
    then Some (a ++ added a (filter matches l), b ++ added b (filter misses l))
    else None.
Proof.
  revert a b. induction l as [|x l IH]; intros a b.
  - unfold JS.forEach. cbn [fold_left returns forallb].
    by rewrite !filter_nil, !app_nil_r.
  - rewrite forEach_cons, checkGoodToHave_eq.
    cbn [returns forallb].
    destruct (isMatched resumeLower x) as [[]|] eqn:E; cbn [mbind option_bind].
    + rewrite (isMatched_returns _ _ _ E). cbn [negb andb].
      rewrite (filter_cons_True matches) by exact E.
      rewrite (filter_cons_False misses) by (unfold misses; congruence).
      cbn [added].
      destruct (JS.array_includes a x); cbn [negb andb]; rewrite IH;
        fold (returns l); destruct (returns l); try reflexivity.
      by rewrite <- app_assoc.
    + rewrite (isMatched_returns _ _ _ E). cbn [negb andb].
      rewrite (filter_cons_False matches) by (unfold matches; congruence).
      rewrite (filter_cons_True misses) by exact E.
      cbn [added].
      destruct (JS.array_includes b x); cbn [negb andb]; rewrite IH;
        fold (returns l); destruct (returns l); try reflexivity.
      by rewrite <- app_assoc.
    + apply isMatched_throws in E. by rewrite E.
Qed.

Lemma classify_eq (mustHave goodToHave : list string) :
  EnhancedAnalysisService.classify resumeLower mustHave goodToHave
  = if returns (mustHave ++ goodToHave)
    then Some (classified true resumeLower mustHave goodToHave,
               classified false resumeLower mustHave goodToHave)
    else None.
Proof.
  unfold EnhancedAnalysisService.classify. rewrite must_have_loop.
  unfold returns. rewrite forallb_app.
  destruct (forallb _ mustHave); cbn [mbind option_bind andb]; [|reflexivity].
  apply good_to_have_loop.
Qed.

Lemma elem_of_classified (keep : bool) (mustHave goodToHave : list string) (x : string) :
  x ∈ classified keep resumeLower mustHave goodToHave
  <-> x ∈ mustHave ++ goodToHave /\ isMatched resumeLower x = Some keep.
Proof.
  unfold classified.
  rewrite !elem_of_app, elem_of_added, !list_elem_of_filter.
  destruct (decide (x ∈ mustHave)); tauto.
Qed.

Lemma returns_elem (l : list string) (x : string) :
  returns l = true -> x ∈ l ->
  isMatched resumeLower x = Some true \/ isMatched resumeLower x = Some false.
Proof.
  unfold returns. rewrite forallb_forall. intros Hall Hx.
  apply list_elem_of_In, Hall, negb_true_iff in Hx.
  destruct (isMatched resumeLower x) as [[]|] eqn:E; auto.
  apply isMatched_throws in E. congruence.
Qed.

End Loops.

(** ** What [performHardMatch] returns *)

Lemma enhanced_hard_match_inv (resumeText : string) (job : JobDescription)
    (hardMatch : HardMatch) :
  EnhancedAnalysisService.performHardMatch resumeText job = Some hardMatch ->
  let total := (length (must_have_skills job) + length (good_to_have_skills job))%nat in
  classifiable resumeText job = true
  /\ matched_skills hardMatch
     = classified true (JS.toLowerCase resumeText)
         (must_have_skills job) (good_to_have_skills job)
  /\ missing_skills hardMatch
     = classified false (JS.toLowerCase resumeText)
         (must_have_skills job) (good_to_have_skills job)
  /\ critical_missing_skills hardMatch
     = filter (fun skill => JS.array_includes (must_have_skills job) skill = true)
         (missing_skills hardMatch)
  /\ hard_match_score hardMatch
     = JS.Math_round
         (if (0 <? total)%nat
          then JS.mul (JS.div (JS.of_nat (length (matched_skills hardMatch)))
                              (JS.of_nat total))
                      (JS.of_Z 100)
          else JS.of_Z 0).
Proof.
  unfold EnhancedAnalysisService.performHardMatch, classifiable. cbv zeta.
  rewrite classify_eq.
  destruct (forallb _ (must_have_skills job ++ good_to_have_skills job));
    cbn [mbind option_bind]; [|discriminate].
  intros [= <-]. cbn [matched_skills missing_skills critical_missing_skills hard_match_score].
  done.
Qed.

Lemma enhanced_hard_match_returns (resumeText : string) (job : JobDescription) :
  classifiable resumeText job = true ->
  exists hardMatch, EnhancedAnalysisService.performHardMatch resumeText job = Some hardMatch.
Proof.
  intros Hc. unfold EnhancedAnalysisService.performHardMatch. cbv zeta.
  rewrite classify_eq. unfold classifiable in Hc. rewrite Hc.
  cbn [mbind option_bind]. eauto.
Qed.

Lemma enhanced_hard_match_throws (resumeText : string) (job : JobDescription) :
  classifiable resumeText job = false ->
  EnhancedAnalysisService.performHardMatch resumeText job = None.
Proof.
  intros Hc. unfold EnhancedAnalysisService.performHardMatch. cbv zeta.
  rewrite classify_eq. unfold classifiable in Hc. by rewrite Hc.
Qed.

Lemma simple_hard_match_inv (resumeText : string) (job : JobDescription)
    (hardMatch : HardMatch) :
  SimpleAnalysisService.performHardMatch resumeText job = Some hardMatch ->
  let total := (length (must_have_skills job) + length (good_to_have_skills job))%nat in
  classifiable resumeText job = true
  /\ matched_skills hardMatch
     = filter (fun skill => isMatched (JS.toLowerCase resumeText) skill = Some true)
         (must_have_skills job ++ good_to_have_skills job)
  /\ missing_skills hardMatch
     = filter (fun skill => isMatched (JS.toLowerCase resumeText) skill = Some false)
         (must_have_skills job ++ good_to_have_skills job)
  /\ critical_missing_skills hardMatch
     = filter (fun skill => JS.array_includes (must_have_skills job) skill = true)
         (missing_skills hardMatch)
  /\ hard_match_score hardMatch
     = if (0 <? total)%nat
       then JS.Math_round
              (JS.mul (JS.div (JS.of_nat (length (matched_skills hardMatch)))
                              (JS.of_nat total))
                      (JS.of_Z 100))
       else JS.of_Z 50.
Proof.
  unfold SimpleAnalysisService.performHardMatch, classifiable. cbv zeta.
  rewrite simple_loop.
  destruct (forallb _ (must_have_skills job ++ good_to_have_skills job));
    cbn [mbind option_bind]; [|discriminate].
  intros [= <-]. cbn [matched_skills missing_skills critical_missing_skills hard_match_score].
  done.
Qed.

Lemma simple_hard_match_returns (resumeText : string) (job : JobDescription) :
  classifiable resumeText job = true ->
  exists hardMatch, SimpleAnalysisService.performHardMatch resumeText job = Some hardMatch.
Proof.
  intros Hc. unfold SimpleAnalysisService.performHardMatch. cbv zeta.
  rewrite simple_loop. unfold classifiable in Hc. rewrite Hc.
  cbn [mbind option_bind]. eauto.
Qed.

Lemma simple_hard_match_throws (resumeText : string) (job : JobDescription) :
  classifiable resumeText job = false ->
  SimpleAnalysisService.performHardMatch resumeText job = None.
Proof.
  intros Hc. unfold SimpleAnalysisService.performHardMatch. cbv zeta.
  rewrite simple_loop. unfold classifiable in Hc. by rewrite Hc.
Qed.

Lemma classifiable_elem (resumeText : string) (job : JobDescription) (x : string) :
  classifiable resumeText job = true ->
  x ∈ must_have_skills job ++ good_to_have_skills job ->
  isMatched (JS.toLowerCase resumeText) x = Some true
  \/ isMatched (JS.toLowerCase resumeText) x = Some false.
Proof. apply returns_elem. Qed.

(** A hard match without skills never throws. *)
Lemma classifiable_without_skills (resumeText : string) (job : JobDescription) :
  must_have_skills job ++ good_to_have_skills job = [] ->
  classifiable resumeText job = true.
Proof. unfold classifiable. by intros ->. Qed.

(** What a report of the enhanced service is made of. *)
Lemma enhanced_report_inv (response : EnhancedAnalysisService.FetchResult)
    (resumeText : string) (job : JobDescription)
    (report : EnhancedAnalysisService.EnhancedAnalysisResult) :
  EnhancedAnalysisService.analyzeResumeEnhanced response resumeText job = Some report ->
  exists hardMatch,
    EnhancedAnalysisService.performHardMatch resumeText job = Some hardMatch
    /\ report
       = EnhancedAnalysisService.combineAnalysisResults hardMatch
           (EnhancedAnalysisService.performLLMAnalysis response) job.
Proof.
  unfold EnhancedAnalysisService.analyzeResumeEnhanced,
    EnhancedAnalysisService.tryAnalyzeResumeEnhanced,
    EnhancedAnalysisService.getFallbackAnalysis.
  destruct (EnhancedAnalysisService.performHardMatch resumeText job) as [hardMatch|];
    cbn [mbind option_bind]; [|discriminate].
  intros [= <-]. by exists hardMatch.
Qed.

Lemma enhanced_report_returns (response : EnhancedAnalysisService.FetchResult)
    (resumeText : string) (job : JobDescription) (hardMatch : HardMatch) :
  EnhancedAnalysisService.performHardMatch resumeText job = Some hardMatch ->
  EnhancedAnalysisService.analyzeResumeEnhanced response resumeText job
  = Some (EnhancedAnalysisService.combineAnalysisResults hardMatch
            (EnhancedAnalysisService.performLLMAnalysis response) job).
Proof.
  intros Hhm.
  unfold EnhancedAnalysisService.analyzeResumeEnhanced,
    EnhancedAnalysisService.tryAnalyzeResumeEnhanced.
  by rewrite Hhm.
Qed.

(** What a report of the simple service is made of. *)
Lemma simple_report_inv (resumeText : string) (job : JobDescription)
    (report : SimpleAnalysisService.SimpleAnalysisResult) :
  SimpleAnalysisService.analyzeResumeSimple resumeText job = Some report ->
  exists hardMatch,
    SimpleAnalysisService.performHardMatch resumeText job = Some hardMatch
    /\ SimpleAnalysisService.generateComprehensiveAnalysis hardMatch job resumeText
       = Some report.
Proof.
  unfold SimpleAnalysisService.analyzeResumeSimple.
  destruct (SimpleAnalysisService.performHardMatch resumeText job) as [hardMatch|];
    cbn [mbind option_bind]; [|discriminate].
  intros Hrep. by exists hardMatch.
Qed.

Lemma comprehensive_analysis_inv (hardMatch : HardMatch) (job : JobDescription)
    (resumeText : string) (report : SimpleAnalysisService.SimpleAnalysisResult) :
  SimpleAnalysisService.generateComprehensiveAnalysis hardMatch job resumeText
  = Some report ->
  SimpleAnalysisService.calculateSemanticScore job resumeText (hard_match_score hardMatch)
  = Some (SimpleAnalysisService.semantic_match_score report)
  /\ SimpleAnalysisService.relevance_score report
     = weighted (hard_match_score hardMatch)
         (SimpleAnalysisService.semantic_match_score report)
  /\ SimpleAnalysisService.verdict report
     = SimpleAnalysisService.verdictOf (SimpleAnalysisService.relevance_score report)
  /\ SimpleAnalysisService.r_hard_match_score report = hard_match_score hardMatch
  /\ SimpleAnalysisService.r_matched_skills report = matched_skills hardMatch
  /\ SimpleAnalysisService.r_missing_skills report = missing_skills hardMatch
  /\ SimpleAnalysisService.r_critical_missing_skills report
     = critical_missing_skills hardMatch.
Proof.
  unfold SimpleAnalysisService.generateComprehensiveAnalysis.
  destruct (SimpleAnalysisService.calculateSemanticScore job resumeText
              (hard_match_score hardMatch)) as [semanticScore|];
    cbn [mbind option_bind]; [|discriminate].
  intros [= <-]. split_conjunction; reflexivity.
Qed.

Lemma classified_in_job_order (keep : bool) (resumeLower : string)
    (mustHave goodToHave : list string) :
  in_job_order mustHave goodToHave (classified keep resumeLower mustHave goodToHave).
Proof.
  unfold in_job_order.
  set (result := classified keep resumeLower mustHave goodToHave).
  assert (Hres : forall x, x ∈ result
                           <-> x ∈ mustHave ++ goodToHave
                               /\ isMatched resumeLower x = Some keep)
    by (intros x; apply elem_of_classified).
  unfold result at 1, classified. f_equal.
  - apply filter_agree. intros x Hx. rewrite Hres, elem_of_app. tauto.
  - rewrite added_first_occurrences, list_filter_filter. f_equal.
    apply filter_agree. intros x Hx.
    rewrite Hres, elem_of_app, list_elem_of_filter. tauto.
Qed.

Lemma calculateSemanticScore_cases (job : JobDescription) (resumeText : string)
    (hardScore : JS.number) :
  let resumeLower := JS.toLowerCase resumeText in
  let counts keywords :=
    semanticFromCounts hardScore
      (SimpleAnalysisService.countIncluded resumeLower keywords)
      (SimpleAnalysisService.countIncluded resumeLower
         ["years"; "experience"; "worked"; "developed"; "built"; "led"; "managed"])
      (SimpleAnalysisService.countIncluded resumeLower
         ["project"; "built"; "created"; "developed"; "implemented"]) in
  SimpleAnalysisService.calculateSemanticScore job resumeText hardScore
  = match JS.lookup SimpleAnalysisService.jobKeywords (JS.toLowerCase (title job)) with
    | JS.Own keywords => Some (counts keywords)
    | JS.Inherited => None
    | JS.Undefined => Some (counts [])
    end.
Proof.
  cbv zeta. unfold SimpleAnalysisService.calculateSemanticScore. cbv zeta.
  by destruct (JS.lookup SimpleAnalysisService.jobKeywords (JS.toLowerCase (title job))).
Qed.

Lemma semantic_score_throws (job : JobDescription) (resumeText : string)
    (hardScore : JS.number) :
  SimpleAnalysisService.calculateSemanticScore job resumeText hardScore = None
  <-> title_inherited job = true.
Proof.
  rewrite calculateSemanticScore_cases. cbv zeta. unfold title_inherited.
  destruct (decide (JS.toLowerCase (title job) ∈ JS.Object_prototype_names)) as [Hin|Hnin].
  - by rewrite (jobKeywords_inherited _ Hin), bool_decide_true.
  - rewrite bool_decide_false by exact Hnin.
    pose proof (lookup_not_inherited SimpleAnalysisService.jobKeywords _ Hnin) as Hl.
    destruct (JS.lookup SimpleAnalysisService.jobKeywords (JS.toLowerCase (title job)));
      try done; split; discriminate.
Qed.

Lemma simple_report_returns (resumeText : string) (job : JobDescription) :
  classifiable resumeText job = true -> title_inherited job = false ->
  exists report, SimpleAnalysisService.analyzeResumeSimple resumeText job = Some report.
Proof.
  intros Hc Ht. destruct (simple_hard_match_returns _ _ Hc) as [hardMatch Hhm].
  unfold SimpleAnalysisService.analyzeResumeSimple. rewrite Hhm.
  cbn [mbind option_bind].
  unfold SimpleAnalysisService.generateComprehensiveAnalysis.
  destruct (SimpleAnalysisService.calculateSemanticScore job resumeText
              (hard_match_score hardMatch)) as [semanticScore|] eqn:Es;
    cbn [mbind option_bind]; [eauto|].
  apply semantic_score_throws in Es. congruence.
Qed.

(** C4. For every resume text and job description, the matched and the
    missing skills of the hard match result partition the union of the
    must-have and good-to-have skills: together they are that union, they
    have no skill in common, and so each skill of the union is in exactly
    one of them. The hard match returns a result exactly when no skill of
    the job reads an inherited member of the variations table. *)
Theorem hard_match_partitions_skills (resumeText : string) (job : JobDescription) :
  (classifiable resumeText job = true
   <-> exists hardMatch,
         EnhancedAnalysisService.performHardMatch resumeText job = Some hardMatch)
  /\ forall hardMatch,
       EnhancedAnalysisService.performHardMatch resumeText job = Some hardMatch ->
       let matched : gset string := list_to_set (matched_skills hardMatch) in
       let missing : gset string := list_to_set (missing_skills hardMatch) in
       let union : gset string :=
         list_to_set (must_have_skills job) ∪ list_to_set (good_to_have_skills job) in
       matched ∪ missing = union
       /\ matched ∩ missing = ∅
       /\ forall skill, skill ∈ union ->
            (skill ∈ matched /\ skill ∉ missing) \/ (skill ∈ missing /\ skill ∉ matched).
Proof.
  split.
  { split; [apply enhanced_hard_match_returns|].
    intros [hardMatch Hhm]. by destruct (enhanced_hard_match_inv _ _ _ Hhm) as [? _]. }
  intros hardMatch Hhm matched missing union.
  destruct (enhanced_hard_match_inv _ _ _ Hhm) as (Hc & Hmatched & Hmissing & _).
  assert (Hu : forall x, x ∈ union
                         <-> x ∈ must_have_skills job ++ good_to_have_skills job).
  { intros x. unfold union. rewrite elem_of_union, !elem_of_list_to_set, elem_of_app.
    tauto. }
  assert (Hm : forall x, x ∈ matched <->
            x ∈ union /\ isMatched (JS.toLowerCase resumeText) x = Some true).
  { intros x. unfold matched.
    by rewrite elem_of_list_to_set, Hmatched, elem_of_classified, Hu. }
  assert (Hn : forall x, x ∈ missing <->
            x ∈ union /\ isMatched (JS.toLowerCase resumeText) x = Some false).
  { intros x. unfold missing.
    by rewrite elem_of_list_to_set, Hmissing, elem_of_classified, Hu. }
  assert (Hcases : forall x, x ∈ union ->
            isMatched (JS.toLowerCase resumeText) x = Some true
            \/ isMatched (JS.toLowerCase resumeText) x = Some false).
  { intros x Hx. apply (classifiable_elem _ job); [exact Hc|by apply Hu]. }
  split; [|split].
  - apply set_eq. intros x. rewrite elem_of_union, Hm, Hn.
    split; [tauto|]. intros Hx. destruct (Hcases x Hx); tauto.
  - apply set_eq. intros x. rewrite elem_of_intersection, Hm, Hn.
    split; [|intros H; by apply not_elem_of_empty in H].
    intros [[_ H1] [_ H2]]. congruence.
  - intros x Hx. rewrite !Hm, !Hn.
    destruct (Hcases x Hx) as [E|E]; [left|right];
      (split; [done|intros [_ ?]; congruence]).
Qed.

(** C5. In every report produced, by the enhanced service or by the simple
    one, the critical missing skills are exactly the missing skills that
    are must-have skills; in particular they are included in that
    intersection. A report is produced whenever no skill of the job reads
    an inherited member of the variations table and, in the simple
    service, the job title does not read one of the keyword table. *)
Theorem critical_missing_within_missing_must_have
    (response : EnhancedAnalysisService.FetchResult)
    (resumeText : string) (job : JobDescription) :
  let mustHave : gset string := list_to_set (must_have_skills job) in
  (classifiable resumeText job = true ->
   exists enhanced,
     EnhancedAnalysisService.analyzeResumeEnhanced response resumeText job
     = Some enhanced)
  /\ (classifiable resumeText job = true -> title_inherited job = false ->
      exists simple,
        SimpleAnalysisService.analyzeResumeSimple resumeText job = Some simple)
  /\ (forall enhanced,
      EnhancedAnalysisService.analyzeResumeEnhanced response resumeText job
      = Some enhanced ->
      (list_to_set (EnhancedAnalysisService.r_critical_missing_skills enhanced)
       : gset string)
        ⊆ list_to_set (EnhancedAnalysisService.r_missing_skills enhanced) ∩ mustHave
      /\ (list_to_set (EnhancedAnalysisService.r_critical_missing_skills enhanced)
          : gset string)
         = list_to_set (EnhancedAnalysisService.r_missing_skills enhanced) ∩ mustHave)
  /\ (forall simple,
         SimpleAnalysisService.analyzeResumeSimple resumeText job = Some simple ->
         (list_to_set (SimpleAnalysisService.r_critical_missing_skills simple)
          : gset string)
           ⊆ list_to_set (SimpleAnalysisService.r_missing_skills simple) ∩ mustHave
         /\ (list_to_set (SimpleAnalysisService.r_critical_missing_skills simple)
             : gset string)
            = list_to_set (SimpleAnalysisService.r_missing_skills simple) ∩ mustHave).
Proof.
  intros mustHave.
  assert (Hcritical : forall missing,
            (list_to_set
               (filter (fun skill => JS.array_includes (must_have_skills job) skill = true)
                       missing) : gset string)
            = list_to_set missing ∩ mustHave).
  { intros missing. apply set_eq. intros x. unfold mustHave.
    rewrite elem_of_intersection, !elem_of_list_to_set. apply elem_of_critical. }
  split; [|split; [apply simple_report_returns|split]].
  - intros Hc. destruct (enhanced_hard_match_returns _ _ Hc) as [hardMatch Hhm].
    rewrite (enhanced_report_returns response _ _ _ Hhm). eauto.
  - intros enhanced Hrep.
    apply enhanced_report_inv in Hrep as (hardMatch & Hhm & ->).
    destruct (enhanced_hard_match_inv _ _ _ Hhm) as (_ & _ & _ & Hcrit & _).
    cbn [EnhancedAnalysisService.combineAnalysisResults
         EnhancedAnalysisService.r_critical_missing_skills
         EnhancedAnalysisService.r_missing_skills].
    rewrite Hcrit, Hcritical. done.
  - intros simple Hrep.
    apply simple_report_inv in Hrep as (hardMatch & Hhm & Hrep).
    destruct (comprehensive_analysis_inv _ _ _ _ Hrep) as (_ & _ & _ & _ & _ & -> & ->).
    destruct (simple_hard_match_inv _ _ _ Hhm) as (_ & _ & _ & Hcrit & _).
    rewrite Hcrit, Hcritical. done.
Qed.

(** C10. For every resume text and job description, each matched and each
    missing skill of the hard match result is an entry of the job's
    must-have or good-to-have list, unchanged, and both arrays are in job
    order: the must-have entries first, in their given order, then the
    newly classified good-to-have skills in their given order. The hard
    match returns a result exactly when no skill of the job reads an
    inherited member of the variations table. *)
Theorem skills_verbatim_in_job_order (resumeText : string) (job : JobDescription) :
  (classifiable resumeText job = true
   <-> exists hardMatch,
         EnhancedAnalysisService.performHardMatch resumeText job = Some hardMatch)
  /\ forall hardMatch,
       EnhancedAnalysisService.performHardMatch resumeText job = Some hardMatch ->
       let mustHave := must_have_skills job in
       let goodToHave := good_to_have_skills job in
       (forall skill, skill ∈ matched_skills hardMatch ++ missing_skills hardMatch ->
                      skill ∈ mustHave ++ goodToHave)
       /\ in_job_order mustHave goodToHave (matched_skills hardMatch)
       /\ in_job_order mustHave goodToHave (missing_skills hardMatch).
Proof.
  split.
  { split; [apply enhanced_hard_match_returns|].
    intros [hardMatch Hhm]. by destruct (enhanced_hard_match_inv _ _ _ Hhm) as [? _]. }
  intros hardMatch Hhm mustHave goodToHave.
  destruct (enhanced_hard_match_inv _ _ _ Hhm) as (_ & -> & -> & _).
  split; [|split].
  - intros x. rewrite elem_of_app, !elem_of_classified. tauto.
  - apply classified_in_job_order.
  - apply classified_in_job_order.
Qed.

(** ** The hard match score *)

(** With fewer than 200 skills the quotient, its product with 100 and the
    final rounding give the rounded percentage, except at the ratio 23/40. *)
Lemma percentage_exact_below_200 (m t : nat) :
  (0 < t < 200)%nat -> (m <= t)%nat ->
  JS.Math_round (JS.mul (JS.div (JS.of_nat m) (JS.of_nat t)) (JS.of_Z 100))
  = JS.of_Z (percentage_as_computed m t).
Proof.
  intros Ht Hm. eapply bool_decide_eq_true_1.
  assert (Hall : forallb (fun t => forallb (percentage_agrees t) (seq 0 (S t))) (seq 1 199)
                 = true) by evaluate.
  rewrite forallb_forall in Hall.
  assert (Hin : In t (seq 1 199)) by (apply in_seq; lia).
  specialize (Hall t Hin). rewrite forallb_forall in Hall.
  apply (Hall m). apply in_seq. lia.
Qed.

Lemma score_of_matched (skills matched : list string) :
  NoDup skills -> NoDup matched -> (forall x, x ∈ matched -> x ∈ skills) ->
  (0 < length skills < 200)%nat ->
  JS.Math_round
    (JS.mul (JS.div (JS.of_nat (length matched)) (JS.of_nat (length skills)))
            (JS.of_Z 100))
  = JS.of_Z (hard_score_as_computed (list_to_set matched) (list_to_set skills)).
Proof.
  intros Hs Hm Hsub Hlen.
  destruct (sizes_without_repeats skills matched Hs Hm Hsub) as [Hsize Hle].
  unfold hard_score_as_computed. rewrite Hsize, (size_list_to_set skills) by exact Hs.
  rewrite decide_False by lia.
  apply percentage_exact_below_200; lia.
Qed.

(** C3, amended. When the job lists fewer than 200 skills and none of them
    twice, the hard match score of the enhanced service is
    round(100 * |matched| / |union|), except that it is 57 when |matched| /
    |union| is 23/40, and 0 when the union is empty, in which case a result
    is always returned; the simple service computes the same score, except
    that it returns 50 when the union is empty. Either hard match returns
    a result exactly when no skill of the job reads an inherited member of
    the variations table. *)
Theorem hard_score_without_repeats (resumeText : string) (job : JobDescription) :
  NoDup (must_have_skills job ++ good_to_have_skills job) ->
  (length (must_have_skills job ++ good_to_have_skills job) < 200)%nat ->
  let union : gset string :=
    list_to_set (must_have_skills job) ∪ list_to_set (good_to_have_skills job) in
  (forall enhanced,
      EnhancedAnalysisService.performHardMatch resumeText job = Some enhanced ->
      hard_match_score enhanced
      = JS.of_Z (hard_score_as_computed (list_to_set (matched_skills enhanced)) union))
  /\ (union = ∅ ->
      exists enhanced,
        EnhancedAnalysisService.performHardMatch resumeText job = Some enhanced
        /\ hard_match_score enhanced = JS.of_Z 0)
  /\ (forall simple,
         SimpleAnalysisService.performHardMatch resumeText job = Some simple ->
         hard_match_score simple
         = JS.of_Z (if decide (size union = 0%nat) then 50
                    else hard_score_as_computed
                           (list_to_set (matched_skills simple)) union))
  /\ (forall matched : gset string,
         40 * Z.of_nat (size matched) <> 23 * Z.of_nat (size union) ->
         hard_score_as_computed matched union = spec_hard_score matched union)
  /\ (union = ∅ ->
      exists simple,
        SimpleAnalysisService.performHardMatch resumeText job = Some simple
        /\ hard_match_score simple = JS.of_Z 50)
  /\ (classifiable resumeText job = true
      <-> exists enhanced,
            EnhancedAnalysisService.performHardMatch resumeText job = Some enhanced)
  /\ (classifiable resumeText job = true
      <-> exists simple,
            SimpleAnalysisService.performHardMatch resumeText job = Some simple).
Proof.
  intros Hnd Hlen union.
  set (mustHave := must_have_skills job) in *.
  set (goodToHave := good_to_have_skills job) in *.
  assert (Hunion : union = list_to_set (mustHave ++ goodToHave))
    by (unfold union; by rewrite list_to_set_app_L).
  assert (Hsu : size union = length (mustHave ++ goodToHave))
    by (rewrite Hunion; by apply size_list_to_set).
  assert (Henh : forall enhanced,
             EnhancedAnalysisService.performHardMatch resumeText job = Some enhanced ->
             hard_match_score enhanced
             = JS.of_Z (hard_score_as_computed
                          (list_to_set (matched_skills enhanced)) union)).
  { intros enhanced Hhm.
    destruct (enhanced_hard_match_inv _ _ _ Hhm) as (_ & Hmatched & _ & _ & Hscore).
    cbv zeta in Hscore. fold mustHave goodToHave in Hscore, Hmatched.
    rewrite <- length_app in Hscore. rewrite Hscore.
    destruct (mustHave ++ goodToHave) as [|skill skills] eqn:Eskills.
    - unfold hard_score_as_computed. rewrite decide_True by (by rewrite Hsu).
      reflexivity.
    - replace (0 <? length (skill :: skills))%nat with true by reflexivity.
      rewrite Hunion. apply score_of_matched; [exact Hnd| | |cbn [length] in *; lia].
      + rewrite Hmatched. apply NoDup_classified.
        rewrite <- Eskills in Hnd. by apply NoDup_app in Hnd as [? _].
      + intros x. rewrite Hmatched, elem_of_classified, Eskills. tauto. }
  assert (Hsim : forall simple,
             SimpleAnalysisService.performHardMatch resumeText job = Some simple ->
             hard_match_score simple
             = JS.of_Z (if decide (size union = 0%nat) then 50
                        else hard_score_as_computed
                               (list_to_set (matched_skills simple)) union)).
  { intros simple Hhm.
    destruct (simple_hard_match_inv _ _ _ Hhm) as (_ & Hmatched & _ & _ & Hscore).
    cbv zeta in Hscore. fold mustHave goodToHave in Hscore, Hmatched.
    rewrite <- length_app in Hscore. rewrite Hscore.
    destruct (mustHave ++ goodToHave) as [|skill skills] eqn:Eskills.
    + rewrite decide_True by (by rewrite Hsu). reflexivity.
    + rewrite decide_False by (rewrite Hsu; discriminate).
      replace (0 <? length (skill :: skills))%nat with true by reflexivity.
      rewrite Hunion. apply score_of_matched; [exact Hnd| | |cbn [length] in *; lia].
      * rewrite Hmatched. by apply NoDup_filter.
      * intros x. rewrite Hmatched, list_elem_of_filter. tauto. }
  assert (Hnil : union = ∅ -> mustHave ++ goodToHave = []).
  { intros Hempty. apply length_zero_iff_nil. rewrite <- Hsu, Hempty. apply size_empty. }
  split; [exact Henh|]. split; [|split; [exact Hsim|split; [|split; [|split]]]].
  - intros Hempty. specialize (Hnil Hempty).
    destruct (enhanced_hard_match_returns resumeText job
                (classifiable_without_skills _ _ Hnil)) as [enhanced Hhm].
    exists enhanced. split; [exact Hhm|]. rewrite (Henh _ Hhm).
    unfold hard_score_as_computed. rewrite decide_True; [reflexivity|].
    rewrite Hempty. apply size_empty.
  - intros matched Hratio. unfold hard_score_as_computed, spec_hard_score.
    destruct (decide (size union = 0%nat)); [reflexivity|].
    unfold percentage_as_computed.
    destruct (Z.eqb_spec (40 * Z.of_nat (size matched)) (23 * Z.of_nat (size union)));
      [contradiction|reflexivity].
  - intros Hempty. specialize (Hnil Hempty).
    destruct (simple_hard_match_returns resumeText job
                (classifiable_without_skills _ _ Hnil)) as [simple Hhm].
    exists simple. split; [exact Hhm|]. rewrite (Hsim _ Hhm).
    rewrite decide_True; [reflexivity|]. rewrite Hempty. apply size_empty.
  - split; [apply enhanced_hard_match_returns|].
    intros [enhanced Hhm]. by destruct (enhanced_hard_match_inv _ _ _ Hhm) as [? _].
  - split; [apply simple_hard_match_returns|].
    intros [simple Hhm]. by destruct (simple_hard_match_inv _ _ _ Hhm) as [? _].
Qed.

(** The quotient is rounded before it is multiplied by 100: with 23 of 40
    skills matched the product is just below 57.5 and is rounded to 57. *)
Example score_of_23_in_40 :
  JS.Math_round (JS.mul (JS.div (JS.of_nat 23) (JS.of_nat 40)) (JS.of_Z 100)) = JS.of_Z 57
  /\ round_half_up (Qmake (100 * 23) 40) = 58.
Proof. split; evaluate. Qed.

(** ** The semantic evaluator and its fallback *)

Lemma failure_throws `{JS.Runtime} (response : EnhancedAnalysisService.FetchResult) :
  SemanticFailure response -> EnhancedAnalysisService.tryLLMAnalysis response = None.
Proof.
  intros [ | status json | status | status data Hshape
         | status data text Htext Hnone | status data text jsonMatch Htext Hsome Hparse];
    unfold EnhancedAnalysisService.tryLLMAnalysis; cbn [negb mbind option_bind];
    try reflexivity.
  - destruct (EnhancedAnalysisService.replyText data) as [[ | |b|x|text|items|fields]|] eqn:E;
      cbn [mbind option_bind]; try reflexivity.
    by destruct (Hshape text).
  - rewrite Htext. cbn [mbind option_bind]. by rewrite Hnone.
  - rewrite Htext. cbn [mbind option_bind]. by rewrite Hsome.
Qed.

Lemma throw_is_failure `{JS.Runtime} (response : EnhancedAnalysisService.FetchResult) :
  EnhancedAnalysisService.tryLLMAnalysis response = None -> SemanticFailure response.
Proof.
  destruct response as [|ok status json]; [intros _; apply failure_rejected|].
  destruct ok; [|intros _; apply failure_status].
  destruct json as [data|]; [|intros _; apply failure_body].
  unfold EnhancedAnalysisService.tryLLMAnalysis; cbn [negb mbind option_bind].
  destruct (EnhancedAnalysisService.replyText data) as [v|] eqn:E; cbn [mbind option_bind].
  - destruct v as [ | |b|x|text|items|fields];
      try (intros _; apply failure_shape; congruence).
    destruct (JS.match_braces text) as [jsonMatch|] eqn:Em; intros Hp.
    + by eapply failure_decode.
    + by eapply failure_no_object.
  - intros _. apply failure_shape. congruence.
Qed.

Lemma fallback_fields_truthy (hardMatch : HardMatch) (job : JobDescription)
    `{JS.Runtime} :
  semantic_fields_from EnhancedAnalysisService.getFallbackSemanticAnalysis
    (EnhancedAnalysisService.combineAnalysisResults hardMatch
       EnhancedAnalysisService.getFallbackSemanticAnalysis job).
Proof. repeat split. Qed.

Lemma or_else_defined (a d : JS.value) : defined d -> defined (JS.or_else a d).
Proof.
  intros Hd. unfold JS.or_else. destruct (JS.truthy a) eqn:E; [|exact Hd].
  intros ->. discriminate.
Qed.

Lemma combine_optional_fields_defined `{JS.Runtime}
    (hardMatch : HardMatch) (semantic : JS.obj) (job : JobDescription) :
  optional_fields_defined
    (EnhancedAnalysisService.combineAnalysisResults hardMatch semantic job).
Proof. repeat split; apply or_else_defined; discriminate. Qed.

Lemma failure_gives_fallback (response : EnhancedAnalysisService.FetchResult) :
  SemanticFailure response ->
  EnhancedAnalysisService.performLLMAnalysis response
  = EnhancedAnalysisService.getFallbackSemanticAnalysis.
Proof.
  intros Hfail. unfold EnhancedAnalysisService.performLLMAnalysis.
  by rewrite failure_throws.
Qed.

(** When the try block of [analyzeResumeEnhanced] throws, its handler
    throws too: both call [performHardMatch], the only step that can
    throw. *)
Lemma enhanced_report_rejected (response : EnhancedAnalysisService.FetchResult)
    (resumeText : string) (job : JobDescription) :
  EnhancedAnalysisService.performHardMatch resumeText job = None ->
  EnhancedAnalysisService.tryAnalyzeResumeEnhanced response resumeText job = None
  /\ EnhancedAnalysisService.getFallbackAnalysis resumeText job = None
  /\ EnhancedAnalysisService.analyzeResumeEnhanced response resumeText job = None.
Proof.
  intros Hhm.
  unfold EnhancedAnalysisService.analyzeResumeEnhanced,
    EnhancedAnalysisService.tryAnalyzeResumeEnhanced,
    EnhancedAnalysisService.getFallbackAnalysis.
  by rewrite Hhm.
Qed.


(** X26. Whenever the provider call fails, no object can be extracted from
    the reply, or decoding fails, [performLLMAnalysis] returns the fixed
    fallback result (score 65 and its generic strengths, weaknesses and
    suggestions) instead of throwing, and, the hard match having returned,
    [analyzeResumeEnhanced] returns a complete report built from the hard
    match and those fallback values. *)
Theorem semantic_failure_yields_fallback_report
    (response : EnhancedAnalysisService.FetchResult)
    (resumeText : string) (job : JobDescription) (hardMatch : HardMatch) :
  SemanticFailure response ->
  EnhancedAnalysisService.performHardMatch resumeText job = Some hardMatch ->
  exists report,
    EnhancedAnalysisService.analyzeResumeEnhanced response resumeText job = Some report
    /\ EnhancedAnalysisService.performLLMAnalysis response
       = EnhancedAnalysisService.getFallbackSemanticAnalysis
    /\ report
       = EnhancedAnalysisService.combineAnalysisResults hardMatch
           EnhancedAnalysisService.getFallbackSemanticAnalysis job
    /\ EnhancedAnalysisService.getFallbackAnalysis resumeText job = Some report
    /\ EnhancedAnalysisService.semantic_match_score report = EnhancedAnalysisService.num 65
    /\ EnhancedAnalysisService.strengths report
       = EnhancedAnalysisService.strs
           ["Relevant technical background"; "Good educational foundation"]
    /\ EnhancedAnalysisService.weaknesses report
       = EnhancedAnalysisService.strs
           ["Limited industry experience"; "Could improve project portfolio"]
    /\ EnhancedAnalysisService.improvement_suggestions report
       = EnhancedAnalysisService.strs
           ["Build more comprehensive projects"; "Contribute to open source";
            "Get relevant certifications"; "Gain hands-on experience"]
    /\ semantic_fields_from EnhancedAnalysisService.getFallbackSemanticAnalysis report
    /\ all_fields_defined report
    /\ EnhancedAnalysisService.r_matched_skills report = matched_skills hardMatch
    /\ EnhancedAnalysisService.r_missing_skills report = missing_skills hardMatch.
Proof.
  intros Hfail Hhm.
  pose proof (failure_gives_fallback response Hfail) as Hsem.
  exists (EnhancedAnalysisService.combineAnalysisResults hardMatch
            EnhancedAnalysisService.getFallbackSemanticAnalysis job).
  split; [by rewrite (enhanced_report_returns response _ _ _ Hhm), Hsem|].
  split; [exact Hsem|]. split; [reflexivity|].
  split; [unfold EnhancedAnalysisService.getFallbackAnalysis; by rewrite Hhm|].
  split; [reflexivity|]. split; [reflexivity|]. split; [reflexivity|].
  split; [reflexivity|]. split; [apply fallback_fields_truthy|].
  split; [|split; reflexivity].
  split; [discriminate|apply combine_optional_fields_defined].
Qed.

(** ** The worked scenario *)

Lemma isMatched_direct (resumeLower skill : string) :
  JS.includes resumeLower (JS.toLowerCase skill) = true ->
  isMatched resumeLower skill = Some true.
Proof. unfold isMatched. cbv zeta. by intros ->. Qed.

Lemma isMatched_variant (resumeLower skill variant : string) (variants : list string) :
  skillVariations !! JS.toLowerCase skill = Some variants ->
  variant ∈ variants ->
  JS.includes resumeLower (JS.toLowerCase variant) = true ->
  isMatched resumeLower skill = Some true.
Proof.
  intros Htable Hin Hinc. unfold isMatched, JS.lookup. cbv zeta.
  destruct (JS.includes resumeLower (JS.toLowerCase skill)); [reflexivity|].
  cbn [negb]. rewrite Htable. f_equal. apply existsb_exists.
  exists variant. split; [by apply list_elem_of_In|exact Hinc].
Qed.

Lemma isMatched_unlisted (resumeLower skill : string) :
  JS.includes resumeLower (JS.toLowerCase skill) = false ->
  JS.lookup skillVariations (JS.toLowerCase skill) = JS.Undefined ->
  isMatched resumeLower skill = Some false.
Proof. intros Hinc Htable. unfold isMatched. cbv zeta. by rewrite Hinc, Htable. Qed.

Lemma isMatched_no_variant (resumeLower skill : string) (variants : list string) :
  JS.includes resumeLower (JS.toLowerCase skill) = false ->
  skillVariations !! JS.toLowerCase skill = Some variants ->
  Forall (fun variant => JS.includes resumeLower (JS.toLowerCase variant) = false) variants ->
  isMatched resumeLower skill = Some false.
Proof.
  intros Hinc Htable Hall. unfold isMatched, JS.lookup. cbv zeta.
  rewrite Hinc, Htable. cbn [negb]. f_equal.
  clear Htable. induction Hall as [|v vs Hv Hvs IH]; [reflexivity|].
  cbn [existsb]. by rewrite Hv, IH.
Qed.

(** C7, amended. When the resume contains, in any letter case, "react" and
    "typescript" but none of "javascript", "node.js", "aws" nor any of the
    variations listed for AWS, the hard match for the scenario's job is:
    matched JavaScript, React, TypeScript; missing Node.js, AWS; critical
    Node.js; score round(100 * 3 / 5) = 60. *)
Theorem scenario_hard_match (resumeText : string) :
  let resumeLower := JS.toLowerCase resumeText in
  JS.includes resumeLower "react" = true ->
  JS.includes resumeLower "typescript" = true ->
  JS.includes resumeLower "javascript" = false ->
  JS.includes resumeLower "node.js" = false ->
  JS.includes resumeLower "aws" = false ->
  Forall (fun variant => JS.includes resumeLower variant = false)
         ["amazon web services"; "cloud"; "ec2"; "s3"; "lambda"] ->
  EnhancedAnalysisService.performHardMatch resumeText scenario_job
  = Some {| hard_match_score := JS.of_Z 60;
            matched_skills := ["JavaScript"; "React"; "TypeScript"];
            missing_skills := ["Node.js"; "AWS"];
            critical_missing_skills := ["Node.js"] |}.
Proof.
  intros resumeLower Hreact Hts Hjs Hnode Haws Hvariants.
  assert (M1 : isMatched resumeLower "JavaScript" = Some true).
  { apply (isMatched_variant _ _ "react"
             ["js"; "node.js"; "nodejs"; "react"; "angular"; "vue"]);
      [vm_compute; reflexivity | | exact Hreact].
    repeat (first [apply list_elem_of_here | apply list_elem_of_further]). }
  assert (M2 : isMatched resumeLower "React" = Some true)
    by (apply isMatched_direct; exact Hreact).
  assert (M3 : isMatched resumeLower "Node.js" = Some false)
    by (apply isMatched_unlisted; [exact Hnode | vm_compute; reflexivity]).
  assert (M4 : isMatched resumeLower "TypeScript" = Some true)
    by (apply isMatched_direct; exact Hts).
  assert (M5 : isMatched resumeLower "AWS" = Some false).
  { apply (isMatched_no_variant _ _
             ["amazon web services"; "cloud"; "ec2"; "s3"; "lambda"]);
      [exact Haws | vm_compute; reflexivity | ].
    revert Hvariants. rewrite !Forall_cons. intros (H1 & H2 & H3 & H4 & H5 & _).
    repeat split; [exact H1 | exact H2 | exact H3 | exact H4 | exact H5 | constructor]. }
  assert (Hc : EnhancedAnalysisService.classify resumeLower
                 ["JavaScript"; "React"; "Node.js"] ["TypeScript"; "AWS"]
               = Some (["JavaScript"; "React"; "TypeScript"], ["Node.js"; "AWS"])).
  { unfold EnhancedAnalysisService.classify.
    rewrite forEach_cons, checkMustHave_eq, M1. cbn [mbind option_bind app].
    rewrite forEach_cons, checkMustHave_eq, M2. cbn [mbind option_bind app].
    rewrite forEach_cons, checkMustHave_eq, M3. cbn [mbind option_bind app].
    rewrite forEach_nil. cbn [mbind option_bind].
    rewrite forEach_cons, checkGoodToHave_eq, M4. cbn [mbind option_bind andb negb].
    replace (JS.array_includes ["JavaScript"; "React"] "TypeScript") with false
      by (vm_compute; reflexivity).
    cbn [andb negb app].
    rewrite forEach_cons, checkGoodToHave_eq, M5. cbn [mbind option_bind andb negb].
    replace (JS.array_includes ["Node.js"] "AWS") with false by (vm_compute; reflexivity).
    cbn [andb negb app]. apply forEach_nil. }
  unfold EnhancedAnalysisService.performHardMatch.
  change (must_have_skills scenario_job) with ["JavaScript"; "React"; "Node.js"].
  change (good_to_have_skills scenario_job) with ["TypeScript"; "AWS"].
  cbv zeta. fold resumeLower. rewrite Hc. cbn [mbind option_bind].
  vm_compute. reflexivity.
Qed.

(** ** Scores outside the documented range *)

Lemma replyText_reply_body (text : string) :
  EnhancedAnalysisService.replyText (reply_body text) = Some (JS.VStr text).
Proof. reflexivity. Qed.

Lemma performLLMAnalysis_parsed `{JS.Runtime}
    (status : Z) (text jsonMatch : string) (parsed : JS.obj) :
  JS.match_braces text = Some jsonMatch ->
  JS.JSON_parse jsonMatch = Some parsed ->
  EnhancedAnalysisService.performLLMAnalysis
    (EnhancedAnalysisService.FetchResponse true status (Some (reply_body text)))
  = parsed.
Proof.
  intros Hm Hp.
  unfold EnhancedAnalysisService.performLLMAnalysis, EnhancedAnalysisService.tryLLMAnalysis.
  cbn [negb mbind option_bind]. rewrite replyText_reply_body.
  cbn [mbind option_bind]. by rewrite Hm, Hp.
Qed.

Lemma to_Z_of_Z (n : Z) : 0 <= n <= 100 -> JS.to_Z (JS.of_Z n) = Some n.
Proof.
  intros Hn. eapply bool_decide_eq_true_1. revert n Hn.
  apply (forall_upto_100 (fun n => bool_decide (JS.to_Z (JS.of_Z n) = Some n))).
  evaluate.
Qed.

Lemma score_130_out_of_range : ~ score_in_range (JS.of_Z 130).
Proof.
  intros (n & Hn & Heq). apply (f_equal JS.to_Z) in Heq.
  rewrite (to_Z_of_Z n Hn) in Heq. vm_compute in Heq. injection Heq. lia.
Qed.

(** C8. When the provider's reply is the object whose semantic_match_score
    is 150, the enhanced service reports that score as it is: for a resume
    that matches the one required skill the report has hard match score
    100, semantic match score 150 and relevance score 130, above the
    documented maximum of 100. The multi-provider service clamps the same
    score to 100 when it parses the reply. *)
Theorem unchecked_semantic_score_exceeds_100 (status : Z) :
  JS.JSON_parse (reply_150 "semantic_match_score")
    = Some [("semantic_match_score", EnhancedAnalysisService.num 150)] ->
  JS.JSON_parse (reply_150 "semanticMatchScore")
    = Some [("semanticMatchScore", EnhancedAnalysisService.num 150)] ->
  exists report,
    EnhancedAnalysisService.analyzeResumeEnhanced
      (EnhancedAnalysisService.FetchResponse true status
         (Some (reply_body (reply_150 "semantic_match_score"))))
      "react" (job_of ["React"] [])
    = Some report
    /\ EnhancedAnalysisService.r_hard_match_score report = JS.of_Z 100
    /\ EnhancedAnalysisService.semantic_match_score report = JS.VNum (JS.of_Z 150)
    /\ EnhancedAnalysisService.relevance_score report = JS.of_Z 130
    /\ JS.gtb (EnhancedAnalysisService.relevance_score report) (JS.of_Z 100) = true
    /\ ~ score_in_range (EnhancedAnalysisService.relevance_score report)
    /\ AIAnalysisService.p_semanticMatchScore
         (AIAnalysisService.parseAIResponse (reply_150 "semanticMatchScore"))
       = Some (JS.of_Z 100).
Proof.
  intros Hparse Hparse'.
  assert (Hsem : EnhancedAnalysisService.performLLMAnalysis
                   (EnhancedAnalysisService.FetchResponse true status
                      (Some (reply_body (reply_150 "semantic_match_score"))))
                 = [("semantic_match_score", EnhancedAnalysisService.num 150)]).
  { apply (performLLMAnalysis_parsed status _ (reply_150 "semantic_match_score"));
      [vm_compute; reflexivity | exact Hparse]. }
  assert (Hhm : EnhancedAnalysisService.performHardMatch "react" (job_of ["React"] [])
                = Some {| hard_match_score := JS.of_Z 100;
                          matched_skills := ["React"];
                          missing_skills := [];
                          critical_missing_skills := [] |})
    by (vm_compute; reflexivity).
  eexists. split.
  { rewrite (enhanced_report_returns _ _ _ _ Hhm), Hsem. reflexivity. }
  do 4 (split; [evaluate|]).
  split.
  { replace (EnhancedAnalysisService.relevance_score _) with (JS.of_Z 130) by evaluate.
    apply score_130_out_of_range. }
  unfold AIAnalysisService.parseAIResponse.
  replace (JS.match_braces (reply_150 "semanticMatchScore"))
    with (Some (reply_150 "semanticMatchScore")) by (vm_compute; reflexivity).
  cbn [mbind option_bind]. rewrite Hparse'.
  vm_compute. reflexivity.
Qed.

(** ** Defaults for the optional fields *)



(** ** When the services throw *)

Lemma classifiable_false (resumeText : string) (job : JobDescription) :
  classifiable resumeText job = false
  <-> exists skill,
        skill ∈ must_have_skills job ++ good_to_have_skills job
        /\ JS.includes (JS.toLowerCase resumeText) (JS.toLowerCase skill) = false
        /\ JS.toLowerCase skill ∈ JS.Object_prototype_names.
Proof.
  unfold classifiable. rewrite <- not_true_iff_false, forallb_forall. split.
  - intros Hnot.
    destruct (decide (Exists
                (fun skill => reads_inherited (JS.toLowerCase resumeText) skill = true)
                (must_have_skills job ++ good_to_have_skills job))) as [Hex|Hnex].
    + apply Exists_exists in Hex as (skill & Hin & Hr).
      exists skill. split; [exact Hin|].
      unfold reads_inherited in Hr. apply andb_true_iff in Hr as [Hd Hp].
      split; [by apply negb_true_iff in Hd|]. by apply bool_decide_eq_true_1 in Hp.
    + exfalso. apply Hnot. intros skill Hin. apply negb_true_iff.
      apply not_true_iff_false. intros Hr. apply Hnex, Exists_exists.
      exists skill. split; [by apply list_elem_of_In|exact Hr].
  - intros (skill & Hin & Hd & Hp) Hall.
    apply list_elem_of_In, Hall, negb_true_iff in Hin.
    unfold reads_inherited in Hin. rewrite Hd, bool_decide_true in Hin by exact Hp.
    discriminate.
Qed.

Lemma enhanced_hard_match_none_iff (resumeText : string) (job : JobDescription) :
  EnhancedAnalysisService.performHardMatch resumeText job = None
  <-> classifiable resumeText job = false.
Proof.
  split; [|apply enhanced_hard_match_throws].
  intros Hnone. destruct (classifiable resumeText job) eqn:Hc; [|reflexivity].
  destruct (enhanced_hard_match_returns _ _ Hc) as [hardMatch Hhm]. congruence.
Qed.

Lemma simple_hard_match_none_iff (resumeText : string) (job : JobDescription) :
  SimpleAnalysisService.performHardMatch resumeText job = None
  <-> classifiable resumeText job = false.
Proof.
  split; [|apply simple_hard_match_throws].
  intros Hnone. destruct (classifiable resumeText job) eqn:Hc; [|reflexivity].
  destruct (simple_hard_match_returns _ _ Hc) as [hardMatch Hhm]. congruence.
Qed.

(** X25. The hard match of either service throws exactly when the job
    lists a skill that the resume does not contain as it is and whose
    lower-cased name is one every object inherits, such as constructor or
    __proto__. The enhanced service then rejects whatever the provider
    replied, its handler calling the hard match again; the simple service
    rejects then, and also when the lower-cased job title is such a name. *)
Theorem services_throw_on_inherited_names (resumeText : string) (job : JobDescription) :
  (classifiable resumeText job = false
   <-> exists skill,
         skill ∈ must_have_skills job ++ good_to_have_skills job
         /\ JS.includes (JS.toLowerCase resumeText) (JS.toLowerCase skill) = false
         /\ JS.toLowerCase skill ∈ JS.Object_prototype_names)
  /\ (EnhancedAnalysisService.performHardMatch resumeText job = None
      <-> classifiable resumeText job = false)
  /\ (SimpleAnalysisService.performHardMatch resumeText job = None
      <-> classifiable resumeText job = false)
  /\ (forall response,
         EnhancedAnalysisService.analyzeResumeEnhanced response resumeText job = None
         <-> classifiable resumeText job = false)
  /\ (SimpleAnalysisService.analyzeResumeSimple resumeText job = None
      <-> classifiable resumeText job = false \/ title_inherited job = true).
Proof.
  split; [apply classifiable_false|].
  pose proof (enhanced_hard_match_none_iff resumeText job) as He.
  pose proof (simple_hard_match_none_iff resumeText job) as Hs.
  split; [exact He|]. split; [exact Hs|]. split.
  - intros response. rewrite <- He. split.
    + intros Hnone.
      destruct (EnhancedAnalysisService.performHardMatch resumeText job) as [hardMatch|]
        eqn:Hhm; [|reflexivity].
      rewrite (enhanced_report_returns response _ _ _ Hhm) in Hnone. discriminate.
    + intros Hhm. by destruct (enhanced_report_rejected response _ _ Hhm) as (_ & _ & ?).
  - rewrite <- Hs. unfold SimpleAnalysisService.analyzeResumeSimple.
    destruct (SimpleAnalysisService.performHardMatch resumeText job) as [hardMatch|];
      cbn [mbind option_bind]; [|by split; [left|]].
    unfold SimpleAnalysisService.generateComprehensiveAnalysis.
    destruct (SimpleAnalysisService.calculateSemanticScore job resumeText
                (hard_match_score hardMatch)) as [semanticScore|] eqn:Es;
      cbn [mbind option_bind].
    + split; [discriminate|]. intros [Hnone|Ht]; [discriminate|].
      apply (semantic_score_throws job resumeText (hard_match_score hardMatch)) in Ht.
      congruence.
    + split; [|reflexivity]. intros _. right.
      by apply (semantic_score_throws job resumeText (hard_match_score hardMatch)).
Qed.

(** ** Resumes and the skills they match *)

Lemma isMatched_monotone (r1 r2 skill : string) :
  JS.includes r2 r1 = true ->
  (isMatched r1 skill = Some true -> isMatched r2 skill = Some true)
  /\ (isMatched r2 skill = Some false -> isMatched r1 skill = Some false)
  /\ (isMatched r2 skill = None -> isMatched r1 skill = None).
Proof.
  intros Hinc. unfold isMatched. cbv zeta.
  destruct (JS.includes r1 (JS.toLowerCase skill)) eqn:D1; cbn [negb].
  - rewrite (includes_trans _ _ _ Hinc D1). cbn [negb].
    split; [done|]. split; discriminate.
  - destruct (JS.includes r2 (JS.toLowerCase skill)) eqn:D2; cbn [negb].
    + destruct (JS.lookup skillVariations (JS.toLowerCase skill)) as [variations| |];
        (split; [discriminate || done|]); split; discriminate.
    + destruct (JS.lookup skillVariations (JS.toLowerCase skill)) as [variations| |];
        [|done|done].
      assert (Hex : existsb (fun v => JS.includes r1 (JS.toLowerCase v)) variations = true ->
                    existsb (fun v => JS.includes r2 (JS.toLowerCase v)) variations = true).
      { intros Hex. apply existsb_exists in Hex as (v & Hv & Hvin).
        apply existsb_exists. exists v. split; [exact Hv|].
        exact (includes_trans _ _ _ Hinc Hvin). }
      split; [intros [= H1]; by rewrite (Hex H1)|]. split; [|discriminate].
      intros [= H2]. f_equal. apply not_true_iff_false. intros H1.
      rewrite (Hex H1) in H2. discriminate.
Qed.

Lemma toLowerCase_includes (longer shorter : string) :
  JS.ascii_text longer = true -> JS.includes longer shorter = true ->
  JS.includes (JS.toLowerCase longer) (JS.toLowerCase shorter) = true.
Proof.
  intros Hascii Hinc. unfold JS.toLowerCase.
  rewrite Hascii, (ascii_text_includes _ _ Hinc Hascii).
  by apply includes_toLowerCase_ascii.
Qed.

Lemma classifiable_monotone (shorter longer : string) (job : JobDescription) :
  JS.includes (JS.toLowerCase longer) (JS.toLowerCase shorter) = true ->
  classifiable shorter job = true -> classifiable longer job = true.
Proof.
  intros Hinc. unfold classifiable. rewrite !forallb_forall.
  intros Hall skill Hin. specialize (Hall skill Hin).
  apply negb_true_iff in Hall. apply negb_true_iff, not_true_iff_false.
  intros Hr. apply isMatched_throws in Hr.
  destruct (isMatched_monotone _ _ skill Hinc) as (_ & _ & Hnone).
  apply Hnone, isMatched_throws in Hr. congruence.
Qed.

(** X2. Adding text to a resume written in ASCII never loses a match: when
    the resume [longer] contains the resume [shorter] and the hard match
    returns for [shorter], it returns for [longer]; every skill matched
    for [shorter] is matched for [longer], every skill missing for [longer]
    is missing for [shorter]; in the simple service the matched array of
    [shorter] is a subsequence of that of [longer]. *)
Theorem longer_resume_keeps_matches (shorter longer : string) (job : JobDescription) :
  JS.ascii_text longer = true ->
  JS.includes longer shorter = true ->
  (forall fromShorter,
      EnhancedAnalysisService.performHardMatch shorter job = Some fromShorter ->
      exists fromLonger,
        EnhancedAnalysisService.performHardMatch longer job = Some fromLonger
        /\ (forall skill, skill ∈ matched_skills fromShorter ->
                          skill ∈ matched_skills fromLonger)
        /\ (forall skill, skill ∈ missing_skills fromLonger ->
                          skill ∈ missing_skills fromShorter))
  /\ (forall fromShorter,
         SimpleAnalysisService.performHardMatch shorter job = Some fromShorter ->
         exists fromLonger,
           SimpleAnalysisService.performHardMatch longer job = Some fromLonger
           /\ matched_skills fromShorter `sublist_of` matched_skills fromLonger).
Proof.
  intros Hascii Hinc. pose proof (toLowerCase_includes _ _ Hascii Hinc) as Hlower.
  split.
  - intros fromShorter Hs.
    destruct (enhanced_hard_match_inv _ _ _ Hs) as (Hc & Hm & Hn & _).
    destruct (enhanced_hard_match_returns longer job
                (classifiable_monotone _ _ _ Hlower Hc)) as [fromLonger Hl].
    destruct (enhanced_hard_match_inv _ _ _ Hl) as (_ & Hm' & Hn' & _).
    exists fromLonger. split; [exact Hl|]. rewrite Hm, Hn, Hm', Hn'. split.
    + intros skill. rewrite !elem_of_classified. intros [Hin Hmatched].
      split; [exact Hin|]. by apply (isMatched_monotone _ _ skill Hlower).
    + intros skill. rewrite !elem_of_classified. intros [Hin Hmissing].
      split; [exact Hin|]. by apply (isMatched_monotone _ _ skill Hlower).
  - intros fromShorter Hs.
    destruct (simple_hard_match_inv _ _ _ Hs) as (Hc & Hm & _).
    destruct (simple_hard_match_returns longer job
                (classifiable_monotone _ _ _ Hlower Hc)) as [fromLonger Hl].
    destruct (simple_hard_match_inv _ _ _ Hl) as (_ & Hm' & _).
    exists fromLonger. split; [exact Hl|]. rewrite Hm, Hm'.
    apply sublist_filter_weaken. intros skill.
    by apply (isMatched_monotone _ _ skill Hlower).
Qed.

Lemma variations_listed (key : string) (variations : list string) :
  skillVariations !! key = Some variations ->
  Forall (fun v => JS.includes EmptyString (JS.toLowerCase v) = false) variations.
Proof.
  intros H. apply elem_of_list_to_map_2 in H.
  repeat (apply elem_of_cons in H as [H|H];
          [injection H as -> ->; repeat constructor|]).
  inversion H.
Qed.

Lemma isMatched_empty_resume (skill : string) :
  JS.toLowerCase skill <> EmptyString ->
  JS.toLowerCase skill ∉ JS.Object_prototype_names ->
  isMatched EmptyString skill = Some false.
Proof.
  intros Hne Hnin. unfold isMatched. cbv zeta.
  assert (Hd : JS.includes EmptyString (JS.toLowerCase skill) = false).
  { apply not_true_iff_false. by rewrite includes_empty. }
  rewrite Hd. cbn [negb].
  pose proof (lookup_not_inherited skillVariations _ Hnin) as Hl.
  unfold JS.lookup in *.
  destruct (skillVariations !! JS.toLowerCase skill) as [variations|] eqn:E.
  - f_equal. apply variations_listed in E.
    induction E as [|v vs Hv Hvs IH]; [reflexivity|].
    cbn [existsb]. by rewrite Hv, IH.
  - by rewrite bool_decide_false.
Qed.

(** X3. For an empty resume and a job none of whose lower-cased skill names
    is empty or is a name every object inherits, the hard match returns in
    both services, no skill is matched and every skill is missing. In the
    enhanced service the critical missing skills are then the must-have
    skills as the job lists them; in the simple service the missing skills
    are all entries of both lists, and the critical ones are the must-have
    entries followed by the good-to-have entries that are also
    must-have. *)
Theorem empty_resume_matches_nothing (job : JobDescription) :
  Forall (fun skill => JS.toLowerCase skill <> EmptyString
                       /\ JS.toLowerCase skill ∉ JS.Object_prototype_names)
         (must_have_skills job ++ good_to_have_skills job) ->
  exists enhanced simple,
    EnhancedAnalysisService.performHardMatch EmptyString job = Some enhanced
    /\ SimpleAnalysisService.performHardMatch EmptyString job = Some simple
    /\ matched_skills enhanced = []
    /\ critical_missing_skills enhanced = must_have_skills job
    /\ (forall skill, skill ∈ must_have_skills job ++ good_to_have_skills job ->
                      skill ∈ missing_skills enhanced)
    /\ matched_skills simple = []
    /\ missing_skills simple = must_have_skills job ++ good_to_have_skills job
    /\ critical_missing_skills simple
       = must_have_skills job
         ++ filter (fun skill => skill ∈ must_have_skills job) (good_to_have_skills job).
Proof.
  intros Hnames. rewrite Forall_forall in Hnames.
  set (mustHave := must_have_skills job) in *.
  set (goodToHave := good_to_have_skills job) in *.
  assert (Hmissing : forall x, x ∈ mustHave ++ goodToHave ->
                               isMatched EmptyString x = Some false).
  { intros x Hx. destruct (Hnames x Hx). by apply isMatched_empty_resume. }
  assert (Hc : classifiable EmptyString job = true).
  { unfold classifiable. apply forallb_forall. intros x Hx.
    apply list_elem_of_In in Hx.
    change (JS.toLowerCase EmptyString) with EmptyString.
    by rewrite (isMatched_returns _ _ _ (Hmissing x Hx)). }
  assert (Hall : forall l : list string, (forall x, x ∈ l -> x ∈ mustHave ++ goodToHave) ->
            filter (fun x => isMatched EmptyString x = Some true) l = []
            /\ filter (fun x => isMatched EmptyString x = Some false) l = l).
  { intros l Hl. split.
    - apply filter_none, Forall_forall. intros x Hx.
      rewrite (Hmissing x (Hl x Hx)). discriminate.
    - apply filter_all, Forall_forall. intros x Hx. exact (Hmissing x (Hl x Hx)). }
  destruct (Hall mustHave) as [Hm1 Hm2]; [intros x Hx; apply elem_of_app; auto|].
  destruct (Hall goodToHave) as [Hg1 Hg2]; [intros x Hx; apply elem_of_app; auto|].
  destruct (Hall (mustHave ++ goodToHave)) as [Ha1 Ha2]; [auto|].
  assert (Hmust : filter (fun skill => JS.array_includes mustHave skill = true) mustHave
                  = mustHave).
  { apply filter_all, Forall_forall. intros x Hx. by apply array_includes_true. }
  destruct (enhanced_hard_match_returns _ _ Hc) as [enhanced He].
  destruct (simple_hard_match_returns _ _ Hc) as [simple Hs].
  exists enhanced, simple. split; [exact He|]. split; [exact Hs|].
  destruct (enhanced_hard_match_inv _ _ _ He) as (_ & Hem & Hen & Hec & _).
  destruct (simple_hard_match_inv _ _ _ Hs) as (_ & Hsm & Hsn & Hsc & _).
  change (JS.toLowerCase EmptyString) with EmptyString in Hem, Hen, Hsm, Hsn.
  fold mustHave goodToHave in Hem, Hen, Hsm, Hsn, Hec, Hsc.
  unfold classified in Hem, Hen. rewrite Hm1, Hg1 in Hem. rewrite Hm2, Hg2 in Hen.
  split; [exact Hem|]. split; [|split; [|split; [|split]]].
  - rewrite Hec, Hen, filter_app, Hmust, (filter_none _ (added mustHave goodToHave)).
    + apply app_nil_r.
    + apply Forall_forall. intros x Hx. apply elem_of_added in Hx as [_ Hx].
      by rewrite array_includes_true.
  - intros skill Hin. rewrite Hen. apply elem_of_app.
    destruct (decide (skill ∈ mustHave)) as [Hm|Hm]; [by left|right].
    apply elem_of_added. apply elem_of_app in Hin as [Hin|Hin]; [contradiction|done].
  - by rewrite Hsm, Ha1.
  - by rewrite Hsn, Ha2.
  - rewrite Hsc, Hsn, Ha2, filter_app, Hmust. f_equal.
    apply filter_agree. intros x _. apply array_includes_true.
Qed.

(** ** The enhanced service end to end *)


Lemma add_NaN (x : JS.number) : JS.add x JS.NaN = JS.NaN.
Proof. by destruct x. Qed.

(** X5. When the decoded semantic result has no semantic_match_score, the
    relevance score of the report is NaN and its verdict is Low, whatever
    the hard match score. *)
Theorem missing_semantic_score_gives_NaN_and_Low
    (hardMatch : HardMatch) (semantic : JS.obj) (job : JobDescription) :
  JS.get semantic "semantic_match_score" = JS.VUndefined ->
  let report := EnhancedAnalysisService.combineAnalysisResults hardMatch semantic job in
  EnhancedAnalysisService.relevance_score report = JS.NaN
  /\ EnhancedAnalysisService.verdict report = Low
  /\ EnhancedAnalysisService.semantic_match_score report = JS.VUndefined.
Proof.
  intros Hget report.
  assert (Hrel : EnhancedAnalysisService.relevance_score report = JS.NaN).
  { unfold report, EnhancedAnalysisService.combineAnalysisResults.
    cbn [EnhancedAnalysisService.relevance_score]. rewrite Hget.
    change (JS.mul (JS.ToNumber JS.VUndefined) JS.lit_0_6) with JS.NaN.
    by rewrite add_NaN. }
  split; [exact Hrel|]. split; [|exact Hget].
  change (EnhancedAnalysisService.verdict report)
    with (EnhancedAnalysisService.verdictOf (EnhancedAnalysisService.relevance_score report)).
  by rewrite Hrel.
Qed.

Lemma fallback_relevance `{JS.Runtime} (hardMatch : HardMatch) (job : JobDescription) :
  EnhancedAnalysisService.relevance_score
    (EnhancedAnalysisService.combineAnalysisResults hardMatch
       EnhancedAnalysisService.getFallbackSemanticAnalysis job)
  = weighted (hard_match_score hardMatch) (JS.of_Z 65).
Proof. reflexivity. Qed.

Lemma fallback_agrees_upto_100 (h : Z) : 0 <= h <= 100 -> fallback_agrees h = true.
Proof. apply (forall_upto_100 fallback_agrees). evaluate. Qed.

(** X6. When the semantic evaluation fails and the hard match score is an
    integer h between 0 and 100, the report has relevance score
    floor((4 h + 395) / 10), between 39 and 79, and its verdict is Medium
    when h is at least 27 and Low otherwise: it is never High. *)
Theorem fallback_report_is_never_High
    (response : EnhancedAnalysisService.FetchResult)
    (resumeText : string) (job : JobDescription) (hardMatch : HardMatch) (h : Z) :
  SemanticFailure response ->
  0 <= h <= 100 ->
  EnhancedAnalysisService.performHardMatch resumeText job = Some hardMatch ->
  hard_match_score hardMatch = JS.of_Z h ->
  exists report,
    EnhancedAnalysisService.analyzeResumeEnhanced response resumeText job = Some report
    /\ EnhancedAnalysisService.relevance_score report = JS.of_Z ((4 * h + 395) / 10)
    /\ 39 <= (4 * h + 395) / 10 <= 79
    /\ EnhancedAnalysisService.verdict report = fallback_verdict h
    /\ EnhancedAnalysisService.verdict report <> High.
Proof.
  intros Hfail Hh Hhm Hhard.
  exists (EnhancedAnalysisService.combineAnalysisResults hardMatch
            EnhancedAnalysisService.getFallbackSemanticAnalysis job).
  set (report := EnhancedAnalysisService.combineAnalysisResults _ _ _).
  split.
  { by rewrite (enhanced_report_returns response _ _ _ Hhm),
      (failure_gives_fallback response Hfail). }
  pose proof (fallback_agrees_upto_100 h Hh) as Hagree.
  apply andb_true_iff in Hagree as [Hrel Hver].
  apply bool_decide_eq_true_1 in Hrel. apply bool_decide_eq_true_1 in Hver.
  assert (Hscore : EnhancedAnalysisService.relevance_score report
                   = JS.of_Z (spec_relevance h 65)).
  { unfold report. rewrite fallback_relevance, Hhard. apply weighted_exact; lia. }
  assert (Hverdict : EnhancedAnalysisService.verdict report = fallback_verdict h).
  { change (EnhancedAnalysisService.verdict report)
      with (EnhancedAnalysisService.verdictOf
              (EnhancedAnalysisService.relevance_score report)).
    by rewrite Hscore. }
  split; [by rewrite Hscore, Hrel|].
  split.
  { pose proof (Z.div_mod (4 * h + 395) 10 ltac:(lia)).
    pose proof (Z.mod_pos_bound (4 * h + 395) 10 ltac:(lia)). lia. }
  split; [exact Hverdict|].
  rewrite Hverdict. unfold fallback_verdict. by destruct (27 <=? h).
Qed.

Lemma weighted_between_upto_100 (h s : Z) :
  0 <= h <= 100 -> 0 <= s <= 100 -> weighted_between h s = true.
Proof.
  intros Hh Hs. revert s Hs. apply (forall_upto_100 (fun s => weighted_between h s)).
  revert h Hh.
  apply (forall_upto_100
           (fun h => forallb (fun n => weighted_between h (Z.of_nat n)) (seq 0 101))).
  evaluate.
Qed.

(** X7. For integer hard and semantic scores between 0 and 100, the
    relevance score that either [combineAnalysisResults] reports is an
    integer between the smaller and the larger of the two, so it is itself
    between 0 and 100. *)
Theorem relevance_lies_between_the_scores
    (h s : Z)
    (hardMatch : HardMatch) (semantic : JS.obj) (job : JobDescription)
    (hardP semanticP : AIAnalysisService.PartialAnalysisResult) :
  0 <= h <= 100 -> 0 <= s <= 100 ->
  hard_match_score hardMatch = JS.of_Z h ->
  JS.get semantic "semantic_match_score" = JS.VNum (JS.of_Z s) ->
  AIAnalysisService.p_hardMatchScore hardP = Some (JS.of_Z h) ->
  AIAnalysisService.p_semanticMatchScore semanticP = Some (JS.of_Z s) ->
  exists r : Z,
    Z.min h s <= r <= Z.max h s
    /\ EnhancedAnalysisService.relevance_score
         (EnhancedAnalysisService.combineAnalysisResults hardMatch semantic job)
       = JS.of_Z r
    /\ AIAnalysisService.relevanceScore
         (AIAnalysisService.combineAnalysisResults hardP semanticP)
       = JS.of_Z r
    /\ score_in_range
         (EnhancedAnalysisService.relevance_score
            (EnhancedAnalysisService.combineAnalysisResults hardMatch semantic job)).
Proof.
  intros Hh Hs Hhard Hsem HhardP HsemP.
  pose proof (weighted_between_upto_100 h s Hh Hs) as Hb.
  apply bool_decide_eq_true_1 in Hb.
  assert (He : EnhancedAnalysisService.relevance_score
                 (EnhancedAnalysisService.combineAnalysisResults hardMatch semantic job)
               = JS.of_Z (spec_relevance h s)).
  { unfold EnhancedAnalysisService.combineAnalysisResults.
    cbn [EnhancedAnalysisService.relevance_score].
    rewrite Hhard, Hsem. cbn [JS.ToNumber]. apply (weighted_exact h s Hh Hs). }
  exists (spec_relevance h s). split; [exact Hb|]. split; [exact He|]. split.
  - unfold AIAnalysisService.combineAnalysisResults.
    cbn [AIAnalysisService.relevanceScore].
    rewrite HhardP, HsemP, !number_or_in_range by assumption.
    apply (weighted_exact h s Hh Hs).
  - exists (spec_relevance h s). split; [lia|exact He].
Qed.

(** ** The scores of the simple service *)

Lemma countIncluded_le (resumeLower : string) (words : list string) :
  (SimpleAnalysisService.countIncluded resumeLower words <= length words)%nat.
Proof. apply length_filter. Qed.

Lemma jobKeywords_at_most_6 (jobTitle : string) (words : list string) :
  JS.lookup SimpleAnalysisService.jobKeywords jobTitle = JS.Own words ->
  (length words <= 6)%nat.
Proof.
  unfold JS.lookup.
  destruct (SimpleAnalysisService.jobKeywords !! jobTitle) as [words'|] eqn:E;
    [|by destruct (bool_decide _)].
  intros [= <-]. apply elem_of_list_to_map_2 in E.
  repeat (apply elem_of_cons in E as [E|E]; [injection E as -> ->; cbn; lia|]).
  inversion E.
Qed.

Lemma add_small (a b : Z) :
  0 <= a <= 150 -> 0 <= b <= 20 -> JS.add (JS.of_Z a) (JS.of_Z b) = JS.of_Z (a + b).
Proof.
  intros Ha Hb.
  pose proof (forall_upto 150 add_agrees ltac:(evaluate) a Ha) as Hall.
  unfold add_agrees in Hall. rewrite forallb_forall in Hall.
  specialize (Hall (Z.to_nat b) ltac:(apply in_seq; lia)).
  apply bool_decide_eq_true_1 in Hall. unfold JS.of_nat in Hall.
  by rewrite Z2Nat.id in Hall by lia.
Qed.

Lemma boost_small (cap factor : Z) (n : nat) :
  forallb (fun i => boost_agrees cap factor (Z.of_nat i)) (seq 0 8) = true ->
  (n <= 7)%nat ->
  JS.Math_min (JS.of_Z cap) (JS.mul (JS.of_nat n) (JS.of_Z factor))
  = JS.of_Z (Z.min cap (factor * Z.of_nat n)).
Proof.
  intros Hall Hn. eapply bool_decide_eq_true_1.
  apply (forall_upto 7 (boost_agrees cap factor) Hall). lia.
Qed.

Lemma clamp_small (n : Z) :
  0 <= n <= 150 ->
  JS.Math_round (JS.Math_min (JS.of_Z 100) (JS.of_Z n)) = JS.of_Z (Z.min 100 n).
Proof.
  intros Hn. eapply bool_decide_eq_true_1.
  apply (forall_upto 150 clamp_agrees); [evaluate|exact Hn].
Qed.

Lemma semantic_agrees_upto_100 (h : Z) (k e p : nat) :
  0 <= h <= 100 -> (k <= 6)%nat -> (e <= 7)%nat -> (p <= 5)%nat ->
  semanticFromCounts (JS.of_Z h) k e p = JS.of_Z (semanticOverZ h k e p).
Proof.
  intros Hh Hk He Hp. unfold semanticFromCounts, semanticOverZ.
  rewrite (boost_small 20 3 k) by (evaluate || lia).
  rewrite (boost_small 15 2 e) by (evaluate || lia).
  rewrite (boost_small 10 2 p) by (evaluate || lia).
  rewrite !add_small by lia.
  apply clamp_small. lia.
Qed.

Lemma semantic_score_bounds (job : JobDescription) (resumeText : string) (h : Z)
    (semanticScore : JS.number) :
  0 <= h <= 100 ->
  SimpleAnalysisService.calculateSemanticScore job resumeText (JS.of_Z h)
  = Some semanticScore ->
  exists s : Z, semanticScore = JS.of_Z s /\ h <= s <= 100 /\ s <= h + 42.
Proof.
  intros Hh. rewrite calculateSemanticScore_cases. cbv zeta.
  pose proof (countIncluded_le (JS.toLowerCase resumeText)
                ["years"; "experience"; "worked"; "developed"; "built"; "led"; "managed"])
    as He.
  pose proof (countIncluded_le (JS.toLowerCase resumeText)
                ["project"; "built"; "created"; "developed"; "implemented"]) as Hp.
  cbn [length] in He, Hp.
  destruct (JS.lookup SimpleAnalysisService.jobKeywords (JS.toLowerCase (title job)))
    as [keywords| |] eqn:Ek; [|discriminate|].
  - pose proof (countIncluded_le (JS.toLowerCase resumeText) keywords) as Hk.
    pose proof (jobKeywords_at_most_6 _ _ Ek) as Hk'.
    intros [= <-]. eexists. split; [apply semantic_agrees_upto_100; lia|].
    unfold semanticOverZ. lia.
  - pose proof (countIncluded_le (JS.toLowerCase resumeText) []) as Hk.
    cbn [length] in Hk.
    intros [= <-]. eexists. split; [apply semantic_agrees_upto_100; lia|].
    unfold semanticOverZ. lia.
Qed.

(** X8. In a report of the simple service whose hard match score is an
    integer h between 0 and 100, the semantic score is an integer s with
    h <= s <= min(100, h + 42), and the relevance score is the integer
    round(0.4 h + 0.6 s), which lies between h and s: the resume's wording
    can raise the score above the hard match score, never lower it. *)
Theorem simple_scores_are_ordered (resumeText : string) (job : JobDescription)
    (report : SimpleAnalysisService.SimpleAnalysisResult) (h : Z) :
  0 <= h <= 100 ->
  SimpleAnalysisService.analyzeResumeSimple resumeText job = Some report ->
  SimpleAnalysisService.r_hard_match_score report = JS.of_Z h ->
  exists s r : Z,
    SimpleAnalysisService.semantic_match_score report = JS.of_Z s
    /\ SimpleAnalysisService.relevance_score report = JS.of_Z r
    /\ r = spec_relevance h s
    /\ h <= r <= s
    /\ s <= 100
    /\ s <= h + 42.
Proof.
  intros Hh Hrep Hhard.
  apply simple_report_inv in Hrep as (hardMatch & _ & Hrep).
  destruct (comprehensive_analysis_inv _ _ _ _ Hrep) as (Hsem & Hrel & _ & Hscore & _).
  rewrite Hhard in Hscore. rewrite <- Hscore in Hsem, Hrel.
  destruct (semantic_score_bounds job resumeText h _ Hh Hsem) as (s & Hs & Hrange & Hboost).
  pose proof (weighted_between_upto_100 h s Hh ltac:(lia)) as Hb.
  apply bool_decide_eq_true_1 in Hb.
  exists s, (spec_relevance h s).
  split; [exact Hs|]. split; [rewrite Hrel, Hs; apply weighted_exact; lia|].
  split; [reflexivity|]. lia.
Qed.

Lemma derived_agree_upto_100 (r : Z) : 0 <= r <= 100 -> derived_agree r = true.
Proof. apply (forall_upto_100 derived_agree). evaluate. Qed.

Lemma comprehensive_breakdown_inv (hardMatch : HardMatch) (job : JobDescription)
    (resumeText : string) (report : SimpleAnalysisService.SimpleAnalysisResult) :
  SimpleAnalysisService.generateComprehensiveAnalysis hardMatch job resumeText
  = Some report ->
  let finalScore := SimpleAnalysisService.relevance_score report in
  let breakdown := SimpleAnalysisService.scoring_breakdown report in
  SimpleAnalysisService.skills_match breakdown = hard_match_score hardMatch
  /\ SimpleAnalysisService.experience_match breakdown
     = JS.Math_max (JS.of_Z 40) (JS.sub finalScore (JS.of_Z 20))
  /\ SimpleAnalysisService.education_match breakdown
     = JS.Math_max (JS.of_Z 50) (JS.sub finalScore (JS.of_Z 10))
  /\ SimpleAnalysisService.project_relevance breakdown
     = JS.Math_max (JS.of_Z 45) (JS.sub finalScore (JS.of_Z 15))
  /\ SimpleAnalysisService.overall_fit breakdown = finalScore
  /\ SimpleAnalysisService.confidence_score report
     = JS.Math_max (JS.of_Z 75) (JS.Math_min (JS.of_Z 95) (JS.add finalScore (JS.of_Z 10))).
Proof.
  unfold SimpleAnalysisService.generateComprehensiveAnalysis.
  destruct (SimpleAnalysisService.calculateSemanticScore job resumeText
              (hard_match_score hardMatch)) as [semanticScore|];
    cbn [mbind option_bind]; [|discriminate].
  intros [= <-]. cbv zeta. split_conjunction; reflexivity.
Qed.

(** X9. In a report of the simple service whose relevance score is an
    integer r between 0 and 100, the sub-scores are max(40, r - 20) for
    experience, max(50, r - 10) for education and max(45, r - 15) for
    projects, and the confidence is r + 10 clamped to the range 75..95. *)
Theorem simple_breakdown_is_clamped
    (hardMatch : HardMatch) (job : JobDescription) (resumeText : string)
    (report : SimpleAnalysisService.SimpleAnalysisResult) (r : Z) :
  0 <= r <= 100 ->
  SimpleAnalysisService.generateComprehensiveAnalysis hardMatch job resumeText
  = Some report ->
  SimpleAnalysisService.relevance_score report = JS.of_Z r ->
  let breakdown := SimpleAnalysisService.scoring_breakdown report in
  SimpleAnalysisService.skills_match breakdown = hard_match_score hardMatch
  /\ SimpleAnalysisService.experience_match breakdown = JS.of_Z (Z.max 40 (r - 20))
  /\ SimpleAnalysisService.education_match breakdown = JS.of_Z (Z.max 50 (r - 10))
  /\ SimpleAnalysisService.project_relevance breakdown = JS.of_Z (Z.max 45 (r - 15))
  /\ SimpleAnalysisService.overall_fit breakdown = JS.of_Z r
  /\ SimpleAnalysisService.confidence_score report = JS.of_Z (Z.max 75 (Z.min 95 (r + 10)))
  /\ 75 <= Z.max 75 (Z.min 95 (r + 10)) <= 95.
Proof.
  intros Hr Hrep Hrel breakdown.
  destruct (comprehensive_breakdown_inv _ _ _ _ Hrep) as (B1 & B2 & B3 & B4 & B5 & B6).
  cbv zeta in B1, B2, B3, B4, B5, B6. rewrite Hrel in B2, B3, B4, B5, B6.
  pose proof (derived_agree_upto_100 r Hr) as Hd. unfold derived_agree in Hd.
  apply andb_true_iff in Hd as [Hd H4]. apply andb_true_iff in Hd as [Hd H3].
  apply andb_true_iff in Hd as [H1 H2].
  apply bool_decide_eq_true_1 in H1. apply bool_decide_eq_true_1 in H2.
  apply bool_decide_eq_true_1 in H3. apply bool_decide_eq_true_1 in H4.
  split; [exact B1|].
  split; [unfold breakdown; by rewrite B2|].
  split; [unfold breakdown; by rewrite B3|].
  split; [unfold breakdown; by rewrite B4|].
  split; [exact B5|].
  split; [by rewrite B6|lia].
Qed.

(** ** The feedback of the simple service *)

Lemma job_specific_lists_nonempty (jobTitle : string) :
  let a := SimpleAnalysisFeedback.getJobSpecificAnalysis jobTitle in
  SimpleAnalysisFeedback.certifications a <> []
  /\ SimpleAnalysisFeedback.projects a <> []
  /\ SimpleAnalysisFeedback.experience a <> []
  /\ SimpleAnalysisFeedback.education a <> []
  /\ SimpleAnalysisFeedback.suggestions a <> []
  /\ SimpleAnalysisFeedback.courses a <> []
  /\ SimpleAnalysisFeedback.projectIdeas a <> []
  /\ SimpleAnalysisFeedback.immediateActions a <> []
  /\ SimpleAnalysisFeedback.shortTermGoals a <> []
  /\ SimpleAnalysisFeedback.longTermGoals a <> [].
Proof.
  unfold SimpleAnalysisFeedback.getJobSpecificAnalysis. cbv zeta.
  destruct (_ || _); [split_conjunction; discriminate|].
  destruct (JS.includes _ "frontend"); [split_conjunction; discriminate|].
  destruct (_ || _); split_conjunction; discriminate.
Qed.

(** X11. The strengths the simple service generates are between two and
    five, always include "Relevant educational background", and are exactly
    the two generic strengths when no skill is matched; otherwise the first
    one names the first three matched skills. *)
Theorem strengths_are_two_to_five (matchedSkills : list string) (job : JobDescription) :
  let strengths := SimpleAnalysisFeedback.generateStrengths matchedSkills job in
  (2 <= length strengths <= 5)%nat
  /\ "Relevant educational background" ∈ strengths
  /\ (matchedSkills = [] ->
      strengths = ["Relevant educational background"; "Demonstrated learning ability"])
  /\ (matchedSkills <> [] ->
      head strengths
      = Some ("Strong technical foundation in "
              +:+ SimpleAnalysisFeedback.join ", " (take 3 matchedSkills))).
Proof.
  unfold SimpleAnalysisFeedback.generateStrengths. cbv zeta.
  set (c1 := (0 <? length matchedSkills)%nat).
  set (c2 := SimpleAnalysisFeedback.someIn _ matchedSkills).
  set (c3 := SimpleAnalysisFeedback.someIn _ matchedSkills).
  set (c4 := SimpleAnalysisFeedback.someIn _ matchedSkills).
  set (t1 := _ +:+ _).
  split; [|split; [|split]].
  - clearbody c1 c2 c3 c4 t1. destruct c1, c2, c3, c4; cbn; lia.
  - clearbody c1 c2 c3 c4 t1. destruct c1, c2, c3, c4; cbn;
      repeat (first [apply list_elem_of_here | apply list_elem_of_further]).
  - intros ->. reflexivity.
  - intros Hne. assert (Hc1 : c1 = true).
    { unfold c1. destruct matchedSkills; [done|reflexivity]. }
    rewrite Hc1. clearbody c2 c3 c4 t1. destruct c2, c3, c4; reflexivity.
Qed.

(** X12. The weaknesses the simple service generates are between two and
    four and always include "Could benefit from more hands-on project
    experience"; with no missing skill they are exactly the two generic
    weaknesses. *)
Theorem weaknesses_are_two_to_four (missingSkills : list string) (job : JobDescription) :
  let weaknesses := SimpleAnalysisFeedback.generateWeaknesses missingSkills job in
  (2 <= length weaknesses <= 4)%nat
  /\ "Could benefit from more hands-on project experience" ∈ weaknesses
  /\ (missingSkills = [] ->
      weaknesses = ["Could benefit from more hands-on project experience";
                    "Professional development opportunities available"]).
Proof.
  unfold SimpleAnalysisFeedback.generateWeaknesses. cbv zeta.
  set (c1 := (0 <? length missingSkills)%nat).
  set (c2 := SimpleAnalysisFeedback.someIn _ missingSkills).
  set (c3 := SimpleAnalysisFeedback.someIn _ missingSkills).
  set (t1 := _ +:+ _).
  split; [|split].
  - clearbody c1 c2 c3 t1. destruct c1, c2, c3; cbn; lia.
  - clearbody c1 c2 c3 t1. destruct c1, c2, c3; cbn;
      repeat (first [apply list_elem_of_here | apply list_elem_of_further]).
  - intros ->. reflexivity.
Qed.

(** X13. A job title that contains "developer", in any letter case, gets
    the recommendations written for software engineers even when it also
    contains "frontend" or "data": the later branches are never reached
    for it. *)
Theorem developer_titles_get_software_plan (jobTitle : string) :
  JS.includes (JS.toLowerCase jobTitle) "developer" = true ->
  SimpleAnalysisFeedback.getJobSpecificAnalysis jobTitle
  = SimpleAnalysisFeedback.softwareAnalysis
  /\ SimpleAnalysisFeedback.getJobSpecificAnalysis jobTitle
     <> SimpleAnalysisFeedback.frontendAnalysis
  /\ SimpleAnalysisFeedback.getJobSpecificAnalysis jobTitle
     <> SimpleAnalysisFeedback.dataAnalysis.
Proof.
  intros Hdev.
  assert (H : SimpleAnalysisFeedback.getJobSpecificAnalysis jobTitle
              = SimpleAnalysisFeedback.softwareAnalysis).
  { unfold SimpleAnalysisFeedback.getJobSpecificAnalysis. cbv zeta.
    by rewrite Hdev, orb_true_r. }
  rewrite H. split_conjunction; [reflexivity|discriminate|discriminate].
Qed.

(** X14. Every list of the feedback the simple service attaches to a
    report is non-empty, for every job and every hard match result. *)
Theorem simple_feedback_is_never_empty (hardMatch : HardMatch) (job : JobDescription) :
  let f := SimpleAnalysisFeedback.generateFeedback hardMatch job in
  SimpleAnalysisFeedback.missing_certifications f <> []
  /\ SimpleAnalysisFeedback.missing_projects f <> []
  /\ SimpleAnalysisFeedback.experience_gaps f <> []
  /\ SimpleAnalysisFeedback.education_gaps f <> []
  /\ SimpleAnalysisFeedback.strengths f <> []
  /\ SimpleAnalysisFeedback.weaknesses f <> []
  /\ SimpleAnalysisFeedback.improvement_suggestions f <> []
  /\ SimpleAnalysisFeedback.recommended_courses f <> []
  /\ SimpleAnalysisFeedback.recommended_projects f <> []
  /\ SimpleAnalysisFeedback.immediate_actions f <> []
  /\ SimpleAnalysisFeedback.short_term_goals f <> []
  /\ SimpleAnalysisFeedback.long_term_goals f <> [].
Proof.
  cbv zeta. unfold SimpleAnalysisFeedback.generateFeedback. cbv zeta.
  cbn [SimpleAnalysisFeedback.missing_certifications
       SimpleAnalysisFeedback.missing_projects SimpleAnalysisFeedback.experience_gaps
       SimpleAnalysisFeedback.education_gaps SimpleAnalysisFeedback.strengths
       SimpleAnalysisFeedback.weaknesses SimpleAnalysisFeedback.improvement_suggestions
       SimpleAnalysisFeedback.recommended_courses
       SimpleAnalysisFeedback.recommended_projects
       SimpleAnalysisFeedback.immediate_actions SimpleAnalysisFeedback.short_term_goals
       SimpleAnalysisFeedback.long_term_goals].
  pose proof (job_specific_lists_nonempty (title job)) as Hjob. cbv zeta in Hjob.
  destruct Hjob as (H1 & H2 & H3 & H4 & H5 & H6 & H7 & H8 & H9 & H10).
  assert (Hs : SimpleAnalysisFeedback.generateStrengths (matched_skills hardMatch) job <> []).
  { unfold SimpleAnalysisFeedback.generateStrengths. cbv zeta.
    destruct (0 <? _)%nat, (SimpleAnalysisFeedback.someIn _ _),
      (SimpleAnalysisFeedback.someIn _ _), (SimpleAnalysisFeedback.someIn _ _);
      cbn; discriminate. }
  assert (Hw : SimpleAnalysisFeedback.generateWeaknesses (missing_skills hardMatch) job <> []).
  { unfold SimpleAnalysisFeedback.generateWeaknesses. cbv zeta.
    destruct (0 <? _)%nat, (SimpleAnalysisFeedback.someIn _ _),
      (SimpleAnalysisFeedback.someIn _ _); cbn; discriminate. }
  split_conjunction; assumption.
Qed.

(** X24. In a report of the simple service, the soft skills given as
    missing are taken from Communication and Leadership only, and one of
    the two is given as missing unless the job lists it under exactly that
    name and the resume matches it, so a job that asks for neither gets
    both. The other buckets keep skills of the hard match, in its order. *)
Theorem soft_skills_missing_unless_matched (resumeText : string) (job : JobDescription)
    (hardMatch : HardMatch) (skill : string) :
  SimpleAnalysisService.performHardMatch resumeText job = Some hardMatch ->
  let breakdown :=
    SimpleAnalysisFeedback.skills_breakdown
      (SimpleAnalysisFeedback.generateFeedback hardMatch job) in
  (skill ∈ SimpleAnalysisFeedback.missing (SimpleAnalysisFeedback.soft_skills breakdown)
   <-> skill ∈ ["Communication"; "Leadership"]
       /\ ~ (skill ∈ must_have_skills job ++ good_to_have_skills job
             /\ isMatched (JS.toLowerCase resumeText) skill = Some true))
  /\ SimpleAnalysisFeedback.matched (SimpleAnalysisFeedback.technical_skills breakdown)
       `sublist_of` matched_skills hardMatch
  /\ SimpleAnalysisFeedback.matched (SimpleAnalysisFeedback.soft_skills breakdown)
       `sublist_of` matched_skills hardMatch
  /\ SimpleAnalysisFeedback.matched (SimpleAnalysisFeedback.domain_knowledge breakdown)
       `sublist_of` matched_skills hardMatch
  /\ SimpleAnalysisFeedback.missing (SimpleAnalysisFeedback.technical_skills breakdown)
       `sublist_of` missing_skills hardMatch
  /\ SimpleAnalysisFeedback.missing (SimpleAnalysisFeedback.domain_knowledge breakdown)
       `sublist_of` missing_skills hardMatch.
Proof.
  intros Hhm. destruct (simple_hard_match_inv _ _ _ Hhm) as (_ & Hmatched & _).
  cbv zeta. unfold SimpleAnalysisFeedback.generateFeedback. cbv zeta.
  cbn [SimpleAnalysisFeedback.skills_breakdown].
  unfold SimpleAnalysisFeedback.categorizeSkills. cbv zeta.
  cbn [SimpleAnalysisFeedback.missing SimpleAnalysisFeedback.matched
       SimpleAnalysisFeedback.soft_skills SimpleAnalysisFeedback.technical_skills
       SimpleAnalysisFeedback.domain_knowledge].
  split; [|split; [|split; [|split; [|split]]]]; try apply sublist_filter.
  rewrite list_elem_of_filter, array_includes_false, Hmatched, list_elem_of_filter.
  tauto.
Qed.

(** ** The hard match of the multi-provider service *)

Lemma ai_hard_match_lists (request : AIAnalysisService.AnalysisRequest) :
  let required :=
    JS.toLowerCase <$> (AIAnalysisService.mustHave request
                        ++ AIAnalysisService.goodToHave request) in
  let resume := JS.toLowerCase <$> AIAnalysisService.resumeSkills request in
  AIAnalysisService.p_matchedSkills (AIAnalysisService.performHardMatch request)
  = Some (filter (fun x => overlaps resume x = true) required)
  /\ AIAnalysisService.p_missingSkills (AIAnalysisService.performHardMatch request)
     = Some (filter (fun x => overlaps resume x = false) required).
Proof.
  cbv zeta. unfold AIAnalysisService.performHardMatch. cbv zeta.
  pose proof (partition_loop
                (overlaps (JS.toLowerCase <$> AIAnalysisService.resumeSkills request))
                (JS.toLowerCase <$> (AIAnalysisService.mustHave request
                                     ++ AIAnalysisService.goodToHave request))
                [] []) as Hloop.
  unfold overlaps in Hloop at 1. cbn [app] in Hloop.
  rewrite Hloop. split; reflexivity.
Qed.

Lemma toLowerCase_fixes_lowered (skill : string) :
  JS.ascii_text skill = true -> JS.toLowerCase (JS.toLowerCase skill) = JS.toLowerCase skill.
Proof.
  intros Hascii. unfold JS.toLowerCase.
  rewrite Hascii, ascii_text_toLowerCase_ascii, Hascii.
  apply toLowerCase_ascii_idempotent.
Qed.

(** X15. The hard match of the multi-provider service classifies every
    entry of the two skill lists exactly once: the matched and the missing
    arrays together are a rearrangement of the lower-cased must-have and
    good-to-have skills, and each array keeps the job's order. When the
    skills of the job are written in ASCII, lower-casing a reported skill
    again does not change it. *)
Theorem ai_hard_match_partitions (request : AIAnalysisService.AnalysisRequest) :
  let required :=
    JS.toLowerCase <$> (AIAnalysisService.mustHave request
                        ++ AIAnalysisService.goodToHave request) in
  exists matched missing,
    AIAnalysisService.p_matchedSkills (AIAnalysisService.performHardMatch request)
    = Some matched
    /\ AIAnalysisService.p_missingSkills (AIAnalysisService.performHardMatch request)
       = Some missing
    /\ matched ++ missing ≡ₚ required
    /\ matched `sublist_of` required
    /\ missing `sublist_of` required
    /\ (Forall (fun skill => JS.ascii_text skill = true)
               (AIAnalysisService.mustHave request ++ AIAnalysisService.goodToHave request) ->
        Forall (fun skill => JS.toLowerCase skill = skill) (matched ++ missing)).
Proof.
  intros required.
  destruct (ai_hard_match_lists request) as [Hm Hn]. cbv zeta in Hm, Hn.
  fold required in Hm, Hn.
  eexists _, _. split; [exact Hm|]. split; [exact Hn|].
  assert (Hperm : filter (fun x => overlaps
                     (JS.toLowerCase <$> AIAnalysisService.resumeSkills request) x = true)
                    required
                  ++ filter (fun x => overlaps
                       (JS.toLowerCase <$> AIAnalysisService.resumeSkills request) x = false)
                       required
                  ≡ₚ required) by apply filter_split_permutation.
  split; [exact Hperm|]. split; [apply sublist_filter|]. split; [apply sublist_filter|].
  intros Hascii. rewrite Hperm. unfold required. apply Forall_fmap.
  eapply Forall_impl; [exact Hascii|]. intros x Hx. by apply toLowerCase_fixes_lowered.
Qed.

(** X16. Two edge cases of that hard match. A resume that lists no skill
    matches nothing: every required skill is missing. A resume that lists
    an empty string among its skills matches every required skill, since
    every skill name contains the empty string. *)
Theorem ai_hard_match_edge_cases (request : AIAnalysisService.AnalysisRequest) :
  let required :=
    JS.toLowerCase <$> (AIAnalysisService.mustHave request
                        ++ AIAnalysisService.goodToHave request) in
  let result := AIAnalysisService.performHardMatch request in
  (AIAnalysisService.resumeSkills request = [] ->
   AIAnalysisService.p_matchedSkills result = Some []
   /\ AIAnalysisService.p_missingSkills result = Some required)
  /\ (EmptyString ∈ AIAnalysisService.resumeSkills request ->
      AIAnalysisService.p_matchedSkills result = Some required
      /\ AIAnalysisService.p_missingSkills result = Some []).
Proof.
  intros required result.
  destruct (ai_hard_match_lists request) as [Hm Hn]. cbv zeta in Hm, Hn.
  fold required result in Hm, Hn. rewrite Hm, Hn. split.
  - intros ->. cbn [fmap list_fmap].
    rewrite (filter_none _ required) by (apply Forall_forall; intros x _; discriminate).
    rewrite (filter_all _ required) by (apply Forall_forall; intros x _; reflexivity).
    done.
  - intros Hin.
    assert (Hall : forall x,
               overlaps (JS.toLowerCase <$> AIAnalysisService.resumeSkills request) x = true).
    { intros x. apply existsb_exists. exists EmptyString. split.
      - apply list_elem_of_In.
        change EmptyString with (JS.toLowerCase EmptyString).
        by apply list_elem_of_fmap_2.
      - by rewrite includes_empty_sub, orb_true_r. }
    rewrite (filter_all _ required) by (apply Forall_forall; intros x _; apply Hall).
    rewrite (filter_none _ required)
      by (apply Forall_forall; intros x _; rewrite Hall; discriminate).
    done.
Qed.

(** ** The reply of a provider in the multi-provider service *)

Lemma clamp_cases (x : JS.number) :
  x <> JS.NaN ->
  JS.geb (clamp_0_100 x) (JS.of_Z 0) = true
  /\ JS.geb (JS.of_Z 100) (clamp_0_100 x) = true
  /\ (JS.gtb x (JS.of_Z 0) = true -> JS.ltb x (JS.of_Z 100) = true -> clamp_0_100 x = x)
  /\ (JS.geb x (JS.of_Z 100) = true -> clamp_0_100 x = JS.of_Z 100)
  /\ (JS.ltb x (JS.of_Z 0) = true -> clamp_0_100 x = JS.of_Z 0).
Proof.
  intros Hx. unfold clamp_0_100. rewrite of_Z_100, of_Z_0.
  destruct x as [s|s| |s m e].
  - destruct s; vm_compute; split_conjunction; try reflexivity; intros; discriminate.
  - destruct s; vm_compute; split_conjunction; try reflexivity; intros; discriminate.
  - by destruct Hx.
  - destruct s.
    + assert (Hmax : JS.Math_max (S754_zero false) (S754_finite true m e)
                     = S754_zero false) by reflexivity.
      rewrite Hmax.
      assert (Hmin : JS.Math_min (S754_finite false 7036874417766400 (-46))
                       (S754_zero false) = S754_zero false)
        by (vm_compute; reflexivity).
      rewrite Hmin. split; [reflexivity|]. split; [vm_compute; reflexivity|].
      split; [intros H; discriminate H|]. split; [|reflexivity].
      intros H. discriminate H.
    + assert (Hmax : JS.Math_max (S754_zero false) (S754_finite false m e)
                     = S754_finite false m e) by reflexivity.
      rewrite Hmax.
      unfold JS.Math_min, JS.geb, JS.gtb, JS.ltb, SFltb, SFleb.
      rewrite (SFcompare_antisym (S754_finite false m e)
                 (S754_finite false 7036874417766400 (-46))).
      assert (H0 : SFcompare (S754_zero false) (S754_finite false m e) = Some Lt)
        by reflexivity.
      assert (H1 : SFcompare (S754_finite false m e) (S754_zero false) = Some Gt)
        by reflexivity.
      assert (H2 : SFcompare (S754_finite false 7036874417766400 (-46))
                     (S754_finite false 7036874417766400 (-46)) = Some Eq)
        by (vm_compute; reflexivity).
      assert (H3 : SFcompare (S754_zero false)
                     (S754_finite false 7036874417766400 (-46)) = Some Lt)
        by reflexivity.
      destruct (SFcompare (S754_finite false m e)
                  (S754_finite false 7036874417766400 (-46))) as [[]|] eqn:E;
        cbn [fmap option_fmap option_map CompOpp];
        rewrite ?H0, ?H1, ?H2, ?H3, ?E;
        (split; [reflexivity|]); (split; [reflexivity|]);
        (split; [intros _ H; first [reflexivity | discriminate H]|]);
        (split; [intros H; first [reflexivity | discriminate H]|]);
        intros H; discriminate H.
Qed.

(** X17. When the reply of a provider decodes to an object whose
    [semanticMatchScore] is a number, the multi-provider service keeps the
    score inside 0..100: a score strictly between 0 and 100 is kept as it
    is, a score of 100 or more becomes 100, and a negative score or NaN
    becomes 0. *)
Theorem reply_score_is_clamped
    (aiResponse : string) (parsed : JS.obj) (x : JS.number) :
  JS.match_braces aiResponse ≫= JS.JSON_parse = Some parsed ->
  JS.get parsed "semanticMatchScore" = JS.VNum x ->
  exists r,
    AIAnalysisService.p_semanticMatchScore (AIAnalysisService.parseAIResponse aiResponse)
    = Some r
    /\ JS.geb r (JS.of_Z 0) = true
    /\ JS.geb (JS.of_Z 100) r = true
    /\ (JS.gtb x (JS.of_Z 0) = true -> JS.ltb x (JS.of_Z 100) = true -> r = x)
    /\ (JS.geb x (JS.of_Z 100) = true -> r = JS.of_Z 100)
    /\ (JS.ltb x (JS.of_Z 0) = true -> r = JS.of_Z 0)
    /\ (x = JS.NaN -> r = JS.of_Z 0).
Proof.
  intros Hparse Hget. unfold AIAnalysisService.parseAIResponse.
  rewrite Hparse, Hget. cbn [AIAnalysisService.p_semanticMatchScore].
  unfold JS.or_else. cbn [JS.truthy].
  destruct (JS.truthy_number x) eqn:T; cbn [JS.ToNumber].
  - assert (Hx : x <> JS.NaN) by (intros ->; discriminate T).
    destruct (clamp_cases x Hx) as (H1 & H2 & H3 & H4 & H5).
    exists (clamp_0_100 x). split; [reflexivity|].
    split; [exact H1|]. split; [exact H2|]. split; [exact H3|].
    split; [exact H4|]. split; [exact H5|]. intros E. by destruct Hx.
  - exists (JS.of_Z 0). split; [vm_compute; reflexivity|].
    split; [vm_compute; reflexivity|]. split; [vm_compute; reflexivity|].
    destruct x as [s|s| |s m e]; try discriminate T.
    + split; [intros H; destruct s; vm_compute in H; discriminate H|].
      split; [intros H; destruct s; vm_compute in H; discriminate H|].
      split; [intros H; destruct s; vm_compute in H; discriminate H|].
      intros H; discriminate H.
    + split; [intros H; discriminate H|].
      split; [intros H; discriminate H|].
      split; [intros H; discriminate H|]. reflexivity.
Qed.

(** X18. Whatever a provider replies, the four list fields read from the
    reply are arrays: a field that is absent or holds anything but an
    array is replaced by the empty array, and a reply that cannot be
    decoded gives the canned lists. *)
Theorem reply_list_fields_are_arrays (aiResponse : string) :
  let fields := AIAnalysisProviders.parseReplyFields aiResponse in
  is_array (AIAnalysisProviders.strengths fields)
  /\ is_array (AIAnalysisProviders.gaps fields)
  /\ is_array (AIAnalysisProviders.improvementSuggestions fields)
  /\ is_array (AIAnalysisProviders.recommendedSkills fields)
  /\ (JS.match_braces aiResponse ≫= JS.JSON_parse = None ->
      AIAnalysisProviders.strengths fields <> JS.VArr []
      /\ AIAnalysisProviders.gaps fields <> JS.VArr []
      /\ AIAnalysisProviders.improvementSuggestions fields <> JS.VArr []
      /\ AIAnalysisProviders.recommendedSkills fields <> JS.VArr []).
Proof.
  cbv zeta. unfold AIAnalysisProviders.parseReplyFields.
  destruct (JS.match_braces aiResponse ≫= JS.JSON_parse) as [parsed|].
  - cbn [AIAnalysisProviders.strengths AIAnalysisProviders.gaps
         AIAnalysisProviders.improvementSuggestions
         AIAnalysisProviders.recommendedSkills].
    assert (Harr : forall v, is_array (AIAnalysisProviders.arrayOrEmpty v)).
    { intros v. destruct v; eexists; reflexivity. }
    split; [apply Harr|]. split; [apply Harr|]. split; [apply Harr|].
    split; [apply Harr|]. intros H; discriminate H.
  - cbn [AIAnalysisProviders.strengths AIAnalysisProviders.gaps
         AIAnalysisProviders.improvementSuggestions
         AIAnalysisProviders.recommendedSkills].
    split; [eexists; reflexivity|]. split; [eexists; reflexivity|].
    split; [eexists; reflexivity|]. split; [eexists; reflexivity|].
    intros _. split; [discriminate|]. split; [discriminate|].
    split; discriminate.
Qed.

(** ** The providers of the multi-provider service *)

Lemma semantic_analysis_skips_failures
    (failed rest : list (option string)) :
  Forall (fun reply => reply = None) failed ->
  AIAnalysisService.performSemanticAnalysis (failed ++ rest)
  = AIAnalysisService.performSemanticAnalysis rest.
Proof.
  induction 1 as [|reply failed Hreply _ IH]; [reflexivity|].
  subst reply. exact IH.
Qed.

Lemma semantic_analysis_all_failed (replies : list (option string)) :
  Forall (fun reply => reply = None) replies ->
  AIAnalysisService.performSemanticAnalysis replies = None.
Proof.
  intros H. rewrite <- (app_nil_r replies).
  by rewrite semantic_analysis_skips_failures.
Qed.

(** X19. The first provider whose call returns decides the report: the
    providers that failed before it leave no trace and the providers after
    it are not consulted. In particular, when its reply holds no object
    that decodes, the semantic score is 50 whatever the later providers
    would have replied. *)
Theorem first_reply_decides
    (failed rest : list (option string)) (reply : string)
    (request : AIAnalysisService.AnalysisRequest) :
  Forall (fun r => r = None) failed ->
  AIAnalysisService.analyzeResume (failed ++ Some reply :: rest) request
  = AIAnalysisService.analyzeResume [Some reply] request
  /\ (JS.match_braces reply ≫= JS.JSON_parse = None ->
      AIAnalysisService.semanticMatchScore
        (AIAnalysisService.analyzeResume (failed ++ Some reply :: rest) request)
      = JS.of_Z 50).
Proof.
  intros Hfailed. unfold AIAnalysisService.analyzeResume.
  rewrite semantic_analysis_skips_failures by exact Hfailed.
  cbn [AIAnalysisService.performSemanticAnalysis]. split; [reflexivity|].
  intros Hnone. unfold AIAnalysisService.parseAIResponse. rewrite Hnone.
  cbn [AIAnalysisService.semanticMatchScore].
  unfold AIAnalysisService.combineAnalysisResults.
  cbn [AIAnalysisService.semanticMatchScore AIAnalysisService.p_semanticMatchScore].
  vm_compute. reflexivity.
Qed.

Lemma number_or_truthy (x : option JS.number) (d : JS.number) :
  JS.truthy_number d = true ->
  JS.truthy_number (AIAnalysisService.number_or x d) = true.
Proof.
  intros Hd. destruct x as [n|]; cbn [AIAnalysisService.number_or]; [|exact Hd].
  by destruct (JS.truthy_number n) eqn:E.
Qed.

Lemma ai_score_without_skills (request : AIAnalysisService.AnalysisRequest) :
  AIAnalysisService.mustHave request ++ AIAnalysisService.goodToHave request = [] ->
  AIAnalysisService.p_hardMatchScore (AIAnalysisService.performHardMatch request)
  = Some (JS.of_Z 0).
Proof.
  intros Hnil. unfold AIAnalysisService.performHardMatch. rewrite Hnil.
  cbn [fmap list_fmap fold_left length Nat.ltb Nat.leb].
  cbn [AIAnalysisService.p_hardMatchScore]. vm_compute. reflexivity.
Qed.

(** X20. When every provider call fails, or none is configured, the report
    is the basic analysis: its relevance, hard match and semantic scores
    are one number, which is never zero or NaN because a zero hard match
    score is replaced by 30, and the verdict is the one of that number. A
    job that lists no skill is reported with 30 and Low. *)
Theorem all_providers_failing_gives_basic_analysis
    (replies : list (option string)) (request : AIAnalysisService.AnalysisRequest) :
  Forall (fun r => r = None) replies ->
  let report := AIAnalysisService.analyzeResume replies request in
  report = AIAnalysisService.performBasicAnalysis request
  /\ AIAnalysisService.hardMatchScore report = AIAnalysisService.relevanceScore report
  /\ AIAnalysisService.semanticMatchScore report = AIAnalysisService.relevanceScore report
  /\ JS.truthy_number (AIAnalysisService.relevanceScore report) = true
  /\ AIAnalysisService.verdict report
     = AIAnalysisService.generateVerdict (AIAnalysisService.relevanceScore report)
  /\ (AIAnalysisService.mustHave request ++ AIAnalysisService.goodToHave request = [] ->
      AIAnalysisService.relevanceScore report = JS.of_Z 30
      /\ AIAnalysisService.verdict report = Low).
Proof.
  intros Hfailed report.
  assert (Hreport : report = AIAnalysisService.performBasicAnalysis request).
  { unfold report, AIAnalysisService.analyzeResume.
    by rewrite semantic_analysis_all_failed. }
  rewrite Hreport. unfold AIAnalysisService.performBasicAnalysis.
  cbn [AIAnalysisService.hardMatchScore AIAnalysisService.semanticMatchScore
       AIAnalysisService.relevanceScore AIAnalysisService.verdict].
  split; [reflexivity|]. split; [reflexivity|]. split; [reflexivity|].
  split; [apply number_or_truthy; reflexivity|]. split; [reflexivity|].
  intros Hnil. rewrite (ai_score_without_skills request Hnil).
  split; vm_compute; reflexivity.
Qed.

Lemma provider_elem (n : AIAnalysisProviders.ProviderName) (m : string)
    (variable : option string) (p : AIAnalysisProviders.AIProvider) :
  p ∈ AIAnalysisProviders.provider n m variable
  <-> exists key, variable = Some key /\ key <> EmptyString
                  /\ p = {| AIAnalysisProviders.name := n;
                            AIAnalysisProviders.apiKey := key;
                            AIAnalysisProviders.model := m |}.
Proof.
  unfold AIAnalysisProviders.provider, AIAnalysisProviders.keyOf.
  destruct variable as [k|].
  - destruct (String.eqb_spec k EmptyString) as [->|Hne].
    + split; [intros H; by apply elem_of_nil in H|].
      intros (key & [= <-] & Hne & _). by destruct Hne.
    + rewrite list_elem_of_singleton. split.
      * intros ->. by exists k.
      * by intros (key & [= <-] & _ & ->).
  - split; [intros H; by apply elem_of_nil in H|]. by intros (key & ? & _).
Qed.

(** X21. The providers the service configures are exactly these: openai
    with model gpt-4o-mini when OPENAI_API_KEY is set to a non-empty
    string, claude with model claude-3-haiku-20240307 when
    ANTHROPIC_API_KEY is, gemini with model gemini-1.5-flash when
    GEMINI_API_KEY is, each carrying the key of its own variable, in that
    order and none twice. With no key set it calls no provider, and every
    request gets the basic analysis. *)
Theorem providers_follow_the_keys (env : AIAnalysisProviders.Env) :
  let providers := AIAnalysisProviders.initializeProviders env in
  (forall p,
      p ∈ providers
      <-> (exists key,
              AIAnalysisProviders.OPENAI_API_KEY env = Some key /\ key <> EmptyString
              /\ p = {| AIAnalysisProviders.name := AIAnalysisProviders.openai;
                        AIAnalysisProviders.apiKey := key;
                        AIAnalysisProviders.model := "gpt-4o-mini" |})
          \/ (exists key,
                 AIAnalysisProviders.ANTHROPIC_API_KEY env = Some key /\ key <> EmptyString
                 /\ p = {| AIAnalysisProviders.name := AIAnalysisProviders.claude;
                           AIAnalysisProviders.apiKey := key;
                           AIAnalysisProviders.model := "claude-3-haiku-20240307" |})
          \/ (exists key,
                 AIAnalysisProviders.GEMINI_API_KEY env = Some key /\ key <> EmptyString
                 /\ p = {| AIAnalysisProviders.name := AIAnalysisProviders.gemini;
                           AIAnalysisProviders.apiKey := key;
                           AIAnalysisProviders.model := "gemini-1.5-flash" |}))
  /\ AIAnalysisProviders.name <$> providers
       `sublist_of` [AIAnalysisProviders.openai; AIAnalysisProviders.claude;
                     AIAnalysisProviders.gemini]
  /\ Forall (fun p => AIAnalysisProviders.apiKey p <> EmptyString) providers
  /\ (providers = [] <->
      AIAnalysisProviders.keyOf (AIAnalysisProviders.OPENAI_API_KEY env) = None
      /\ AIAnalysisProviders.keyOf (AIAnalysisProviders.ANTHROPIC_API_KEY env) = None
      /\ AIAnalysisProviders.keyOf (AIAnalysisProviders.GEMINI_API_KEY env) = None)
  /\ (providers = [] ->
      forall callAIProvider request,
        AIAnalysisProviders.analyzeResume env callAIProvider request
        = AIAnalysisService.performBasicAnalysis request).
Proof.
  cbv zeta. split.
  { intros p. unfold AIAnalysisProviders.initializeProviders.
    by rewrite !elem_of_app, !provider_elem. }
  unfold AIAnalysisProviders.analyzeResume.
  unfold AIAnalysisProviders.initializeProviders.
  assert (Hkey : forall variable key,
             AIAnalysisProviders.keyOf variable = Some key -> key <> EmptyString).
  { intros [k|] key; cbn [AIAnalysisProviders.keyOf]; [|discriminate].
    destruct (String.eqb k EmptyString) eqn:E; [discriminate|].
    intros [= <-]. intros ->. discriminate E. }
  unfold AIAnalysisProviders.provider.
  pose proof (Hkey (AIAnalysisProviders.OPENAI_API_KEY env)) as H1.
  pose proof (Hkey (AIAnalysisProviders.ANTHROPIC_API_KEY env)) as H2.
  pose proof (Hkey (AIAnalysisProviders.GEMINI_API_KEY env)) as H3.
  destruct (AIAnalysisProviders.keyOf (AIAnalysisProviders.OPENAI_API_KEY env)) as [k1|];
    destruct (AIAnalysisProviders.keyOf (AIAnalysisProviders.ANTHROPIC_API_KEY env)) as [k2|];
    destruct (AIAnalysisProviders.keyOf (AIAnalysisProviders.GEMINI_API_KEY env)) as [k3|];
    cbn [app fmap list_fmap AIAnalysisProviders.name];
    (split; [repeat first [apply sublist_nil | apply sublist_skip | apply sublist_cons]|]);
    (split; [repeat first [apply List.Forall_nil
                          | apply List.Forall_cons;
                            [cbn [AIAnalysisProviders.apiKey];
                             first [by apply H1 | by apply H2 | by apply H3]|]]|]);
    (split; [split; [intros H; first [discriminate H | done]
                    | intros (Ha & Hb & Hc);
                      first [discriminate Ha | discriminate Hb | discriminate Hc | done]]|]);
    intros H; first [discriminate H | intros callAIProvider request; reflexivity].
Qed.

Lemma report_skills
    (replies : list (option string)) (request : AIAnalysisService.AnalysisRequest) :
  let required :=
    JS.toLowerCase <$> (AIAnalysisService.mustHave request
                        ++ AIAnalysisService.goodToHave request) in
  let resume := JS.toLowerCase <$> AIAnalysisService.resumeSkills request in
  AIAnalysisService.matchedSkills (AIAnalysisService.analyzeResume replies request)
  = filter (fun x => overlaps resume x = true) required
  /\ AIAnalysisService.missingSkills (AIAnalysisService.analyzeResume replies request)
     = filter (fun x => overlaps resume x = false) required.
Proof.
  cbv zeta. destruct (ai_hard_match_lists request) as [Hm Hn]. cbv zeta in Hm, Hn.
  unfold AIAnalysisService.analyzeResume, AIAnalysisService.performBasicAnalysis,
    AIAnalysisService.combineAnalysisResults.
  destruct (AIAnalysisService.performSemanticAnalysis replies);
    cbn [AIAnalysisService.matchedSkills AIAnalysisService.missingSkills];
    rewrite Hm, Hn; split; reflexivity.
Qed.

(** X22. The providers have no say on the skill lists of a report:
    whatever they reply and however they fail, the matched and the missing
    skills together are a rearrangement of the lower-cased required skills,
    and two runs on one request report the same lists. The verdict of a
    report is always the one its own relevance score gives. *)
Theorem providers_do_not_change_the_skills
    (replies replies' : list (option string))
    (request : AIAnalysisService.AnalysisRequest) :
  let report := AIAnalysisService.analyzeResume replies request in
  let report' := AIAnalysisService.analyzeResume replies' request in
  AIAnalysisService.matchedSkills report ++ AIAnalysisService.missingSkills report
    ≡ₚ JS.toLowerCase <$> (AIAnalysisService.mustHave request
                           ++ AIAnalysisService.goodToHave request)
  /\ AIAnalysisService.matchedSkills report' = AIAnalysisService.matchedSkills report
  /\ AIAnalysisService.missingSkills report' = AIAnalysisService.missingSkills report
  /\ AIAnalysisService.verdict report
     = AIAnalysisService.generateVerdict (AIAnalysisService.relevanceScore report).
Proof.
  cbv zeta.
  destruct (report_skills replies request) as [Hm Hn].
  destruct (report_skills replies' request) as [Hm' Hn']. cbv zeta in Hm, Hn, Hm', Hn'.
  rewrite Hm, Hn, Hm', Hn'.
  split; [apply filter_split_permutation|]. split; [reflexivity|]. split; [reflexivity|].
  unfold AIAnalysisService.analyzeResume.
  destruct (AIAnalysisService.performSemanticAnalysis replies); reflexivity.
Qed.

(** ** The two hard matches on a job without repeated skills *)

Lemma classified_without_repeats (keep : bool) (resumeLower : string)
    (mustHave goodToHave : list string) :
  NoDup (mustHave ++ goodToHave) ->
  classified keep resumeLower mustHave goodToHave
  = filter (fun skill => isMatched resumeLower skill = Some keep) (mustHave ++ goodToHave).
Proof.
  intros Hnd. apply NoDup_app in Hnd as (Hm & Hdisjoint & Hg).
  unfold classified. rewrite filter_app, added_fresh; [reflexivity| |].
  - by apply NoDup_filter.
  - intros x Hx Hx'. apply list_elem_of_filter in Hx as [_ Hx].
    apply list_elem_of_filter in Hx' as [_ Hx']. by apply (Hdisjoint x).
Qed.

(** X23. On a job that lists no skill twice, the hard match of the enhanced
    service throws exactly when the hard match of the simple service
    does, and otherwise the two report the same matched, missing and
    critical missing skills; when the job lists a skill at all they return
    the same result, score included, and otherwise they differ only in the
    score, 0 against 50. *)
Theorem hard_matches_agree_without_repeats (resumeText : string) (job : JobDescription) :
  NoDup (must_have_skills job ++ good_to_have_skills job) ->
  (EnhancedAnalysisService.performHardMatch resumeText job = None
   <-> SimpleAnalysisService.performHardMatch resumeText job = None)
  /\ forall enhanced simple,
       EnhancedAnalysisService.performHardMatch resumeText job = Some enhanced ->
       SimpleAnalysisService.performHardMatch resumeText job = Some simple ->
       matched_skills enhanced = matched_skills simple
       /\ missing_skills enhanced = missing_skills simple
       /\ critical_missing_skills enhanced = critical_missing_skills simple
       /\ (must_have_skills job ++ good_to_have_skills job <> [] -> enhanced = simple)
       /\ (must_have_skills job ++ good_to_have_skills job = [] ->
           hard_match_score enhanced = JS.of_Z 0 /\ hard_match_score simple = JS.of_Z 50).
Proof.
  intros Hnd. split.
  { by rewrite enhanced_hard_match_none_iff, simple_hard_match_none_iff. }
  intros enhanced simple He Hs.
  destruct (enhanced_hard_match_inv _ _ _ He) as (_ & Hem & Hen & Hec & Hes).
  destruct (simple_hard_match_inv _ _ _ Hs) as (_ & Hsm & Hsn & Hsc & Hss).
  rewrite (classified_without_repeats true _ _ _ Hnd) in Hem.
  rewrite (classified_without_repeats false _ _ _ Hnd) in Hen.
  assert (Hmatched : matched_skills enhanced = matched_skills simple) by congruence.
  assert (Hmissing : missing_skills enhanced = missing_skills simple) by congruence.
  assert (Hcritical : critical_missing_skills enhanced = critical_missing_skills simple)
    by congruence.
  split; [exact Hmatched|]. split; [exact Hmissing|]. split; [exact Hcritical|].
  cbv zeta in Hes, Hss. rewrite <- length_app in Hes, Hss. rewrite Hmatched in Hes.
  destruct (must_have_skills job ++ good_to_have_skills job) as [|skill skills].
  - split; [intros H; by destruct H|]. intros _.
    rewrite Hes, Hss. split; vm_compute; reflexivity.
  - split; [|intros H; discriminate H]. intros _.
    replace (0 <? length (skill :: skills))%nat with true in Hes, Hss by reflexivity.
    destruct enhanced, simple. cbn in *. congruence.
Qed.

End Runtime.

(** ** The claims at concrete inputs *)

(** Hard score 40 and semantic score 90 combine to 70. *)
Lemma relevance_of_40_and_90 :
  EnhancedAnalysisService.relevance_score
    (EnhancedAnalysisService.combineAnalysisResults (H := sample_runtime)
       {| hard_match_score := JS.of_Z 40; matched_skills := ["React"; "TypeScript"];
          missing_skills := ["JavaScript"; "Node.js"; "AWS"];
          critical_missing_skills := ["JavaScript"; "Node.js"] |}
       [("semantic_match_score", EnhancedAnalysisService.num 90)]
       scenario_job)
  = JS.of_Z 70
  /\ AIAnalysisService.relevanceScore
       (AIAnalysisService.combineAnalysisResults
          {| AIAnalysisService.p_hardMatchScore := Some (JS.of_Z 40);
             AIAnalysisService.p_semanticMatchScore := None;
             AIAnalysisService.p_matchedSkills := Some ["react"];
             AIAnalysisService.p_missingSkills := Some ["aws"] |}
          {| AIAnalysisService.p_hardMatchScore := None;
             AIAnalysisService.p_semanticMatchScore := Some (JS.of_Z 90);
             AIAnalysisService.p_matchedSkills := None;
             AIAnalysisService.p_missingSkills := None |})
     = JS.of_Z 70.
Proof.
  apply (relevance_score_is_weighted_round sample_runtime 40 90);
    [lia | lia | reflexivity | reflexivity | reflexivity | reflexivity].
Defined.

(** C2, as written. The simple service does not use the thresholds 80 and
    50: for a job that lists no skill and an empty resume it computes the
    relevance score 50, which those thresholds (and the two other
    services) bucket as Medium, and reports Low, because its Medium range
    starts at 60. *)
Lemma simple_service_reports_low_at_50 :
  exists report,
    SimpleAnalysisService.analyzeResumeSimple (H := sample_runtime)
      EmptyString (job_of [] [])
    = Some report
    /\ SimpleAnalysisService.relevance_score report = JS.of_Z 50
    /\ spec_verdict (SimpleAnalysisService.relevance_score report) Medium
    /\ SimpleAnalysisService.verdict report = Low
    /\ EnhancedAnalysisService.verdictOf (SimpleAnalysisService.relevance_score report)
       = Medium
    /\ AIAnalysisService.generateVerdict (SimpleAnalysisService.relevance_score report)
       = Medium
    /\ ~ spec_verdict (SimpleAnalysisService.relevance_score report)
          (SimpleAnalysisService.verdict report).
Proof.
  assert (Hmedium : spec_verdict (JS.of_Z 50) Medium)
    by (apply spec_verdict_medium; evaluate).
  eexists. split; [vm_compute; reflexivity|].
  cbn [SimpleAnalysisService.relevance_score SimpleAnalysisService.verdict].
  split; [reflexivity|]. split; [exact Hmedium|]. split; [reflexivity|].
  split; [evaluate|]. split; [evaluate|].
  intros Hlow. pose proof (spec_verdict_functional _ _ _ Hlow Hmedium). discriminate.
Qed.

(** The score 55 is Medium for the enhanced and the multi-provider
    services and Low for the simple service. *)
Lemma verdicts_of_55 :
  spec_verdict (JS.of_Z 55) (EnhancedAnalysisService.verdictOf (JS.of_Z 55))
  /\ verdict_80_60 (JS.of_Z 55) (SimpleAnalysisService.verdictOf (JS.of_Z 55)).
Proof.
  assert (Hnumber : JS.of_Z 55 <> JS.NaN) by (vm_compute; discriminate).
  destruct (verdict_thresholds_of_each_service (JS.of_Z 55) Hnumber)
    as (H1 & _ & _ & H4 & _).
  split; [exact H1 | exact H4].
Defined.

(** C3, as written. The score is not always round(100 * |matched| /
    |union|) over distinct skills. For must-have [React], good-to-have
    [React] and a resume containing the skill, the one distinct skill is
    matched and the score is 50, not 100. For forty distinct skills of which
    the resume contains 23 the score is 57, not round(57.5) = 58. And with
    no skill at all the simple service scores 50, not 0. *)
Lemma hard_score_differs_from_prediction :
  (let job := job_of ["React"] ["React"] in
   exists hardMatch,
     EnhancedAnalysisService.performHardMatch (H := sample_runtime) "react" job
     = Some hardMatch
     /\ hard_match_score hardMatch = JS.of_Z 50
     /\ predicted_score job hardMatch = 100
     /\ hard_match_score hardMatch <> JS.of_Z (predicted_score job hardMatch))
  /\ (let job := job_of forty_skills [] in
      exists hardMatch,
        EnhancedAnalysisService.performHardMatch (H := sample_runtime) resume_with_23 job
        = Some hardMatch
        /\ hard_match_score hardMatch = JS.of_Z 57
        /\ predicted_score job hardMatch = 58
        /\ hard_match_score hardMatch <> JS.of_Z (predicted_score job hardMatch))
  /\ (let job := job_of [] [] in
      exists hardMatch,
        SimpleAnalysisService.performHardMatch (H := sample_runtime) "react" job
        = Some hardMatch
        /\ hard_match_score hardMatch = JS.of_Z 50
        /\ predicted_score job hardMatch = 0
        /\ hard_match_score hardMatch <> JS.of_Z (predicted_score job hardMatch)).
Proof.
  cbv zeta. split; [|split];
    (eexists; split; [vm_compute; reflexivity|]);
    (split; [evaluate|]); (split; [evaluate|]);
    intros Heq; vm_compute in Heq; discriminate.
Qed.

(** The scenario's job lists five distinct skills, of which three are
    matched. *)
Lemma scenario_score_is_rounded_percentage :
  let hardMatch :=
    {| hard_match_score := JS.of_Z 60;
       matched_skills := ["JavaScript"; "React"; "TypeScript"];
       missing_skills := ["Node.js"; "AWS"];
       critical_missing_skills := ["Node.js"] |} in
  EnhancedAnalysisService.performHardMatch (H := sample_runtime)
    scenario_resume scenario_job
  = Some hardMatch
  /\ SimpleAnalysisService.performHardMatch (H := sample_runtime)
       scenario_resume scenario_job
     = Some hardMatch
  /\ hard_match_score hardMatch
     = JS.of_Z (hard_score_as_computed
                  (list_to_set (matched_skills hardMatch))
                  (list_to_set (must_have_skills scenario_job)
                   ∪ list_to_set (good_to_have_skills scenario_job))).
Proof.
  intros hardMatch.
  assert (Hnd : NoDup (must_have_skills scenario_job ++ good_to_have_skills scenario_job)).
  { eapply bool_decide_eq_true_1. vm_compute. reflexivity. }
  assert (Hlen : (length (must_have_skills scenario_job
                          ++ good_to_have_skills scenario_job) < 200)%nat).
  { apply Nat.ltb_lt. vm_compute. reflexivity. }
  assert (He : EnhancedAnalysisService.performHardMatch (H := sample_runtime)
                 scenario_resume scenario_job = Some hardMatch)
    by (vm_compute; reflexivity).
  assert (Hs : SimpleAnalysisService.performHardMatch (H := sample_runtime)
                 scenario_resume scenario_job = Some hardMatch)
    by (vm_compute; reflexivity).
  split; [exact He|]. split; [exact Hs|].
  destruct (hard_score_without_repeats (rt := sample_runtime)
              scenario_resume scenario_job Hnd Hlen) as (Henhanced & _).
  exact (Henhanced hardMatch He).
Defined.

(** The scenario's resume: three skills matched, two missing. *)
Lemma scenario_skills_partition :
  let hardMatch :=
    {| hard_match_score := JS.of_Z 60;
       matched_skills := ["JavaScript"; "React"; "TypeScript"];
       missing_skills := ["Node.js"; "AWS"];
       critical_missing_skills := ["Node.js"] |} in
  EnhancedAnalysisService.performHardMatch (H := sample_runtime)
    scenario_resume scenario_job
  = Some hardMatch
  /\ (list_to_set (matched_skills hardMatch) : gset string)
     ∩ list_to_set (missing_skills hardMatch) = ∅.
Proof.
  intros hardMatch.
  assert (Hhm : EnhancedAnalysisService.performHardMatch (H := sample_runtime)
                  scenario_resume scenario_job = Some hardMatch)
    by (vm_compute; reflexivity).
  split; [exact Hhm|].
  destruct (hard_match_partitions_skills (rt := sample_runtime)
              scenario_resume scenario_job) as [_ Hpartition].
  destruct (Hpartition hardMatch Hhm) as (_ & Hdisjoint & _).
  exact Hdisjoint.
Defined.

(** The scenario's resume when the request to the provider is rejected:
    a report is produced, and its critical missing skills are its missing
    must-have skills. *)
Lemma scenario_critical_missing :
  exists enhanced,
    EnhancedAnalysisService.analyzeResumeEnhanced (H := sample_runtime)
      EnhancedAnalysisService.FetchRejected scenario_resume scenario_job
    = Some enhanced
    /\ (list_to_set (EnhancedAnalysisService.r_critical_missing_skills enhanced)
        : gset string)
       = list_to_set (EnhancedAnalysisService.r_missing_skills enhanced)
         ∩ list_to_set (must_have_skills scenario_job).
Proof.
  assert (Hreturns : exists enhanced,
             EnhancedAnalysisService.analyzeResumeEnhanced (H := sample_runtime)
               EnhancedAnalysisService.FetchRejected scenario_resume scenario_job
             = Some enhanced)
    by (eexists; vm_compute; reflexivity).
  destruct Hreturns as [enhanced Hrep]. exists enhanced. split; [exact Hrep|].
  destruct (critical_missing_within_missing_must_have (rt := sample_runtime)
              EnhancedAnalysisService.FetchRejected scenario_resume scenario_job)
    as (_ & _ & Henhanced & _).
  exact (proj2 (Henhanced enhanced Hrep)).
Defined.

(** A job that lists AWS twice among its good-to-have skills. *)
Lemma repeated_skill_in_job_order :
  let job := job_of ["React"] ["AWS"; "Docker"; "AWS"] in
  let hardMatch :=
    {| hard_match_score := JS.of_Z 25;
       matched_skills := ["React"];
       missing_skills := ["AWS"; "Docker"];
       critical_missing_skills := [] |} in
  EnhancedAnalysisService.performHardMatch (H := sample_runtime) "react" job
  = Some hardMatch
  /\ in_job_order (must_have_skills job) (good_to_have_skills job)
       (missing_skills hardMatch).
Proof.
  intros job hardMatch.
  assert (Hhm : EnhancedAnalysisService.performHardMatch (H := sample_runtime) "react" job
                = Some hardMatch)
    by (vm_compute; reflexivity).
  split; [exact Hhm|].
  destruct (skills_verbatim_in_job_order (rt := sample_runtime) "react" job)
    as [_ Horder].
  destruct (Horder hardMatch Hhm) as (_ & _ & Hmissing).
  exact Hmissing.
Defined.


(** C7, the scenario as written. The resume below contains "React" and
    "typescript" and none of "JavaScript", "Node.js", "AWS", yet the hard
    match does not produce the expected sets and score: JavaScript counts
    as matched, because "react" is one of its variations, and the score is
    60. *)
Lemma scenario_as_written_fails :
  JS.includes scenario_resume "React" = true
  /\ JS.includes scenario_resume "typescript" = true
  /\ JS.includes scenario_resume "JavaScript" = false
  /\ JS.includes scenario_resume "Node.js" = false
  /\ JS.includes scenario_resume "AWS" = false
  /\ exists hardMatch,
       EnhancedAnalysisService.performHardMatch (H := sample_runtime)
         scenario_resume scenario_job
       = Some hardMatch
       /\ ~ scenario_expectation hardMatch.
Proof.
  do 5 (split; [evaluate|]).
  eexists. split; [vm_compute; reflexivity|].
  intros (_ & _ & _ & Hscore). vm_compute in Hscore. discriminate.
Qed.

(** The scenario's resume. *)
Lemma scenario_resume_hard_match :
  EnhancedAnalysisService.performHardMatch (H := sample_runtime)
    scenario_resume scenario_job
  = Some {| hard_match_score := JS.of_Z 60;
            matched_skills := ["JavaScript"; "React"; "TypeScript"];
            missing_skills := ["Node.js"; "AWS"];
            critical_missing_skills := ["Node.js"] |}.
Proof.
  apply (scenario_hard_match (rt := sample_runtime) scenario_resume);
    [vm_compute; reflexivity | vm_compute; reflexivity | vm_compute; reflexivity
    | vm_compute; reflexivity | vm_compute; reflexivity | ].
  repeat (apply List.Forall_cons; [vm_compute; reflexivity|]). apply List.Forall_nil.
Defined.

(** The reply carrying 150, decoded by the sample runtime. *)
Lemma reply_150_relevance_130 :
  exists report,
    EnhancedAnalysisService.analyzeResumeEnhanced (H := sample_runtime)
      (EnhancedAnalysisService.FetchResponse true 200
         (Some (reply_body (reply_150 "semantic_match_score"))))
      "react" (job_of ["React"] [])
    = Some report
    /\ EnhancedAnalysisService.semantic_match_score report = JS.VNum (JS.of_Z 150)
    /\ EnhancedAnalysisService.relevance_score report = JS.of_Z 130.
Proof.
  destruct (unchecked_semantic_score_exceeds_100 (rt := sample_runtime) 200)
    as (report & H1 & _ & H3 & H4 & _); [vm_compute; reflexivity | vm_compute; reflexivity |].
  exists report. split; [exact H1|]. split; [exact H3 | exact H4].
Defined.

(** ** The further properties at concrete inputs *)

(** A resume that grows from one word to a sentence keeps its match. *)
Lemma longer_resume_example :
  exists fromShorter fromLonger,
    SimpleAnalysisService.performHardMatch (H := sample_runtime) "react" scenario_job
    = Some fromShorter
    /\ SimpleAnalysisService.performHardMatch (H := sample_runtime)
         "I use react on aws" scenario_job
       = Some fromLonger
    /\ matched_skills fromShorter `sublist_of` matched_skills fromLonger.
Proof.
  assert (Hshorter : exists fromShorter,
             SimpleAnalysisService.performHardMatch (H := sample_runtime)
               "react" scenario_job = Some fromShorter)
    by (eexists; vm_compute; reflexivity).
  destruct Hshorter as [fromShorter Hs].
  destruct (longer_resume_keeps_matches (rt := sample_runtime)
              "react" "I use react on aws" scenario_job) as [_ Hsimple];
    [vm_compute; reflexivity | vm_compute; reflexivity |].
  destruct (Hsimple fromShorter Hs) as (fromLonger & Hl & Hsub).
  exists fromShorter, fromLonger. split; [exact Hs|]. split; [exact Hl | exact Hsub].
Defined.

(** The scenario's job and an empty resume. *)
Lemma empty_resume_example :
  exists enhanced,
    EnhancedAnalysisService.performHardMatch (H := sample_runtime)
      EmptyString scenario_job
    = Some enhanced
    /\ matched_skills enhanced = []
    /\ critical_missing_skills enhanced = must_have_skills scenario_job.
Proof.
  destruct (empty_resume_matches_nothing (rt := sample_runtime) scenario_job)
    as (enhanced & simple & He & _ & H1 & H2 & _).
  - repeat (apply List.Forall_cons;
            [split; [vm_compute; discriminate
                    | apply (bool_decide_eq_true_1 _); vm_compute; reflexivity]|]).
    apply List.Forall_nil.
  - exists enhanced. split; [exact He|]. split; [exact H1 | exact H2].
Defined.


(** A reply that spells the score's name in camel case. *)
Lemma camel_case_score_gives_NaN :
  let report :=
    EnhancedAnalysisService.combineAnalysisResults (H := sample_runtime)
      {| hard_match_score := JS.of_Z 40; matched_skills := ["React"; "TypeScript"];
         missing_skills := ["JavaScript"; "Node.js"; "AWS"];
         critical_missing_skills := ["JavaScript"; "Node.js"] |}
      [("semanticMatchScore", EnhancedAnalysisService.num 90)]
      scenario_job in
  EnhancedAnalysisService.relevance_score report = JS.NaN
  /\ EnhancedAnalysisService.verdict report = Low.
Proof.
  intros report.
  destruct (missing_semantic_score_gives_NaN_and_Low (rt := sample_runtime)
              {| hard_match_score := JS.of_Z 40; matched_skills := ["React"; "TypeScript"];
                 missing_skills := ["JavaScript"; "Node.js"; "AWS"];
                 critical_missing_skills := ["JavaScript"; "Node.js"] |}
              [("semanticMatchScore", EnhancedAnalysisService.num 90)]
              scenario_job) as (H1 & H2 & _);
    [vm_compute; reflexivity|].
  split; [exact H1 | exact H2].
Defined.

(** The scenario's resume when the request to the provider is rejected. *)
Lemma rejected_request_gives_63 :
  exists report,
    EnhancedAnalysisService.analyzeResumeEnhanced (H := sample_runtime)
      EnhancedAnalysisService.FetchRejected scenario_resume scenario_job
    = Some report
    /\ EnhancedAnalysisService.relevance_score report = JS.of_Z ((4 * 60 + 395) / 10)
    /\ EnhancedAnalysisService.verdict report <> High.
Proof.
  destruct (fallback_report_is_never_High (rt := sample_runtime)
              EnhancedAnalysisService.FetchRejected scenario_resume scenario_job
              {| hard_match_score := JS.of_Z 60;
                 matched_skills := ["JavaScript"; "React"; "TypeScript"];
                 missing_skills := ["Node.js"; "AWS"];
                 critical_missing_skills := ["Node.js"] |} 60)
    as (report & H0 & H1 & _ & _ & H4);
    [apply (failure_rejected (H := sample_runtime)) | lia | vm_compute; reflexivity
    | reflexivity |].
  exists report. split; [exact H0|]. split; [exact H1 | exact H4].
Defined.

(** Hard score 40 and semantic score 90. *)
Lemma relevance_between_40_and_90 :
  exists r : Z,
    Z.min 40 90 <= r <= Z.max 40 90
    /\ EnhancedAnalysisService.relevance_score
         (EnhancedAnalysisService.combineAnalysisResults (H := sample_runtime)
            {| hard_match_score := JS.of_Z 40; matched_skills := ["React"];
               missing_skills := ["AWS"]; critical_missing_skills := [] |}
            [("semantic_match_score", EnhancedAnalysisService.num 90)]
            scenario_job)
       = JS.of_Z r.
Proof.
  destruct (relevance_lies_between_the_scores (rt := sample_runtime) 40 90
              {| hard_match_score := JS.of_Z 40; matched_skills := ["React"];
                 missing_skills := ["AWS"]; critical_missing_skills := [] |}
              [("semantic_match_score", EnhancedAnalysisService.num 90)]
              scenario_job
              {| AIAnalysisService.p_hardMatchScore := Some (JS.of_Z 40);
                 AIAnalysisService.p_semanticMatchScore := None;
                 AIAnalysisService.p_matchedSkills := Some ["react"];
                 AIAnalysisService.p_missingSkills := Some ["aws"] |}
              {| AIAnalysisService.p_hardMatchScore := None;
                 AIAnalysisService.p_semanticMatchScore := Some (JS.of_Z 90);
                 AIAnalysisService.p_matchedSkills := None;
                 AIAnalysisService.p_missingSkills := None |})
    as (r & Hr & He & _);
    [lia | lia | reflexivity | reflexivity | reflexivity | reflexivity |].
  exists r. split; [exact Hr | exact He].
Defined.

(** The scenario's resume in the simple service: hard score 60. *)
Lemma scenario_simple_scores_ordered :
  exists report (s r : Z),
    SimpleAnalysisService.analyzeResumeSimple (H := sample_runtime)
      scenario_resume scenario_job
    = Some report
    /\ SimpleAnalysisService.semantic_match_score report = JS.of_Z s
    /\ SimpleAnalysisService.relevance_score report = JS.of_Z r
    /\ 60 <= r <= s.
Proof.
  assert (Hreturns : exists report,
             SimpleAnalysisService.analyzeResumeSimple (H := sample_runtime)
               scenario_resume scenario_job = Some report
             /\ SimpleAnalysisService.r_hard_match_score report = JS.of_Z 60)
    by (eexists; split; vm_compute; reflexivity).
  destruct Hreturns as (report & Hrep & Hhard).
  destruct (simple_scores_are_ordered (rt := sample_runtime)
              scenario_resume scenario_job report 60)
    as (s & r & Hs & Hr & _ & Hle & _); [lia | exact Hrep | exact Hhard |].
  exists report, s, r. split; [exact Hrep|]. split; [exact Hs|]. split; [exact Hr | exact Hle].
Defined.

(** The scenario's resume in the simple service: relevance 62. *)
Lemma scenario_simple_breakdown :
  let hardMatch :=
    {| hard_match_score := JS.of_Z 60;
       matched_skills := ["JavaScript"; "React"; "TypeScript"];
       missing_skills := ["Node.js"; "AWS"];
       critical_missing_skills := ["Node.js"] |} in
  exists report,
    SimpleAnalysisService.generateComprehensiveAnalysis (H := sample_runtime)
      hardMatch scenario_job scenario_resume
    = Some report
    /\ SimpleAnalysisService.experience_match
         (SimpleAnalysisService.scoring_breakdown report)
       = JS.of_Z (Z.max 40 (62 - 20))
    /\ SimpleAnalysisService.confidence_score report
       = JS.of_Z (Z.max 75 (Z.min 95 (62 + 10))).
Proof.
  intros hardMatch.
  assert (Hreturns : exists report,
             SimpleAnalysisService.generateComprehensiveAnalysis (H := sample_runtime)
               hardMatch scenario_job scenario_resume = Some report
             /\ SimpleAnalysisService.relevance_score report = JS.of_Z 62)
    by (eexists; split; vm_compute; reflexivity).
  destruct Hreturns as (report & Hrep & Hrel).
  destruct (simple_breakdown_is_clamped (rt := sample_runtime)
              hardMatch scenario_job scenario_resume report 62)
    as (_ & H2 & _ & _ & _ & H6 & _); [lia | exact Hrep | exact Hrel |].
  exists report. split; [exact Hrep|]. split; [exact H2 | exact H6].
Defined.

(** The title of the second built-in job. *)
Lemma frontend_developer_gets_software_plan :
  SimpleAnalysisFeedback.getJobSpecificAnalysis (H := sample_runtime) "Frontend Developer"
  = SimpleAnalysisFeedback.softwareAnalysis.
Proof.
  apply (developer_titles_get_software_plan (rt := sample_runtime) "Frontend Developer").
  vm_compute. reflexivity.
Defined.

(** The reply carrying 150 in the multi-provider service. *)
Lemma reply_150_is_clamped_to_100 :
  AIAnalysisService.p_semanticMatchScore
    (AIAnalysisService.parseAIResponse (H := sample_runtime)
       (reply_150 "semanticMatchScore"))
  = Some (JS.of_Z 100).
Proof.
  destruct (reply_score_is_clamped (rt := sample_runtime)
              (reply_150 "semanticMatchScore")
              [("semanticMatchScore", EnhancedAnalysisService.num 150)]
              (JS.of_Z 150))
    as (r & Hr & _ & _ & _ & H100 & _);
    [vm_compute; reflexivity | vm_compute; reflexivity |].
  rewrite Hr, H100; [reflexivity | vm_compute; reflexivity].
Defined.

(** One provider fails, the next replies without an object, and a third
    would have replied with a score. *)
Lemma garbled_second_reply_gives_50 :
  AIAnalysisService.semanticMatchScore
    (AIAnalysisService.analyzeResume (H := sample_runtime)
       ([None] ++ Some "I cannot answer that." :: [Some (reply_150 "semanticMatchScore")])
       {| AIAnalysisService.resumeSkills := ["React"];
          AIAnalysisService.mustHave := ["react"; "aws"];
          AIAnalysisService.goodToHave := [] |})
  = JS.of_Z 50.
Proof.
  apply (first_reply_decides (rt := sample_runtime) [None]
           [Some (reply_150 "semanticMatchScore")] "I cannot answer that.").
  - apply List.Forall_cons; [reflexivity | apply List.Forall_nil].
  - vm_compute. reflexivity.
Defined.

(** Two providers, both failing, on a resume that matches one skill of
    two. *)
Lemma two_failing_providers :
  AIAnalysisService.analyzeResume (H := sample_runtime) [None; None]
    {| AIAnalysisService.resumeSkills := ["React"];
       AIAnalysisService.mustHave := ["react"; "aws"];
       AIAnalysisService.goodToHave := [] |}
  = AIAnalysisService.performBasicAnalysis (H := sample_runtime)
      {| AIAnalysisService.resumeSkills := ["React"];
         AIAnalysisService.mustHave := ["react"; "aws"];
         AIAnalysisService.goodToHave := [] |}.
Proof.
  apply (all_providers_failing_gives_basic_analysis (rt := sample_runtime) [None; None]).
  apply List.Forall_cons; [reflexivity|].
  apply List.Forall_cons; [reflexivity | apply List.Forall_nil].
Defined.

(** The scenario's job lists five distinct skills. *)
Lemma scenario_hard_matches_agree :
  let hardMatch :=
    {| hard_match_score := JS.of_Z 60;
       matched_skills := ["JavaScript"; "React"; "TypeScript"];
       missing_skills := ["Node.js"; "AWS"];
       critical_missing_skills := ["Node.js"] |} in
  EnhancedAnalysisService.performHardMatch (H := sample_runtime)
    scenario_resume scenario_job
  = Some hardMatch
  /\ SimpleAnalysisService.performHardMatch (H := sample_runtime)
       scenario_resume scenario_job
     = Some hardMatch
  /\ (EnhancedAnalysisService.performHardMatch (H := sample_runtime)
        scenario_resume scenario_job = None
      <-> SimpleAnalysisService.performHardMatch (H := sample_runtime)
            scenario_resume scenario_job = None).
Proof.
  intros hardMatch.
  assert (Hnd : NoDup (must_have_skills scenario_job ++ good_to_have_skills scenario_job)).
  { eapply bool_decide_eq_true_1. vm_compute. reflexivity. }
  split; [vm_compute; reflexivity|]. split; [vm_compute; reflexivity|].
  destruct (hard_matches_agree_without_repeats (rt := sample_runtime)
              scenario_resume scenario_job Hnd) as [Hnone _].
  exact Hnone.
Defined.

(** The scenario's job asks for neither soft skill. *)
Lemma scenario_soft_skills_missing :
  let hardMatch :=
    {| hard_match_score := JS.of_Z 60;
       matched_skills := ["JavaScript"; "React"; "TypeScript"];
       missing_skills := ["Node.js"; "AWS"];
       critical_missing_skills := ["Node.js"] |} in
  "Communication"
    ∈ SimpleAnalysisFeedback.missing
        (SimpleAnalysisFeedback.soft_skills
           (SimpleAnalysisFeedback.skills_breakdown
              (SimpleAnalysisFeedback.generateFeedback (H := sample_runtime)
                 hardMatch scenario_job))).
Proof.
  intros hardMatch.
  destruct (soft_skills_missing_unless_matched (rt := sample_runtime)
              scenario_resume scenario_job hardMatch "Communication") as [Hsoft _];
    [vm_compute; reflexivity|].
  apply Hsoft. split; [apply list_elem_of_here|].
  intros [Hin _]. vm_compute in Hin.
  repeat (apply elem_of_cons in Hin as [Hin|Hin]; [discriminate Hin|]).
  by apply elem_of_nil in Hin.
Defined.

(** A reply without a closing brace: no object can be extracted, and the
    report carries the fallback score. *)
Lemma reply_without_object_gives_fallback :
  let response :=
    EnhancedAnalysisService.FetchResponse true 200
      (Some (reply_body "The candidate looks strong. {score: high")) in
  exists report,
    EnhancedAnalysisService.analyzeResumeEnhanced (H := sample_runtime)
      response scenario_resume scenario_job
    = Some report
    /\ EnhancedAnalysisService.performLLMAnalysis (H := sample_runtime) response
       = EnhancedAnalysisService.getFallbackSemanticAnalysis
    /\ EnhancedAnalysisService.semantic_match_score report
       = EnhancedAnalysisService.num 65.
Proof.
  intros response.
  assert (Hfail : SemanticFailure (H := sample_runtime) response).
  { apply (failure_no_object (H := sample_runtime) 200 _
             "The candidate looks strong. {score: high");
      [apply replyText_reply_body | vm_compute; reflexivity]. }
  destruct (semantic_failure_yields_fallback_report (rt := sample_runtime) response
              scenario_resume scenario_job
              {| hard_match_score := JS.of_Z 60;
                 matched_skills := ["JavaScript"; "React"; "TypeScript"];
                 missing_skills := ["Node.js"; "AWS"];
                 critical_missing_skills := ["Node.js"] |} Hfail)
    as (report & H0 & H1 & _ & _ & H4 & _); [vm_compute; reflexivity|].
  exists report. split; [exact H0|]. split; [exact H1 | exact H4].
Defined.
